(** * Part-label: the label layout engine of [partslabel.py]

    A shallow embedding of the functions of [partslabel.py] that decide the
    layout of the labels, and the properties of them that the specification
    states.

    Conventions of the embedding.
    - A Python [str] is a Rocq [string], one [ascii] per code point (the code
      points below 256); [len] is [String.length].
    - A Python value that a function tests with [not x] / [isinstance(x, str)]
      is a [PyVal].
    - A raised exception is the [Raise] branch of [result]; the loop of the
      generators runs in a state monad whose state survives a raise, as the
      Python locals [elements] and [label_count] do.
    - pandas and reportlab are libraries, not code of this repository: the
      operations used of them ([DataFrame.groupby], [head], [iloc],
      [Paragraph], [Table]) are embedded with their documented behaviour,
      and the two tables that are theirs (upper-casing of a name, acceptance
      of a paragraph's markup) are variables of a section.
    - The cells of a frame are text and the labels of its columns are
      distinct, also once upper-cased (pandas refuses to group by a label
      that occurs twice, and looks up a column of cells under it); the two
      callbacks, when given, return.
    - [doc.build] is the renderer's: the outcome [Ok (Some elements)] of a
      run stands for the call [doc.build(elements)] and for the buffer
      returned when the renderer builds the document; what the renderer
      raises while it builds is not embedded, and a property of a returned
      document is a property of the flowables given to the renderer.
    - Lengths in centimetres (column widths, row heights, spacers) are
      floating point numbers and take no part in any property below; they
      are left out of [Table] and [Spacer]. *)

From Stdlib Require Import String Ascii List Bool Arith ZArith Lia.
From Stdlib Require Import Sorting.Sorted DecimalString.
From Equations Require Import Equations.
Import ListNotations.

Open Scope list_scope.
Open Scope string_scope.

(** ** Exceptions and results *)

Inductive Exc : Type :=
| IndexError
| KeyError
| ValueError.

Inductive result (A : Type) : Type :=
| Ok (a : A)
| Raise (e : Exc).
Arguments Ok {A} a.
Arguments Raise {A} e.

Definition rbind {A B} (r : result A) (k : A -> result B) : result B :=
  match r with
  | Ok a => k a
  | Raise e => Raise e
  end.

(** ** Python values and strings *)

Module Py.

(** A value as the formatting and parsing functions see it: [None], a
    string, or any other object, of which only the truth value and the
    text [str(x)] matter. *)
Inductive PyVal : Type :=
| PyNone
| PyStr (s : string)
| PyObj (truth : bool) (repr : string).

(** [bool(x)] *)
Definition truthy (x : PyVal) : bool :=
  match x with
  | PyNone => false
  | PyStr s => negb (s =? "")
  | PyObj t _ => t
  end.

(** [isinstance(x, str)] *)
Definition isinstance_str (x : PyVal) : bool :=
  match x with
  | PyStr _ => true
  | _ => false
  end.

(** [str(x)] *)
Definition str (x : PyVal) : string :=
  match x with
  | PyNone => "None"
  | PyStr s => s
  | PyObj _ r => r
  end.

(** [c.isspace()], which is also the class [\s] of [re] on [str]
    patterns: the white space of Unicode below code point 256. *)
Definition isspace (c : ascii) : bool :=
  let n := nat_of_ascii c in
  (((9 <=? n) && (n <=? 13)) || ((28 <=? n) && (n <=? 32))
   || (n =? 133) || (n =? 160))%nat.

(** [s.lstrip()], [s.rstrip()], [s.strip()] *)
Fixpoint lstrip (s : string) : string :=
  match s with
  | "" => ""
  | String c r => if isspace c then lstrip r else s
  end.

Fixpoint rstrip (s : string) : string :=
  match s with
  | "" => ""
  | String c r =>
      match rstrip r with
      | "" => if isspace c then "" else String c ""
      | r' => String c r'
      end
  end.

Definition strip (s : string) : string := rstrip (lstrip s).

(** An index of a slice, clamped as Python does: a negative index counts
    from the end. *)
Definition clamp (n i : Z) : Z :=
  if (i <? 0)%Z then Z.max 0 (n + i) else Z.min i n.

(** [s[lo:hi]], either bound possibly absent. *)
Definition slice (s : string) (lo hi : option Z) : string :=
  let n := Z.of_nat (String.length s) in
  let a := match lo with None => 0%Z | Some i => clamp n i end in
  let b := match hi with None => n | Some j => clamp n j end in
  substring (Z.to_nat a) (Z.to_nat (b - a)) s.

(** [sub in s] *)
Fixpoint contains (sub s : string) : bool :=
  prefix sub s
  || match s with
     | "" => false
     | String _ r => contains sub r
     end.

(** The longest prefix of [s] whose characters satisfy [p], and the rest. *)
Fixpoint span (p : ascii -> bool) (s : string) : string * string :=
  match s with
  | "" => ("", "")
  | String c r =>
      if p c then let (m, rest) := span p r in (String c m, rest)
      else ("", s)
  end.

(** The character class [[^_\s]] of the location pattern. *)
Definition token_char (c : ascii) : bool :=
  negb (Ascii.eqb c "_") && negb (isspace c).

(** [re.findall(r'([^_\s]+)', s)]: scan from the left; where the class
    matches, the greedy [+] takes the whole run and the scan resumes after
    it; where it does not, the scan moves one character on. *)
Equations? findall (s : string) : list string by wf (String.length s) lt :=
  findall "" := [];
  findall (String c r) with token_char c => {
    | true := String c (fst (span token_char r))
              :: findall (snd (span token_char r));
    | false := findall r }.
Proof.
  clear. induction r as [|d r IH]; simpl; [lia|].
  destruct (token_char d); simpl; [|lia].
  destruct (span token_char r); simpl in *. lia.
Qed.

(** [l[i] = v], an [IndexError] out of range. *)
Fixpoint setitem {A} (l : list A) (i : nat) (v : A) : result (list A) :=
  match l, i with
  | [], _ => Raise IndexError
  | _ :: t, 0 => Ok (v :: t)
  | x :: t, S j => rbind (setitem t j v) (fun t' => Ok (x :: t'))
  end.

(** [enumerate(l)] *)
Definition enumerate {A} (l : list A) : list (nat * A) :=
  combine (seq 0 (List.length l)) l.

End Py.

(** ** The Location Parser *)

(** The body of the [for] loop of the two parsers:
    [for i, match in enumerate(matches[:7]): location_parts[i] = match]. *)
Definition fill_parts (location_parts : list string) (matches : list string)
  : result (list string) :=
  fold_left
    (fun acc im => rbind acc (fun parts => Py.setitem parts (fst im) (snd im)))
    (Py.enumerate (firstn 7 matches))
    (Ok location_parts).

Definition parse_location_string_v1 (location_str : Py.PyVal)
  : result (list string) :=
  let location_parts := repeat "" 7 in
  if negb (Py.truthy location_str) || negb (Py.isinstance_str location_str)
  then Ok location_parts
  else
    let location_str := Py.strip (Py.str location_str) in
    let matches := Py.findall location_str in
    fill_parts location_parts matches.

Definition parse_location_string_v2 (location_str : Py.PyVal)
  : result (list string) :=
  let location_parts := repeat "" 7 in
  if negb (Py.truthy location_str) || negb (Py.isinstance_str location_str)
  then Ok location_parts
  else
    let location_str := Py.strip (Py.str location_str) in
    let matches := Py.findall location_str in
    fill_parts location_parts matches.

(** ** reportlab: styles, paragraphs, tables *)

Inductive Alignment : Type := TA_LEFT | TA_CENTER.

Record ParagraphStyle : Type := mkParagraphStyle {
  name : string;
  fontName : string;
  fontSize : nat;
  alignment : Alignment;
  leading : nat;
  spaceBefore : nat;
  spaceAfter : nat
}.

(** A paragraph that was built: its markup text and its style. *)
Record ParagraphObj : Type := mkParagraph {
  para_text : string;
  para_style : ParagraphStyle
}.

Inductive Color : Type :=
| black
| HexColor (hex : string).

(** The value of a table style command. *)
Inductive CmdArg : Type :=
| ALine (width : nat) (c : Color)
| AStr (s : string)
| ANum (n : nat)
| AColor (c : Color).

(** A table style command [(name, (c0, r0), (c1, r1), value)]: the value
    applies to the cells of columns [c0..c1] and rows [r0..r1]; a negative
    coordinate counts from the end. *)
Record StyleCmd : Type := cmd {
  cmd_name : string;
  cmd_c0 : Z;
  cmd_r0 : Z;
  cmd_c1 : Z;
  cmd_r1 : Z;
  cmd_arg : CmdArg
}.
Arguments cmd cmd_name%_string_scope (cmd_c0 cmd_r0 cmd_c1 cmd_r1)%_Z_scope
  cmd_arg.

Inductive CellContent : Type :=
| Text (s : string)
| Flow (p : ParagraphObj).

(** The flowables that the generators append to [elements]. A [Table] is the
    table with the style that [setStyle] gave it. *)
Inductive Flowable : Type :=
| Table (data : list (list CellContent)) (style : list StyleCmd)
| Spacer
| PageBreak.

(** The module-level styles. *)
Definition bold_style_v1 : ParagraphStyle :=
  mkParagraphStyle "Bold_v1" "Helvetica-Bold" 10 TA_LEFT 20 2 2.

Definition bold_style_v2 : ParagraphStyle :=
  mkParagraphStyle "Bold_v2" "Helvetica-Bold" 10 TA_LEFT 12 0 15.

Definition desc_style : ParagraphStyle :=
  mkParagraphStyle "Description" "Helvetica" 20 TA_LEFT 16 2 2.

(** [if not x or not isinstance(x, str): x = str(x)]; afterwards [x] is a
    string. *)
Definition ensure_str (x : Py.PyVal) : string :=
  if negb (Py.truthy x) || negb (Py.isinstance_str x) then Py.str x
  else match x with
       | Py.PyStr s => s
       | _ => Py.str x
       end.

(** ** pandas: frames, rows, groups *)

Definition Row : Type := list string.

(** A frame: the column labels and the rows, each row holding its cells in
    the order of the labels. Cells are text. Assigning [df.columns] replaces
    the labels and leaves the cells where they are. *)
Record DataFrame : Type := mkDataFrame {
  columns : list string;
  rows : list Row
}.

Definition set_columns (df : DataFrame) (labels : list string) : DataFrame :=
  mkDataFrame labels (rows df).

(** The position of a label among the columns: the first, the labels of a
    frame being distinct. *)
Fixpoint column_index (cols : list string) (col : string) : option nat :=
  match cols with
  | [] => None
  | c :: r => if c =? col then Some 0
              else option_map S (column_index r col)
  end.

(** [row[col]] on a row of a frame with columns [cols]. *)
Definition getcell (cols : list string) (row : Row) (col : string)
  : result string :=
  match column_index cols col with
  | None => Raise KeyError
  | Some i => match nth_error row i with
              | Some v => Ok v
              | None => Raise KeyError
              end
  end.

(** [l[i]] on a list, and [parts.iloc[i]] on the rows of a frame. *)
Definition getitem {A} (l : list A) (i : nat) : result A :=
  match nth_error l i with
  | Some x => Ok x
  | None => Raise IndexError
  end.

Definition iloc (parts : list Row) (i : nat) : result Row := getitem parts i.

(** [group.head(n)] *)
Definition head (n : nat) (group : list Row) : list Row := firstn n group.

(** The keys of a grouping: [groupby] sorts them (its default [sort=True]),
    each key once, strings compared code point by code point. *)
Fixpoint insert_key (k : string) (keys : list string) : list string :=
  match keys with
  | [] => [k]
  | x :: r => match String.compare k x with
              | Lt => k :: x :: r
              | Eq => x :: r
              | Gt => x :: insert_key k r
              end
  end.

Definition group_keys (values : list string) : list string :=
  fold_right insert_key [] values.

(** [df.groupby(by)], as the [for] loop iterates it: the pairs of a key and
    the rows that carry it, keys ascending, rows in the order of the frame;
    on the frames of the embedding, whose labels are distinct and whose
    cells are text. *)
Definition groupby (df : DataFrame) (by_col : string)
  : result (list (string * list Row)) :=
  match column_index (columns df) by_col with
  | None => Raise KeyError
  | Some i =>
      let key (r : Row) := nth i r "" in
      Ok (map (fun k => (k, filter (fun r => key r =? k) (rows df)))
              (group_keys (map key (rows df))))
  end.

(** ** The Column Resolver *)

(** [next((x for x in l if p(x)), default)] *)
Definition next {A} (p : A -> bool) (l : list A) (default : option A)
  : option A :=
  match find p l with
  | Some x => Some x
  | None => default
  end.

(** [if not x: x = alt], for [x] a column name or [None]. *)
Definition if_not (x : option string) (alt : result string) : result string :=
  match x with
  | Some s => if s =? "" then alt else Ok s
  | None => alt
  end.

(** Lines 165-175 (v1) and 352-362 (v2), the same text: the three columns
    found among the upper-cased names [cols]. *)
Definition resolve_columns (cols : list string)
  : result (string * string * string) :=
  let part_no_col :=
    next (fun col => Py.contains "PART" col
                     && (Py.contains "NO" col || Py.contains "NUM" col
                         || Py.contains "#" col))
         cols
         (next (fun col => existsb (String.eqb col) ["PARTNO"; "PART"])
               cols None) in
  let desc_col := next (fun col => Py.contains "DESC" col) cols None in
  let loc_col :=
    next (fun col => Py.contains "LOC" col || Py.contains "POS" col)
         cols None in
  rbind (if_not part_no_col (getitem cols 0)) (fun part_no_col =>
  rbind (if_not desc_col
           (if (1 <? List.length cols)%nat then getitem cols 1
            else Ok part_no_col)) (fun desc_col =>
  rbind (if_not loc_col
           (if (2 <? List.length cols)%nat then getitem cols 2
            else Ok desc_col)) (fun loc_col =>
  Ok (part_no_col, desc_col, loc_col)))).

(** ** The table styles of the two generators *)

Definition part_table_style_v1 : list StyleCmd :=
  [ cmd "GRID" 0 0 (-1) (-1) (ALine 1 black);
    cmd "ALIGN" 0 0 0 (-1) (AStr "CENTRE");
    cmd "ALIGN" 1 0 1 (-1) (AStr "LEFT");
    cmd "VALIGN" 0 0 0 0 (AStr "MIDDLE");
    cmd "VALIGN" 1 0 1 0 (AStr "MIDDLE");
    cmd "VALIGN" 0 1 0 1 (AStr "MIDDLE");
    cmd "VALIGN" 1 1 1 1 (AStr "MIDDLE");
    cmd "LEFTPADDING" 0 0 (-1) (-1) (ANum 5);
    cmd "RIGHTPADDING" 0 0 (-1) (-1) (ANum 5);
    cmd "TOPPADDING" 0 0 (-1) (-1) (ANum 3);
    cmd "BOTTOMPADDING" 0 0 (-1) (-1) (ANum 3);
    cmd "FONTNAME" 0 0 0 (-1) (AStr "Helvetica");
    cmd "FONTSIZE" 0 0 0 (-1) (ANum 16) ]%list.

Definition part_table_style_v2 : list StyleCmd :=
  [ cmd "GRID" 0 0 (-1) (-1) (ALine 1 black);
    cmd "ALIGN" 0 0 0 (-1) (AStr "CENTER");
    cmd "ALIGN" 1 0 1 0 (AStr "CENTER");
    cmd "ALIGN" 1 1 1 (-1) (AStr "LEFT");
    cmd "VALIGN" 0 0 0 0 (AStr "MIDDLE");
    cmd "VALIGN" 1 0 1 0 (AStr "TOP");
    cmd "VALIGN" 0 1 0 1 (AStr "MIDDLE");
    cmd "VALIGN" 1 1 1 1 (AStr "MIDDLE");
    cmd "LEFTPADDING" 0 0 (-1) (-1) (ANum 5);
    cmd "RIGHTPADDING" 0 0 (-1) (-1) (ANum 5);
    cmd "TOPPADDING" 1 0 1 0 (ANum 10);
    cmd "BOTTOMPADDING" 1 0 1 0 (ANum 5);
    cmd "FONTNAME" 0 0 0 (-1) (AStr "Helvetica");
    cmd "FONTSIZE" 0 0 0 (-1) (ANum 16) ]%list.

(** [location_colors], the same list in both generators. *)
Definition location_colors : list Color :=
  [ HexColor "#E9967A";
    HexColor "#ADD8E6";
    HexColor "#90EE90";
    HexColor "#FFD700";
    HexColor "#ADD8E6";
    HexColor "#E9967A";
    HexColor "#90EE90" ]%list.

(** [location_style] before the loop over the colors; [values_size] is the
    font size of the seven value cells, 14 in v1 and 16 in v2. *)
Definition location_style_base (values_size : nat) : list StyleCmd :=
  [ cmd "GRID" 0 0 (-1) (-1) (ALine 1 black);
    cmd "ALIGN" 0 0 (-1) (-1) (AStr "CENTER");
    cmd "VALIGN" 0 0 0 0 (AStr "TOP");
    cmd "VALIGN" 1 0 (-1) 0 (AStr "TOP");
    cmd "FONTNAME" 0 0 (-1) (-1) (AStr "Helvetica");
    cmd "FONTSIZE" 0 0 0 0 (ANum 16);
    cmd "FONTSIZE" 1 0 (-1) (-1) (ANum values_size) ]%list.

(** [for j, color in enumerate(location_colors):
       location_style.append(('BACKGROUND', (j+1, 0), (j+1, 0), color))] *)
Definition location_style (values_size : nat) : list StyleCmd :=
  fold_left
    (fun style jc =>
       let j := Z.of_nat (fst jc) in
       (style ++ [cmd "BACKGROUND" (j + 1) 0 (j + 1) 0 (AColor (snd jc))])%list)
    (Py.enumerate location_colors)
    (location_style_base values_size).

(** [Table([['Part Location'] + location_values], ...)] with its style. *)
Definition location_table (values_size : nat) (location_values : list string)
  : Flowable :=
  Table [ (Text "Part Location" :: map Text location_values)%list ]%list
        (location_style values_size).

(** ** The state of a run *)

(** What the two optional callbacks are told. [Progress i total] stands for
    [progress_bar.progress(int((i / total) * 100))]. *)
Inductive Event : Type :=
| Progress (i total : nat)
| ProgressDone
| StatusUsingColumns (part_no_col desc_col loc_col : string)
| StatusProcessing (position total : nat) (location : string)
| StatusError (location : string) (e : Exc)
| StatusBuilding
| StatusNoLabels.

(** The locals that the loop updates, and the calls made to the callbacks. *)
Record LoopState : Type := mkLoopState {
  elements : list Flowable;
  label_count : nat;
  events : list Event
}.

(** A computation on the state that may raise; the state is kept on a
    raise. *)
Definition M (A : Type) : Type := LoopState -> result A * LoopState.

Definition ret {A} (a : A) : M A := fun st => (Ok a, st).

Definition bind {A B} (m : M A) (k : A -> M B) : M B :=
  fun st => match m st with
            | (Ok a, st') => k a st'
            | (Raise e, st') => (Raise e, st')
            end.

Definition lift {A} (r : result A) : M A := fun st => (r, st).

Declare Scope monad_scope.
Delimit Scope monad_scope with monad.
Notation "x <- m ;; k" := (bind m (fun x => k))
  (at level 61, m at next level, right associativity) : monad_scope.
Notation "m ;; k" := (bind m (fun _ => k))
  (at level 61, right associativity) : monad_scope.
Open Scope monad_scope.

(** [try: m except Exception as e: handler(e)] *)
Definition try_except (m : M unit) (handler : Exc -> M unit) : M unit :=
  fun st => match m st with
            | (Ok a, st') => (Ok a, st')
            | (Raise e, st') => handler e st'
            end.

(** [elements.append(f)] *)
Definition append (f : Flowable) : M unit :=
  fun st => (Ok tt, mkLoopState (elements st ++ [f])%list (label_count st)
                                (events st)).

Definition get_label_count : M nat := fun st => (Ok (label_count st), st).

(** [label_count += 1] *)
Definition incr_label_count : M unit :=
  fun st => (Ok tt, mkLoopState (elements st) (S (label_count st))
                                (events st)).

(** A call to a callback. *)
Definition tell (ev : Event) : M unit :=
  fun st => (Ok tt, mkLoopState (elements st) (label_count st)
                                (events st ++ [ev])%list).

(** [if c: m] *)
Definition when (c : bool) (m : M unit) : M unit := if c then m else ret tt.

(** [for x in l: body(x)] *)
Fixpoint for_each {A} (body : A -> M unit) (l : list A) : M unit :=
  match l with
  | [] => ret tt
  | x :: r => body x ;; for_each body r
  end.

Definition MAX_LABELS_PER_PAGE : nat := 4.

(** What a generator leaves behind: the value returned or the exception
    raised, the frame of the caller as the run left it, and the calls made
    to the callbacks. A returned buffer is the document that was built: the
    flowables given to [doc.build], whose own failures are the renderer's
    and are not part of the outcome. *)
Record Run : Type := mkRun {
  outcome : result (option (list Flowable));
  frame : DataFrame;
  calls : list Event
}.

Section Engine.

(** [str.upper], the case table of the interpreter. *)
Variable upper : string -> string.

(** Whether reportlab's paragraph parser accepts a markup text; the
    constructor [Paragraph] raises [ValueError] when it does not. *)
Variable markup_ok : string -> bool.

Definition Paragraph (text : string) (style : ParagraphStyle)
  : result ParagraphObj :=
  if markup_ok text then Ok (mkParagraph text style) else Raise ValueError.

(** ** The Typography Selector *)

Definition format_part_no_v1 (part_no : Py.PyVal) : result ParagraphObj :=
  let part_no := ensure_str part_no in
  if (5 <? String.length part_no)%nat then
    let split_point := (Z.of_nat (String.length part_no) - 5)%Z in
    let part1 := Py.slice part_no None (Some split_point) in
    let part2 := Py.slice part_no (Some (-5)%Z) None in
    Paragraph ("<b><font size=17>" ++ part1 ++ "</font><font size=22>"
               ++ part2 ++ "</font></b>") bold_style_v1
  else
    Paragraph ("<b><font size=17>" ++ part_no ++ "</font></b>")
              bold_style_v1.

Definition format_part_no_v2 (part_no : Py.PyVal) : result ParagraphObj :=
  let part_no := ensure_str part_no in
  if (5 <? String.length part_no)%nat then
    let split_point := (Z.of_nat (String.length part_no) - 5)%Z in
    let part1 := Py.slice part_no None (Some split_point) in
    let part2 := Py.slice part_no (Some (-5)%Z) None in
    Paragraph ("<b><font size=34>" ++ part1 ++ "</font><font size=40>"
               ++ part2 ++ "</font></b><br/><br/>") bold_style_v2
  else
    Paragraph ("<b><font size=34>" ++ part_no ++ "</font></b><br/><br/>")
              bold_style_v2.

(** The font size and the text that [format_description_v1] settles on. *)
Definition description_v1_directive (desc : string) : nat * string :=
  let desc_length := String.length desc in
  if (desc_length <=? 30)%nat then (15, desc)
  else if (desc_length <=? 50)%nat then (13, desc)
  else if (desc_length <=? 70)%nat then (11, desc)
  else if (desc_length <=? 90)%nat then (10, desc)
  else (9, if (100 <? String.length desc)%nat
           then Py.slice desc None (Some 100%Z) ++ "..."
           else desc).

Definition format_description_v1 (desc : Py.PyVal) : result ParagraphObj :=
  let desc := ensure_str desc in
  let (font_size, desc) := description_v1_directive desc in
  let desc_style_v1 :=
    mkParagraphStyle "Description_v1" "Helvetica" font_size TA_LEFT
                     (font_size + 2) 1 1 in
  Paragraph desc desc_style_v1.

Definition format_description (desc : Py.PyVal) : result ParagraphObj :=
  let desc := ensure_str desc in
  Paragraph desc desc_style.

(** ** The generators *)

(** Lines 199-209: the two rows that fill a v1 label, or [None] where the
    loop says [continue]. *)
Definition select_parts_v1 (group : list Row) : result (option (Row * Row)) :=
  let parts := head 2 group in
  if (List.length parts <? 2)%nat then
    if (List.length parts =? 1)%nat then
      rbind (iloc parts 0) (fun part1 =>
      rbind (iloc parts 0) (fun part2 =>
      Ok (Some (part1, part2))))
    else Ok None
  else
    rbind (iloc parts 0) (fun part1 =>
    rbind (iloc parts 1) (fun part2 =>
    Ok (Some (part1, part2)))).

(** Lines 386-394: the row that fills a v2 label. *)
Definition select_parts_v2 (group : list Row) : result (option Row) :=
  let parts := head 2 group in
  if (List.length parts <? 2)%nat then
    if (List.length parts =? 1)%nat then
      rbind (iloc parts 0) (fun part1 => Ok (Some part1))
    else Ok None
  else
    rbind (iloc parts 0) (fun part1 => Ok (Some part1)).

(** Lines 211-214 and 396-399. *)
Definition page_break_and_count : M unit :=
  label_count <- get_label_count ;;
  when ((0 <? label_count)%nat
        && (label_count mod MAX_LABELS_PER_PAGE =? 0)%nat)
       (append PageBreak) ;;
  incr_label_count.

Section Loop.

(** The names fixed before the loop. *)
Variable cols : list string.
Variables part_no_col desc_col loc_col : string.
Variables progress_bar status_text : bool.
Variable total_locations : nat.

(** Lines 192-197, the head of the [try] block. *)
Definition report_group (i : nat) (location : string) : M unit :=
  when progress_bar (tell (Progress i total_locations)) ;;
  when status_text
       (tell (StatusProcessing (i + 1) total_locations location)).

(** Lines 216-309: the cells of the two rows, the parsed location, and
    the three tables of a v1 label. Nothing is appended yet. *)
Definition build_tables_v1 (part1 part2 : Row)
  : result (Flowable * Flowable * Flowable) :=
  rbind (getcell cols part1 part_no_col) (fun part_no_1 =>
  rbind (getcell cols part1 desc_col) (fun desc_1 =>
  rbind (getcell cols part2 part_no_col) (fun part_no_2 =>
  rbind (getcell cols part2 desc_col) (fun desc_2 =>
  rbind (getcell cols part1 loc_col) (fun location_str =>
  rbind (parse_location_string_v1 (Py.PyStr location_str))
        (fun location_values =>
  rbind (format_part_no_v1 (Py.PyStr part_no_1)) (fun p1 =>
  rbind (format_description_v1 (Py.PyStr desc_1)) (fun d1 =>
  let part_table :=
    Table [ [Text "Part No"; Flow p1];
            [Text "Description"; Flow d1] ]%list
          part_table_style_v1 in
  rbind (format_part_no_v1 (Py.PyStr part_no_2)) (fun p2 =>
  rbind (format_description_v1 (Py.PyStr desc_2)) (fun d2 =>
  let part_table2 :=
    Table [ [Text "Part No"; Flow p2];
            [Text "Description"; Flow d2] ]%list
          part_table_style_v1 in
  Ok (part_table, part_table2, location_table 14 location_values)
  )))))))))).

(** Lines 401-468: the two tables of a v2 label. *)
Definition build_tables_v2 (part1 : Row) : result (Flowable * Flowable) :=
  rbind (getcell cols part1 part_no_col) (fun part_no =>
  rbind (getcell cols part1 desc_col) (fun desc =>
  rbind (getcell cols part1 loc_col) (fun location_str =>
  rbind (parse_location_string_v2 (Py.PyStr location_str))
        (fun location_values =>
  rbind (format_part_no_v2 (Py.PyStr part_no)) (fun p =>
  rbind (format_description (Py.PyStr desc)) (fun d =>
  let part_table :=
    Table [ [Text "Part No"; Flow p];
            [Text "Description"; Flow d] ]%list
          part_table_style_v2 in
  Ok (part_table, location_table 16 location_values))))))).

(** One turn of the loop of [generate_labels_from_excel_v1]. *)
Definition process_group_v1 (item : nat * (string * list Row)) : M unit :=
  let i := fst item in
  let location := fst (snd item) in
  let group := snd (snd item) in
  try_except
    (report_group i location ;;
     selected <- lift (select_parts_v1 group) ;;
     match selected with
     | None => ret tt
     | Some (part1, part2) =>
         page_break_and_count ;;
         tables <- lift (build_tables_v1 part1 part2) ;;
         let '(part_table, part_table2, location_table) := tables in
         append part_table ;;
         append Spacer ;;
         append part_table2 ;;
         append location_table ;;
         append Spacer
     end)
    (fun e => when status_text (tell (StatusError location e))).

(** One turn of the loop of [generate_labels_from_excel_v2]. *)
Definition process_group_v2 (item : nat * (string * list Row)) : M unit :=
  let i := fst item in
  let location := fst (snd item) in
  let group := snd (snd item) in
  try_except
    (report_group i location ;;
     selected <- lift (select_parts_v2 group) ;;
     match selected with
     | None => ret tt
     | Some part1 =>
         page_break_and_count ;;
         tables <- lift (build_tables_v2 part1) ;;
         let '(part_table, location_table) := tables in
         append part_table ;;
         append Spacer ;;
         append location_table ;;
         append Spacer
     end)
    (fun e => when status_text (tell (StatusError location e))).

End Loop.

(** The run of a generator, [process_group] being the turn of its loop and
    [df] the frame of the caller. *)
Definition generate
  (process_group :
     list string -> string -> string -> string -> bool -> bool -> nat ->
     nat * (string * list Row) -> M unit)
  (df : DataFrame) (progress_bar status_text : bool) : Run :=
  let df := set_columns df (map upper (columns df)) in
  let cols := columns df in
  match resolve_columns cols with
  | Raise e => mkRun (Raise e) df []
  | Ok (part_no_col, desc_col, loc_col) =>
      let told :=
        if status_text
        then [StatusUsingColumns part_no_col desc_col loc_col]%list
        else []%list in
      match groupby df loc_col with
      | Raise e => mkRun (Raise e) df told
      | Ok df_grouped =>
          let total_locations := List.length df_grouped in
          let loop :=
            for_each
              (process_group cols part_no_col desc_col loc_col
                             progress_bar status_text total_locations)
              (Py.enumerate df_grouped) ;;
            when progress_bar (tell ProgressDone) in
          match loop (mkLoopState [] 0 told) with
          | (Raise e, st) => mkRun (Raise e) df (events st)
          | (Ok _, st) =>
              match elements st with
              | [] =>
                  mkRun (Ok None) df
                        (events st
                         ++ if status_text then [StatusNoLabels] else [])%list
              | _ :: _ =>
                  mkRun (Ok (Some (elements st))) df
                        (events st
                         ++ if status_text then [StatusBuilding] else [])%list
              end
          end
      end
  end.

Definition generate_labels_from_excel_v1 := generate process_group_v1.

Definition generate_labels_from_excel_v2 := generate process_group_v2.

End Engine.

(** ** The words of the specification *)

(** The white space of a text: the space, the tab, the line feed, the
    vertical tab, the form feed, the carriage return, the four information
    separators, the next line and the no-break space. *)
Definition white_space_characters : list ascii :=
  [" "; "009"; "010"; "011"; "012"; "013";
   "028"; "029"; "030"; "031"; "133"; "160"]%char.

Definition white_space (c : ascii) : bool :=
  existsb (Ascii.eqb c) white_space_characters.

(** A separator of a location text: white space or the underscore. *)
Definition separator (c : ascii) : bool :=
  white_space c || Ascii.eqb c "_".

(** Every character of [w] is white space. *)
Fixpoint all_white (w : string) : bool :=
  match w with
  | "" => true
  | String c r => white_space c && all_white r
  end.

(** [t] begins, or ends, with white space. *)
Definition begins_with_white (t : string) : bool :=
  match t with
  | "" => false
  | String c _ => white_space c
  end.

Fixpoint ends_with_white (t : string) : bool :=
  match t with
  | "" => false
  | String c "" => white_space c
  | String _ r => ends_with_white r
  end.

(** [trimmed s t]: [t] is [s] without its leading and trailing white
    space. *)
Definition trimmed (s t : string) : Prop :=
  exists pre post : string,
    s = pre ++ t ++ post /\
    all_white pre = true /\ all_white post = true /\
    begins_with_white t = false /\ ends_with_white t = false.

(** Every character of [t] is a token character: neither white space nor
    an underscore. *)
Fixpoint all_token (t : string) : bool :=
  match t with
  | "" => true
  | String c r => negb (separator c) && all_token r
  end.

(** [s] is at its end or begins with a separator. *)
Definition at_separator (s : string) : Prop :=
  match s with
  | "" => True
  | String c _ => separator c = true
  end.

(** [tokens_of s ts]: [ts] are the maximal runs of token characters of [s],
    from left to right. A run is read where the text begins or a separator
    has just been skipped, and ends at a separator or at the end. *)
Inductive tokens_of : string -> list string -> Prop :=
| tokens_end : tokens_of "" []
| tokens_skip c s ts :
    separator c = true -> tokens_of s ts -> tokens_of (String c s) ts
| tokens_run t s ts :
    t <> "" -> all_token t = true -> at_separator s -> tokens_of s ts ->
    tokens_of (t ++ s) (t :: ts).

Arguments white_space : simpl never.
Arguments separator : simpl never.

(** The first seven of [tokens], padded with empty strings to seven. *)
Definition seven_fields (tokens : list string) : list string :=
  (firstn 7 tokens ++ repeat "" (7 - List.length (firstn 7 tokens)))%list.

(** The markup of a run of text at a font size, and of bold text. *)
Definition font (size : nat) (text : string) : string :=
  "<font size=" ++ NilEmpty.string_of_uint (Nat.to_uint size) ++ ">"
  ++ text ++ "</font>".

Definition bold (text : string) : string := "<b>" ++ text ++ "</b>".

(** The style of a v1 description at a font size. *)
Definition description_style_v1 (size : nat) : ParagraphStyle :=
  mkParagraphStyle "Description_v1" "Helvetica" size TA_LEFT (size + 2) 1 1.

(** [x] is the first element of [l] that satisfies [p]. *)
Definition is_first {A} (p : A -> bool) (l : list A) (x : A) : Prop :=
  exists before after,
    l = (before ++ x :: after)%list /\ p x = true /\
    forall y, In y before -> p y = false.

(** [x] is the first element of [l] that satisfies [p], else [fallback]. *)
Definition first_or {A} (p : A -> bool) (l : list A) (fallback x : A) : Prop :=
  is_first p l x \/ ((forall y, In y l -> p y = false) /\ x = fallback).

(** A column name that contains "PART" and one of "NO", "NUM", "#". *)
Definition names_part_number (col : string) : bool :=
  Py.contains "PART" col
  && (Py.contains "NO" col || Py.contains "NUM" col || Py.contains "#" col).

(** A column name that is "PARTNO" or "PART". *)
Definition is_partno_or_part (col : string) : bool :=
  (col =? "PARTNO") || (col =? "PART").

Definition names_description (col : string) : bool := Py.contains "DESC" col.

Definition names_location (col : string) : bool :=
  Py.contains "LOC" col || Py.contains "POS" col.

(** ** Instances of the two library tables, for the runs on given frames *)

(** Upper-casing of the letters a-z, every other character kept. *)
Definition upper_char (c : ascii) : ascii :=
  let n := nat_of_ascii c in
  if ((97 <=? n) && (n <=? 122))%nat then ascii_of_nat (n - 32) else c.

Fixpoint upper_ascii (s : string) : string :=
  match s with
  | "" => ""
  | String c r => String (upper_char c) (upper_ascii r)
  end.

(** The number of places of [s] where [sub] begins. *)
Fixpoint occurrences (sub s : string) : nat :=
  (if prefix sub s then 1 else 0)
  + match s with
    | "" => 0
    | String _ r => occurrences sub r
    end.

(** An acceptance table for the examples: it refuses a text whose bold tags
    do not pair up, which reportlab's parser refuses too, and accepts every
    other text, of which reportlab's refuses more (other tags left open,
    unknown tags). The examples use it on texts on which the two agree. *)
Definition bold_tags_paired (text : string) : bool :=
  (occurrences "<b>" text =? occurrences "</b>" text)%nat.

(** ** Pages and blocks of a document *)

(** The pages of a document as its page breaks cut it: a page break ends a
    page and begins the next, also where nothing follows it, so that the
    last page may be one that the renderer does not open. *)
Fixpoint split_pages (els : list Flowable) : list (list Flowable) :=
  match els with
  | [] => [[]]%list
  | PageBreak :: r => [] :: split_pages r
  | f :: r => match split_pages r with
              | page :: pages => (f :: page) :: pages
              | [] => [[f]]%list
              end
  end.

(** The location strip of a label block: the table whose first cell reads
    "Part Location". Every block has one, so they count the blocks. *)
Definition is_location_table (f : Flowable) : bool :=
  match f with
  | Table ((Text label :: _) :: _) _ => label =? "Part Location"
  | _ => false
  end.

Definition blocks_on (page : list Flowable) : nat :=
  List.length (filter is_location_table page).

(** The number of blocks on each page. *)
Definition page_block_counts (els : list Flowable) : list nat :=
  map blocks_on (split_pages els).

(** The page break that a turn of the loop appends when [n] labels were
    counted before it. *)
Definition break_before (n : nat) : list Flowable :=
  if ((0 <? n) && (n mod MAX_LABELS_PER_PAGE =? 0))%nat
  then [PageBreak]%list else []%list.

(** The state after the head of the [try] block told the callbacks. *)
Definition reported (progress_bar status_text : bool) (total i : nat)
           (location : string) (st : LoopState) : LoopState :=
  mkLoopState (elements st) (label_count st)
              (events st
               ++ (if progress_bar then [Progress i total] else [])
               ++ (if status_text
                   then [StatusProcessing (i + 1) total location] else []))%list.

(** The part table of a v1 label for one record: its part number and its
    description, each through the Typography Selector. *)
Definition part_table_of (markup_ok : string -> bool) (cols : list string)
           (part_no_col desc_col : string) (record : Row) : result Flowable :=
  rbind (getcell cols record part_no_col) (fun part_no =>
  rbind (getcell cols record desc_col) (fun desc =>
  rbind (format_part_no_v1 markup_ok (Py.PyStr part_no)) (fun p =>
  rbind (format_description_v1 markup_ok (Py.PyStr desc)) (fun d =>
  Ok (Table [ [Text "Part No"; Flow p]; [Text "Description"; Flow d] ]%list
            part_table_style_v1))))).

(** ** The colours of a table *)

(** Whether a style command reaches the cell at column [col] and row [row]
    of a table of [ncols] columns and [nrows] rows. *)
Definition covers (ncols nrows : Z) (c : StyleCmd) (col row : Z) : bool :=
  let from_end (n x : Z) := if (x <? 0)%Z then (n + x)%Z else x in
  ((from_end ncols (cmd_c0 c) <=? col) && (col <=? from_end ncols (cmd_c1 c))
   && (from_end nrows (cmd_r0 c) <=? row)
   && (row <=? from_end nrows (cmd_r1 c)))%Z.

(** The background of a cell: that of the last BACKGROUND command that
    reaches it, none when no command does. *)
Definition cell_background (style : list StyleCmd) (ncols nrows : Z)
           (col row : Z) : option Color :=
  fold_left
    (fun bg c =>
       if (cmd_name c =? "BACKGROUND") && covers ncols nrows c col row
       then match cmd_arg c with
            | AColor k => Some k
            | _ => bg
            end
       else bg)
    style None.

Definition background_of (f : Flowable) (col row : nat) : option Color :=
  match f with
  | Table data style =>
      cell_background style
                      (Z.of_nat (List.length (List.hd [] data)))
                      (Z.of_nat (List.length data))
                      (Z.of_nat col) (Z.of_nat row)
  | _ => None
  end.

(** The backgrounds of the seven field cells of a location strip, which are
    the columns 1 to 7 of its only row. *)
Definition strip_backgrounds (f : Flowable) : list (option Color) :=
  map (fun j => background_of f (j + 1) 0) (seq 0 7).

Definition salmon : Color := HexColor "#E9967A".
Definition light_blue : Color := HexColor "#ADD8E6".
Definition light_green : Color := HexColor "#90EE90".
Definition gold : Color := HexColor "#FFD700".

(** The palette as the specification lists it. *)
Definition palette : list Color :=
  [salmon; light_blue; light_green; gold; light_blue; salmon; light_green]%list.

(** ** The order of the groups *)

Definition str_lt (a b : string) : Prop := String.compare a b = Lt.

(** The values of a list in the order in which each first appears. *)
Fixpoint first_appearance (values : list string) : list string :=
  match values with
  | [] => []
  | v :: r => v :: filter (fun x => negb (x =? v)) (first_appearance r)
  end.

(** The cell of a row at position [i]. *)
Definition cell_at (i : nat) (r : Row) : string := nth i r "".

(** ** Frames for the runs *)

(** A frame with the columns that the application documents, one row per
    record (part number, description, location). *)
Definition frame_of (records : list (string * string * string)) : DataFrame :=
  mkDataFrame ["Part No"; "Description"; "Location"]%list
              (map (fun r => [fst (fst r); snd (fst r); snd r]%list) records).

(** One record at each of the given locations, all with the description
    [desc]. *)
Definition one_per_location (desc : string) (locations : list string)
  : DataFrame :=
  frame_of (map (fun l => ("AB12345", desc, l)) locations).

(** Nine locations, one good record each. *)
Definition nine_groups : DataFrame :=
  one_per_location "Short"
    ["L1"; "L2"; "L3"; "L4"; "L5"; "L6"; "L7"; "L8"; "L9"]%list.

(** Five locations; the description at location B opens a bold tag and
    never closes it. *)
Definition five_groups_one_bad : DataFrame :=
  frame_of [ ("AB12345", "Short", "A");
             ("AB12345", "<b>", "B");
             ("AB12345", "Short", "C");
             ("AB12345", "Short", "D");
             ("AB12345", "Short", "E") ]%list.

(** Five locations, every description an unclosed bold tag. *)
Definition five_groups_all_bad : DataFrame :=
  one_per_location "<b>" ["A"; "B"; "C"; "D"; "E"]%list.

(** Two locations, the later in the alphabet first. *)
Definition b_then_a : DataFrame :=
  frame_of [ ("P1", "First row", "B"); ("P2", "Second row", "A") ]%list.

(** A frame without columns, as an empty sheet loads. *)
Definition no_columns : DataFrame := mkDataFrame [] [].

(** The runs of the two generators with the instances above. *)
Definition run_v1 (df : DataFrame) (progress_bar status_text : bool) : Run :=
  generate_labels_from_excel_v1 upper_ascii bold_tags_paired df
                                progress_bar status_text.

Definition run_v2 (df : DataFrame) (progress_bar status_text : bool) : Run :=
  generate_labels_from_excel_v2 upper_ascii bold_tags_paired df
                                progress_bar status_text.

(** The block counts of the pages of a returned document. *)
Definition pages_of (r : Run) : option (list nat) :=
  match outcome r with
  | Ok (Some els) => Some (page_block_counts els)
  | _ => None
  end.

(** The locations that the status callback was told, in order. *)
Fixpoint locations_told (evs : list Event) : list string :=
  match evs with
  | [] => []
  | StatusProcessing _ _ location :: r => location :: locations_told r
  | _ :: r => locations_told r
  end.

(** ** What a turn of the loop does to the state *)

(** The three effects of a turn at position [i] on the group of [location]:
    the group has no row and the turn only tells the callbacks; a block is
    placed; or the building of the block raised. *)
Inductive turn_effect (progress_bar status_text : bool) (total i : nat)
          (location : string) (st : LoopState) : LoopState -> Prop :=
| turn_skipped :
    turn_effect progress_bar status_text total i location st
                (reported progress_bar status_text total i location st)
| turn_placed (block : list Flowable) :
    blocks_on block = 1 -> ~ In PageBreak block ->
    turn_effect progress_bar status_text total i location st
      (mkLoopState
         (elements st ++ break_before (label_count st) ++ block)
         (S (label_count st))
         (events (reported progress_bar status_text total i location st)))
| turn_raised (e : Exc) :
    turn_effect progress_bar status_text total i location st
      (mkLoopState
         (elements st ++ break_before (label_count st))
         (S (label_count st))
         (events (reported progress_bar status_text total i location st)
          ++ if status_text then [StatusError location e] else [])).

(** What the status callback was told once the columns were found. *)
Definition told_columns (status_text : bool) (found : string * string * string)
  : list Event :=
  if status_text
  then [StatusUsingColumns (fst (fst found)) (snd (fst found))
                           (snd found)]%list
  else []%list.

(** The effect of the loop over a list of groups: one turn after the other,
    each on the state that the one before left. *)
Inductive loop_effect (progress_bar status_text : bool) (total : nat)
  : list (nat * (string * list Row)) -> LoopState -> LoopState -> Prop :=
| loop_done st : loop_effect progress_bar status_text total [] st st
| loop_turn item items st st' st'' :
    turn_effect progress_bar status_text total (fst item) (fst (snd item))
                st st' ->
    loop_effect progress_bar status_text total items st' st'' ->
    loop_effect progress_bar status_text total (item :: items) st st''.

(** The field cells of the location strips of a document, in order. *)
Definition strips_of (els : list Flowable) : list (list CellContent) :=
  flat_map (fun f => match f with
                     | Table (row :: _) _ =>
                         if is_location_table f then [tl row]%list else []%list
                     | _ => []%list
                     end) els.

(** The upper-cased labels of the frames above, and the three tables of a
    block of a good record of theirs. *)
Definition three_columns : list string :=
  ["PART NO"; "DESCRIPTION"; "LOCATION"]%list.

Definition good_markup_v1 : string :=
  "<b><font size=17>AB</font><font size=22>12345</font></b>".

Definition good_markup_v2 : string :=
  "<b><font size=34>AB</font><font size=40>12345</font></b><br/><br/>".

Definition good_part_table_v1 : Flowable :=
  Table [ [Text "Part No"; Flow (mkParagraph good_markup_v1 bold_style_v1)];
          [Text "Description";
           Flow (mkParagraph "Short" (description_style_v1 15))] ]%list
        part_table_style_v1.

Definition good_part_table_v2 : Flowable :=
  Table [ [Text "Part No"; Flow (mkParagraph good_markup_v2 bold_style_v2)];
          [Text "Description"; Flow (mkParagraph "Short" desc_style)] ]%list
        part_table_style_v2.

Definition strip_of_location (values_size : nat) (location : string)
  : Flowable :=
  location_table values_size (seven_fields (Py.findall (Py.strip location))).

(** ** The pagination invariant *)

(** The labels counted on the current page when [n] labels were counted in
    all: none before the first label, then 1, 2, 3, 4, 1, 2, ... *)
Definition counted_on_page (n : nat) : nat :=
  if (n =? 0)%nat then 0 else (n - 1) mod MAX_LABELS_PER_PAGE + 1.

(** No page holds more than four blocks, and the last page holds no more
    blocks than labels were counted on it. *)
Definition paginated (st : LoopState) : Prop :=
  Forall (fun k => k <= MAX_LABELS_PER_PAGE) (page_block_counts (elements st))
  /\ last (page_block_counts (elements st)) 0
     <= counted_on_page (label_count st).

(** Every page full but the last: the block counts of [n] blocks placed
    four to a page. *)
Definition four_to_a_page (n : nat) : list nat :=
  (repeat MAX_LABELS_PER_PAGE ((n - 1) / MAX_LABELS_PER_PAGE)
   ++ [counted_on_page n])%list.

(** The loop placed a block at every turn. *)
Inductive all_placed (progress_bar status_text : bool) (total : nat)
  : list (nat * (string * list Row)) -> LoopState -> LoopState -> Prop :=
| placed_done st : all_placed progress_bar status_text total [] st st
| placed_turn item items st block st'' :
    blocks_on block = 1 -> ~ In PageBreak block ->
    all_placed progress_bar status_text total items
      (mkLoopState
         (elements st ++ break_before (label_count st) ++ block)
         (S (label_count st))
         (events (reported progress_bar status_text total (fst item)
                           (fst (snd item)) st)))
      st'' ->
    all_placed progress_bar status_text total (item :: items) st st''.

(** The frame of the specification's example: two rows with the same part
    and the same location. *)
Definition two_rows_one_location : DataFrame :=
  mkDataFrame ["Part No"; "Desc"; "Loc"]%list
              [ ["AB12345"; "Short"; "12M R 0 2 A 1"];
                ["AB12345"; "Short"; "12M R 0 2 A 1"] ]%list.

(** ** Separators *)

(** Every character of [w] is a separator: white space or an underscore. *)
Fixpoint all_sep (w : string) : bool :=
  match w with
  | "" => true
  | String c r => separator c && all_sep r
  end.

(** A field that holds a token: it is not empty and holds no separator. *)
Definition is_token (t : string) : Prop := t <> "" /\ all_token t = true.

(** A location text with a space before, and between its tokens an
    underscore, a tab, two underscores, and a space after. *)
Definition tabbed_location : string :=
  Eval cbv in " 12M_R" ++ String "009" "0__2 ".

(** ** The calls to the callbacks *)

(** A call that is in range: the progress of group [i] of [total] has
    [i < total], so that [i / total] is defined and below 1, and the
    position told to the status callback is between 1 and [total]. *)
Definition in_range (ev : Event) : Prop :=
  match ev with
  | Progress i total => i < total
  | StatusProcessing position total _ => 1 <= position <= total
  | _ => True
  end.

(** Every location strip of the document has seven field cells. *)
Definition strips_have_seven (st : LoopState) : Prop :=
  Forall (fun cells => List.length cells = 7) (strips_of (elements st)).

(** ** The page of the application: the button "Generate PDF Labels" *)

(** The options of the select box of the side bar. *)
Definition label_type_options : list string :=
  ["Enhanced Labels (v2)"; "Standard Labels (v1)"]%list.

(** What the page shows after a click: the download of a document under a
    file name, the message that generation failed, or the message that an
    error occurred. *)
Inductive Shown : Type :=
| Download (data : list Flowable) (file_name : string)
| FailedToGenerate
| ErrorOccurred (e : Exc).

(** Lines 541-569 of [main]: the generator chosen by the label type, run
    with both callbacks, and what is shown for its result; with the frame
    as the run left it. *)
Definition main (upper : string -> string)
           (markup_ok : string -> bool) (label_type : string)
           (df : DataFrame) : Shown * DataFrame :=
  let run_and_name :=
    if label_type =? "Single Part"
    then (generate_labels_from_excel_v2 upper markup_ok df true true,
          "singlepart_labels.pdf")
    else (generate_labels_from_excel_v1 upper markup_ok df true true,
          "multiplepart_labels.pdf") in
  let pdf_buffer := outcome (fst run_and_name) in
  let filename := snd run_and_name in
  (match pdf_buffer with
   | Raise e => ErrorOccurred e
   | Ok (Some data) => Download data filename
   | Ok None => FailedToGenerate
   end,
   frame (fst run_and_name)).

(** ** The flowables of a document, by kind *)

Definition is_table (f : Flowable) : bool :=
  match f with
  | Table _ _ => true
  | _ => false
  end.

Definition is_spacer (f : Flowable) : bool :=
  match f with
  | Spacer => true
  | _ => false
  end.

Definition is_page_break (f : Flowable) : bool :=
  match f with
  | PageBreak => true
  | _ => false
  end.

Definition count_of (kind : Flowable -> bool) (els : list Flowable) : nat :=
  List.length (filter kind els).

(** The page breaks of the document match the labels counted: none for up
    to four labels, one more for every four beyond. *)
Definition breaks_match_count (st : LoopState) : Prop :=
  count_of is_page_break (elements st)
  = (label_count st - 1) / MAX_LABELS_PER_PAGE.

(** The document is made of whole blocks, each of [tables] tables, one of
    them the location strip, and two spacers. *)
Definition whole_blocks (tables : nat) (st : LoopState) : Prop :=
  count_of is_table (elements st)
  = tables * count_of is_location_table (elements st) /\
  count_of is_spacer (elements st)
  = 2 * count_of is_location_table (elements st).

(** * Properties *)

(** ** Strings *)

Lemma append_empty_r (s : string) : s ++ "" = s.
Proof. induction s as [|c s IH]; simpl; [reflexivity | now rewrite IH]. Qed.

Lemma append_assoc (a b c : string) : (a ++ b) ++ c = a ++ (b ++ c).
Proof. induction a as [|x a IH]; simpl; [reflexivity | now rewrite IH]. Qed.

Lemma length_append (a b : string) :
  String.length (a ++ b) = String.length a + String.length b.
Proof. induction a as [|x a IH]; simpl; [reflexivity | now rewrite IH]. Qed.

Lemma substring_0_length (n : nat) (s : string) :
  n <= String.length s -> String.length (substring 0 n s) = n.
Proof.
  revert s. induction n as [|n IH]; intros [|c s] H; simpl in *;
    try reflexivity; try lia.
  now rewrite IH by lia.
Qed.

Lemma substring_split (n : nat) (s : string) :
  n <= String.length s ->
  substring 0 n s ++ substring n (String.length s - n) s = s.
Proof.
  revert s. induction n as [|n IH]; intros s H.
  - rewrite Nat.sub_0_r. simpl. destruct s as [|c s]; [reflexivity|].
    simpl. f_equal. clear H. induction s as [|d s IHs]; simpl;
      [reflexivity | now rewrite IHs].
  - destruct s as [|c s]; simpl in *; [lia|]. f_equal. apply IH. lia.
Qed.

Lemma substring_length_le (n m : nat) (s : string) :
  n + m <= String.length s -> String.length (substring n m s) = m.
Proof.
  revert m s. induction n as [|n IH]; intros m s H.
  - now apply substring_0_length.
  - destruct s as [|c s]; simpl in *; [lia|]. apply IH. lia.
Qed.

(** ** The separators of the code and of the specification *)

(** The class [\s] that the code strips and splits on is the white space of
    the specification, and the class [[^_\s]] of the pattern is the
    complement of its separators. *)
Lemma isspace_white_space (c : ascii) : Py.isspace c = white_space c.
Proof. destruct c as [[] [] [] [] [] [] [] []]; reflexivity. Qed.

Lemma token_char_separator (c : ascii) :
  Py.token_char c = negb (separator c).
Proof. destruct c as [[] [] [] [] [] [] [] []]; reflexivity. Qed.

Lemma token_char_false (c : ascii) :
  Py.token_char c = false <-> separator c = true.
Proof. rewrite token_char_separator. apply negb_false_iff. Qed.

Lemma white_space_separator (c : ascii) :
  white_space c = true -> separator c = true.
Proof. unfold separator. now intros ->. Qed.

Lemma all_token_cons (c : ascii) (t : string) :
  all_token (String c t) = Py.token_char c && all_token t.
Proof. now rewrite token_char_separator. Qed.

(** ** [span] and [findall] *)

Lemma span_append (p : ascii -> bool) (s : string) :
  fst (Py.span p s) ++ snd (Py.span p s) = s.
Proof.
  induction s as [|c s IH]; simpl; [reflexivity|].
  destruct (p c); [|reflexivity].
  destruct (Py.span p s) as [m rest]; simpl in *. now rewrite IH.
Qed.

Lemma span_all_token (s : string) :
  all_token (fst (Py.span Py.token_char s)) = true.
Proof.
  induction s as [|c s IH]; simpl; [reflexivity|].
  destruct (Py.token_char c) eqn:E; [|reflexivity].
  destruct (Py.span Py.token_char s) as [m rest].
  cbn [fst] in *. now rewrite all_token_cons, E.
Qed.

Lemma span_at_separator (s : string) :
  at_separator (snd (Py.span Py.token_char s)).
Proof.
  induction s as [|c s IH]; simpl; [exact I|].
  destruct (Py.token_char c) eqn:E; [|now apply token_char_false].
  now destruct (Py.span Py.token_char s) as [m rest].
Qed.

Lemma findall_tokens (s : string) : tokens_of s (Py.findall s).
Proof.
  funelim (Py.findall s).
  - constructor.
  - rewrite <- (span_append Py.token_char r) at 1.
    change (String c (fst (Py.span Py.token_char r) ++ snd (Py.span Py.token_char r)))
      with (String c (fst (Py.span Py.token_char r)) ++ snd (Py.span Py.token_char r)).
    apply tokens_run.
    + discriminate.
    + rewrite all_token_cons, Heq. apply span_all_token.
    + apply span_at_separator.
    + assumption.
  - apply tokens_skip; [now apply token_char_false | assumption].
Qed.

Lemma span_run (t s : string) :
  all_token t = true -> at_separator s ->
  Py.span Py.token_char (t ++ s) = (t, s).
Proof.
  intros Ht Hs. induction t as [|c t IH].
  - destruct s as [|d s]; [reflexivity|]. apply token_char_false in Hs.
    simpl. now rewrite Hs.
  - rewrite all_token_cons in Ht. apply andb_true_iff in Ht as [Hc Ht].
    simpl. rewrite Hc, (IH Ht). reflexivity.
Qed.

(** The maximal runs of a text are those that [findall] returns: the
    relation [tokens_of] holds of one list only. *)
Lemma tokens_of_findall (s : string) (ts : list string) :
  tokens_of s ts -> ts = Py.findall s.
Proof.
  induction 1 as [|c s ts Hc _ IH|t s ts Hne Ht Hs _ IH].
  - reflexivity.
  - apply token_char_false in Hc. simp findall. rewrite Hc. simpl. exact IH.
  - destruct t as [|c t]; [contradiction|]. rewrite all_token_cons in Ht.
    apply andb_true_iff in Ht as [Hc Ht].
    change (String c t ++ s) with (String c (t ++ s)).
    simp findall. rewrite Hc. simpl.
    rewrite (span_run t s Ht Hs). simpl. now rewrite IH.
Qed.

Lemma tokens_of_unique (s : string) (ts ts' : list string) :
  tokens_of s ts -> tokens_of s ts' -> ts = ts'.
Proof.
  intros H H'. rewrite (tokens_of_findall _ _ H).
  now rewrite (tokens_of_findall _ _ H').
Qed.

(** ** The Location Parser *)

Lemma fill_parts_seven (matches : list string) :
  fill_parts (repeat "" 7) matches = Ok (seven_fields matches).
Proof.
  do 8 (destruct matches as [|? matches]; [reflexivity|]).
  reflexivity.
Qed.

Lemma seven_fields_length (tokens : list string) :
  List.length (seven_fields tokens) = 7.
Proof.
  unfold seven_fields. rewrite length_app, repeat_length.
  pose proof (firstn_le_length 7 tokens). lia.
Qed.

Lemma parse_v1_str (s : string) :
  parse_location_string_v1 (Py.PyStr s)
  = Ok (seven_fields (Py.findall (Py.strip s))).
Proof.
  unfold parse_location_string_v1. simpl.
  destruct s as [|c s]; simpl; [reflexivity|].
  apply fill_parts_seven.
Qed.

Lemma parse_v2_is_v1 (v : Py.PyVal) :
  parse_location_string_v2 v = parse_location_string_v1 v.
Proof. reflexivity. Qed.

(** [strip] trims: what it removes before and after the text is white
    space, and what it leaves neither begins nor ends with white space. *)
Lemma lstrip_trims (s : string) :
  exists pre : string,
    s = pre ++ Py.lstrip s /\ all_white pre = true /\
    begins_with_white (Py.lstrip s) = false.
Proof.
  induction s as [|c s (pre & Hs & Hpre & Hb)]; [now exists ""|].
  cbn [Py.lstrip]. destruct (Py.isspace c) eqn:E.
  - rewrite isspace_white_space in E.
    exists (String c pre). cbn [append all_white]. rewrite E, Hpre.
    split; [simpl; now rewrite <- Hs|]. split; [reflexivity | exact Hb].
  - exists "". rewrite isspace_white_space in E.
    split; [reflexivity|]. split; [reflexivity | exact E].
Qed.

Lemma rstrip_trims (s : string) :
  exists post : string,
    s = Py.rstrip s ++ post /\ all_white post = true /\
    ends_with_white (Py.rstrip s) = false.
Proof.
  induction s as [|c s (post & Hs & Hpost & He)]; [now exists ""|].
  cbn [Py.rstrip]. destruct (Py.rstrip s) as [|d r] eqn:Er.
  - cbn [append] in Hs. subst s. destruct (Py.isspace c) eqn:E;
      rewrite isspace_white_space in E.
    + exists (String c post). cbn [append all_white]. rewrite E, Hpost.
      split; [reflexivity|]. split; reflexivity.
    + exists post. cbn [append ends_with_white].
      split; [reflexivity|]. split; assumption.
  - exists post. split; [simpl; now rewrite Hs at 1|].
    split; [assumption|]. exact He.
Qed.

Lemma rstrip_begins (t : string) :
  begins_with_white t = false -> begins_with_white (Py.rstrip t) = false.
Proof.
  destruct t as [|c t]; [reflexivity|]. cbn [begins_with_white Py.rstrip].
  intros Hc. destruct (Py.rstrip t); [|exact Hc].
  rewrite isspace_white_space, Hc. exact Hc.
Qed.

Lemma strip_trimmed (s : string) : trimmed s (Py.strip s).
Proof.
  unfold Py.strip.
  destruct (lstrip_trims s) as (pre & Hs & Hpre & Hb).
  destruct (rstrip_trims (Py.lstrip s)) as (post & Hl & Hpost & He).
  exists pre, post. split; [now rewrite <- Hl|].
  repeat split; try assumption. now apply rstrip_begins.
Qed.

(** C1. Both location parsers, on every input, return seven strings: for a
    string, the text is trimmed of its leading and trailing white space,
    the tokens are its maximal runs of characters that are neither white
    space nor underscore, and the fields are the first seven tokens in
    order, padded with empty strings; for [None], a value that is not a
    string, or the empty string, seven empty strings. White space, the
    separators, the trimming and the runs are those of [white_space],
    [separator], [trimmed] and [tokens_of]. *)
Theorem C1_location_parser_seven_fields (v : Py.PyVal) :
  exists fields : list string,
    parse_location_string_v1 v = Ok fields /\
    parse_location_string_v2 v = Ok fields /\
    List.length fields = 7 /\
    match v with
    | Py.PyStr EmptyString => fields = repeat "" 7
    | Py.PyStr s =>
        exists text tokens : _,
          trimmed s text /\ tokens_of text tokens /\
          fields = seven_fields tokens
    | _ => fields = repeat "" 7
    end.
Proof.
  destruct v as [|s|t r].
  - exists (repeat "" 7). repeat split; reflexivity.
  - exists (seven_fields (Py.findall (Py.strip s))).
    change (parse_location_string_v2 (Py.PyStr s))
      with (parse_location_string_v1 (Py.PyStr s)).
    rewrite parse_v1_str.
    repeat split; try apply seven_fields_length.
    destruct s as [|c s]; [reflexivity|].
    exists (Py.strip (String c s)), (Py.findall (Py.strip (String c s))).
    split; [apply strip_trimmed|]. split; [apply findall_tokens | reflexivity].
  - exists (repeat "" 7). unfold parse_location_string_v1,
      parse_location_string_v2. simpl. rewrite orb_true_r.
    repeat split; reflexivity.
Qed.

(** ** The Typography Selector *)

Lemma ensure_str_str (s : string) : ensure_str (Py.PyStr s) = s.
Proof. destruct s; reflexivity. Qed.

Lemma slice_upto (s : string) (k : nat) :
  k <= String.length s ->
  Py.slice s None (Some (Z.of_nat k)) = substring 0 k s.
Proof.
  intros H. unfold Py.slice, Py.clamp.
  destruct (Z.ltb_spec (Z.of_nat k) 0); [lia|].
  rewrite Z.min_l by lia. rewrite Z.sub_0_r, Nat2Z.id. reflexivity.
Qed.

Lemma slice_last_five (s : string) :
  5 <= String.length s ->
  Py.slice s (Some (-5)%Z) None = substring (String.length s - 5) 5 s.
Proof.
  intros H. unfold Py.slice, Py.clamp.
  change (-5 <? 0)%Z with true. cbv iota.
  rewrite Z.max_r by lia.
  replace (Z.to_nat (Z.of_nat (String.length s) + -5)) with (String.length s - 5)
    by lia.
  replace (Z.to_nat (Z.of_nat (String.length s)
                     - (Z.of_nat (String.length s) + -5))) with 5 by lia.
  reflexivity.
Qed.

(** What the two slices of a long part number are. *)
Lemma part_number_slices (s : string) :
  5 < String.length s ->
  let part1 := Py.slice s None (Some (Z.of_nat (String.length s) - 5)%Z) in
  let part2 := Py.slice s (Some (-5)%Z) None in
  part1 ++ part2 = s /\
  String.length part1 = String.length s - 5 /\
  String.length part2 = 5.
Proof.
  intros H part1 part2. subst part1 part2.
  replace (Z.of_nat (String.length s) - 5)%Z
    with (Z.of_nat (String.length s - 5)) by lia.
  rewrite slice_upto by lia. rewrite slice_last_five by lia.
  repeat split.
  - pose proof (substring_split (String.length s - 5) s) as Hsplit.
    replace (String.length s - (String.length s - 5)) with 5 in Hsplit by lia.
    apply Hsplit. lia.
  - apply substring_0_length. lia.
  - apply substring_length_le. lia.
Qed.

(** Two markups are the same text, however the appends are nested. *)
Ltac markup_eq :=
  unfold bold, font;
  repeat first [rewrite append_assoc | progress simpl];
  reflexivity.

(** C3. A part number longer than 5 characters is split at [length - 5]:
    the prefix has [length - 5] characters and is set at the smaller size
    (17 in v1, 34 in v2), the suffix has 5 characters and is set at the
    larger size (22 in v1, 40 in v2), and prefix and suffix together are
    the part number; a part number of at most 5 characters is set whole at
    the smaller size. *)
Theorem C3_part_number_split (markup_ok : string -> bool) (s : string) :
  (5 < String.length s ->
   exists prefix suffix : string,
     prefix ++ suffix = s /\
     String.length prefix = String.length s - 5 /\
     String.length suffix = 5 /\
     format_part_no_v1 markup_ok (Py.PyStr s)
     = Paragraph markup_ok (bold (font 17 prefix ++ font 22 suffix))
                 bold_style_v1 /\
     format_part_no_v2 markup_ok (Py.PyStr s)
     = Paragraph markup_ok
                 (bold (font 34 prefix ++ font 40 suffix) ++ "<br/><br/>")
                 bold_style_v2)
  /\
  (String.length s <= 5 ->
   format_part_no_v1 markup_ok (Py.PyStr s)
   = Paragraph markup_ok (bold (font 17 s)) bold_style_v1 /\
   format_part_no_v2 markup_ok (Py.PyStr s)
   = Paragraph markup_ok (bold (font 34 s) ++ "<br/><br/>") bold_style_v2).
Proof.
  unfold format_part_no_v1, format_part_no_v2. rewrite ensure_str_str.
  split; intros H.
  - destruct (part_number_slices s H) as (Happ & Hp & Hs).
    apply Nat.ltb_lt in H. rewrite H.
    eexists; eexists. repeat split; try eassumption.
    + markup_eq.
    + markup_eq.
  - apply Nat.ltb_ge in H. rewrite H. split.
    + markup_eq.
    + markup_eq.
Qed.

(** C6. A v1 description is set at the size of its length bucket (15 up to
    30 characters, 13 up to 50, 11 up to 70, 10 up to 90, 9 beyond); beyond
    100 characters the text is its first 100 characters followed by three
    dots, and up to 100 characters it is the description itself. *)
Theorem C6_description_v1_size_and_truncation
  (markup_ok : string -> bool) (s : string) :
  exists (size : nat) (text : string),
    format_description_v1 markup_ok (Py.PyStr s)
    = Paragraph markup_ok text (description_style_v1 size) /\
    (String.length s <= 30 -> size = 15) /\
    (30 < String.length s <= 50 -> size = 13) /\
    (50 < String.length s <= 70 -> size = 11) /\
    (70 < String.length s <= 90 -> size = 10) /\
    (90 < String.length s -> size = 9) /\
    (100 < String.length s ->
     exists kept dropped : string,
       s = kept ++ dropped /\ String.length kept = 100 /\
       text = kept ++ "...") /\
    (String.length s <= 100 -> text = s).
Proof.
  unfold format_description_v1. rewrite ensure_str_str.
  unfold description_v1_directive.
  destruct (Nat.leb_spec (String.length s) 30);
    [do 2 eexists; split; [reflexivity|]; repeat split; intros; lia || auto|].
  destruct (Nat.leb_spec (String.length s) 50);
    [do 2 eexists; split; [reflexivity|]; repeat split; intros; lia || auto|].
  destruct (Nat.leb_spec (String.length s) 70);
    [do 2 eexists; split; [reflexivity|]; repeat split; intros; lia || auto|].
  destruct (Nat.leb_spec (String.length s) 90);
    [do 2 eexists; split; [reflexivity|]; repeat split; intros; lia || auto|].
  destruct (Nat.ltb_spec 100 (String.length s)).
  - do 2 eexists; split; [reflexivity|]. repeat split; intros; try lia.
    exists (substring 0 100 s), (substring 100 (String.length s - 100) s).
    repeat split.
    + symmetry. apply substring_split. lia.
    + apply substring_0_length. lia.
    + change 100%Z with (Z.of_nat 100). now rewrite slice_upto by lia.
  - do 2 eexists; split; [reflexivity|]. repeat split; intros; lia || auto.
Qed.

(** ** The Column Resolver *)

Lemma prefix_append (sub s : string) :
  prefix sub s = true <-> exists rest, s = sub ++ rest.
Proof.
  revert s. induction sub as [|c sub IH]; intros s.
  - split; [intros _; now exists s | now destruct s].
  - destruct s as [|d s]; simpl.
    + split; [discriminate | intros [rest H]; discriminate].
    + destruct (ascii_dec c d) as [->|Hne].
      * rewrite IH. split; intros [rest H]; exists rest;
          [now rewrite H | now injection H].
      * split; [discriminate | intros [rest H]; injection H; congruence].
Qed.

(** [sub in s] holds when [s] reads [sub] somewhere. *)
Lemma contains_spec (sub s : string) :
  Py.contains sub s = true <-> exists a b, s = a ++ sub ++ b.
Proof.
  induction s as [|c s IH]; cbn [Py.contains].
  - rewrite orb_false_r, prefix_append. split.
    + intros [rest H]. now exists "", rest.
    + intros (a & b & H). destruct a; [now exists b | discriminate].
  - rewrite orb_true_iff, prefix_append, IH. split.
    + intros [[rest H]|(a & b & H)].
      * now exists "", rest.
      * exists (String c a), b. simpl. now rewrite H.
    + intros (a & b & H). destruct a as [|d a]; simpl in H.
      * left. now exists b.
      * right. injection H as _ H. now exists a, b.
Qed.

Lemma find_is_first {A} (p : A -> bool) (l : list A) (x : A) :
  find p l = Some x -> is_first p l x.
Proof.
  induction l as [|y l IH]; simpl; [discriminate|].
  destruct (p y) eqn:E.
  - intros [= ->]. exists [], l. repeat split; [assumption | intros ? []].
  - intros H. destruct (IH H) as (before & after & -> & Hx & Hb).
    exists (y :: before), after. repeat split; [assumption|].
    intros z [<-|Hz]; auto.
Qed.

Lemma find_none_all {A} (p : A -> bool) (l : list A) :
  find p l = None -> forall y, In y l -> p y = false.
Proof. intros H y Hy. exact (find_none p l H y Hy). Qed.

(** [next] with a default that is itself a column name, followed by the
    guard [if not x: x = alt]: the first match when there is one, whatever
    the default. *)
Lemma if_not_next (p : string -> bool) (l : list string)
      (default : option string) (alt : result string) :
  p "" = false ->
  if_not (next p l default) alt
  = match find p l with
    | Some x => Ok x
    | None => if_not default alt
    end.
Proof.
  intros Hp. unfold next. destruct (find p l) as [x|] eqn:E; [|reflexivity].
  simpl. destruct (String.eqb_spec x "") as [->|_]; [|reflexivity].
  apply find_some in E. destruct E as [_ E]. congruence.
Qed.

Lemma first_or_of_find {A} (p : A -> bool) (l : list A) (fallback : A) :
  first_or p l fallback (match find p l with Some x => x | None => fallback end).
Proof.
  destruct (find p l) as [x|] eqn:E.
  - left. now apply find_is_first.
  - right. split; [now apply find_none_all | reflexivity].
Qed.

(** The three columns, as a function of the names. *)
Lemma resolve_columns_found (c : string) (cs : list string) :
  let cols := c :: cs in
  let exact := match find is_partno_or_part cols with
               | Some x => x | None => c end in
  let part := match find names_part_number cols with
              | Some x => x | None => exact end in
  let desc := match find names_description cols with
              | Some x => x
              | None => match cs with second :: _ => second | [] => part end
              end in
  let loc := match find names_location cols with
             | Some x => x
             | None => match cs with _ :: third :: _ => third | _ => desc end
             end in
  resolve_columns cols = Ok (part, desc, loc).
Proof.
  intros cols exact part desc loc.
  unfold resolve_columns.
  change (fun col : string => existsb (String.eqb col) ["PARTNO"; "PART"])
    with (fun col : string => (col =? "PARTNO") || ((col =? "PART") || false)).
  assert (Hex : forall l : list string,
             find (fun col => (col =? "PARTNO") || ((col =? "PART") || false)) l
             = find is_partno_or_part l).
  { intros l. induction l as [|col l IH]; simpl; [reflexivity|].
    unfold is_partno_or_part at 1. rewrite orb_false_r, IH. reflexivity. }
  fold names_part_number names_description names_location.
  change (fun col : string =>
            Py.contains "PART" col
            && (Py.contains "NO" col || Py.contains "NUM" col
                || Py.contains "#" col)) with names_part_number.
  change (fun col : string => Py.contains "DESC" col) with names_description.
  change (fun col : string => Py.contains "LOC" col || Py.contains "POS" col)
    with names_location.
  rewrite !if_not_next by reflexivity. rewrite Hex. fold cols.
  assert (Hpart :
            match find names_part_number cols with
            | Some x => Ok x
            | None =>
                match find is_partno_or_part cols with
                | Some x => Ok x
                | None => if_not None (getitem cols 0)
                end
            end = Ok part).
  { subst part exact. destruct (find names_part_number cols); [reflexivity|].
    destruct (find is_partno_or_part cols); reflexivity. }
  rewrite Hpart. cbn [rbind]. rewrite if_not_next by reflexivity.
  assert (Hdesc :
            match find names_description cols with
            | Some x => Ok x
            | None =>
                if_not None (if (1 <? List.length cols)%nat
                             then getitem cols 1 else Ok part)
            end = Ok desc).
  { subst desc. destruct (find names_description cols); [reflexivity|].
    subst cols. destruct cs as [|second cs']; reflexivity. }
  rewrite Hdesc. cbn [rbind]. rewrite if_not_next by reflexivity.
  assert (Hloc :
            match find names_location cols with
            | Some x => Ok x
            | None =>
                if_not None (if (2 <? List.length cols)%nat
                             then getitem cols 2 else Ok desc)
            end = Ok loc).
  { subst loc. destruct (find names_location cols); [reflexivity|].
    subst cols. destruct cs as [|second [|third cs']]; reflexivity. }
  rewrite Hloc. reflexivity.
Qed.

(** C5, amended. For every list of upper-cased column names that has a
    first column, the resolver returns, without an error: as part-number
    column the first column that contains "PART" and one of "NO", "NUM",
    "#", else the first column that is "PARTNO" or "PART", else the first
    column; as description column the first column that contains "DESC",
    else the second column if there is one, else the part-number column; as
    location column the first column that contains "LOC" or "POS", else the
    third column if there is one, else the description column. *)
Theorem C5_column_resolver (c : string) (cs : list string) :
  exists part_no_col exact_col desc_col loc_col : string,
    resolve_columns (c :: cs) = Ok (part_no_col, desc_col, loc_col) /\
    first_or is_partno_or_part (c :: cs) c exact_col /\
    first_or names_part_number (c :: cs) exact_col part_no_col /\
    first_or names_description (c :: cs)
             match cs with
             | second :: _ => second
             | [] => part_no_col
             end desc_col /\
    first_or names_location (c :: cs)
             match cs with
             | _ :: third :: _ => third
             | _ => desc_col
             end loc_col.
Proof.
  pose proof (resolve_columns_found c cs) as Hfound. cbv zeta in Hfound.
  do 4 eexists. split; [exact Hfound|].
  split; [|split; [|split]]; apply first_or_of_find.
Qed.

(** ** One turn of the loop *)

Section Turn.

Variable markup_ok : string -> bool.
Variable cols : list string.
Variables part_no_col desc_col loc_col : string.
Variables progress_bar status_text : bool.
Variable total : nat.

Let turn_v1 :=
  process_group_v1 markup_ok cols part_no_col desc_col loc_col
                   progress_bar status_text total.
Let turn_v2 :=
  process_group_v2 markup_ok cols part_no_col desc_col loc_col
                   progress_bar status_text total.
Let build_v1 := build_tables_v1 markup_ok cols part_no_col desc_col loc_col.
Let build_v2 := build_tables_v2 markup_ok cols part_no_col desc_col loc_col.

Lemma report_group_run (i : nat) (location : string) (st : LoopState) :
  report_group progress_bar status_text total i location st
  = (Ok tt, reported progress_bar status_text total i location st).
Proof.
  unfold report_group, reported, bind, when, tell, ret.
  destruct st as [els n evs]. destruct progress_bar, status_text; simpl;
    rewrite ?app_nil_r, <- ?app_assoc; reflexivity.
Qed.

Lemma page_break_and_count_run (st : LoopState) :
  page_break_and_count st
  = (Ok tt, mkLoopState (elements st ++ break_before (label_count st))
                        (S (label_count st)) (events st)).
Proof.
  unfold page_break_and_count, break_before, bind, get_label_count, when,
    append, incr_label_count, ret.
  destruct st as [els n evs]. cbn [label_count elements events].
  destruct ((0 <? n)%nat && (n mod MAX_LABELS_PER_PAGE =? 0)%nat);
    cbn [label_count elements events]; rewrite ?app_nil_r; reflexivity.
Qed.

Lemma select_parts_v1_cases (group : list Row) :
  select_parts_v1 group
  = Ok match group with
       | [] => None
       | [r] => Some (r, r)
       | r1 :: r2 :: _ => Some (r1, r2)
       end.
Proof. destruct group as [|r1 [|r2 rest]]; reflexivity. Qed.

Lemma select_parts_v2_cases (group : list Row) :
  select_parts_v2 group
  = Ok match group with
       | [] => None
       | r1 :: _ => Some r1
       end.
Proof. destruct group as [|r1 [|r2 rest]]; reflexivity. Qed.

(** A turn on a group without rows: the callbacks are told, nothing else. *)
Lemma turn_v1_empty (i : nat) (location : string) (st : LoopState) :
  turn_v1 (i, (location, [])) st
  = (Ok tt, reported progress_bar status_text total i location st).
Proof.
  unfold turn_v1, process_group_v1, try_except, bind. simpl.
  rewrite report_group_run. reflexivity.
Qed.

(** A turn whose tables were built: the page break if one is due, the
    count, and the five flowables of the block. *)
Lemma turn_v1_built (i : nat) (location : string) (group : list Row)
      (part1 part2 : Row) (t1 t2 lt : Flowable) (st : LoopState) :
  select_parts_v1 group = Ok (Some (part1, part2)) ->
  build_v1 part1 part2 = Ok (t1, t2, lt) ->
  turn_v1 (i, (location, group)) st
  = (Ok tt,
     mkLoopState
       (elements st ++ break_before (label_count st)
        ++ [t1; Spacer; t2; lt; Spacer])
       (S (label_count st))
       (events (reported progress_bar status_text total i location st))).
Proof.
  intros Hsel Hbuild.
  unfold turn_v1, process_group_v1, try_except, bind. simpl.
  rewrite report_group_run. unfold lift. rewrite Hsel.
  rewrite page_break_and_count_run. fold build_v1. rewrite Hbuild.
  unfold append. simpl. rewrite <- !app_assoc. reflexivity.
Qed.

(** A turn whose tables raised: the page break if one is due and the count
    stay, no table is appended, and the status callback is told. *)
Lemma turn_v1_raised (i : nat) (location : string) (group : list Row)
      (part1 part2 : Row) (e : Exc) (st : LoopState) :
  select_parts_v1 group = Ok (Some (part1, part2)) ->
  build_v1 part1 part2 = Raise e ->
  turn_v1 (i, (location, group)) st
  = (Ok tt,
     mkLoopState
       (elements st ++ break_before (label_count st))
       (S (label_count st))
       (events (reported progress_bar status_text total i location st)
        ++ if status_text then [StatusError location e] else [])).
Proof.
  intros Hsel Hbuild.
  unfold turn_v1, process_group_v1, try_except, bind. simpl.
  rewrite report_group_run. unfold lift. rewrite Hsel.
  rewrite page_break_and_count_run. fold build_v1. rewrite Hbuild.
  unfold when, tell, ret. destruct status_text; simpl;
    rewrite ?app_nil_r; reflexivity.
Qed.

Lemma turn_v2_empty (i : nat) (location : string) (st : LoopState) :
  turn_v2 (i, (location, [])) st
  = (Ok tt, reported progress_bar status_text total i location st).
Proof.
  unfold turn_v2, process_group_v2, try_except, bind. simpl.
  rewrite report_group_run. reflexivity.
Qed.

Lemma turn_v2_built (i : nat) (location : string) (group : list Row)
      (part1 : Row) (t1 lt : Flowable) (st : LoopState) :
  select_parts_v2 group = Ok (Some part1) ->
  build_v2 part1 = Ok (t1, lt) ->
  turn_v2 (i, (location, group)) st
  = (Ok tt,
     mkLoopState
       (elements st ++ break_before (label_count st)
        ++ [t1; Spacer; lt; Spacer])
       (S (label_count st))
       (events (reported progress_bar status_text total i location st))).
Proof.
  intros Hsel Hbuild.
  unfold turn_v2, process_group_v2, try_except, bind. simpl.
  rewrite report_group_run. unfold lift. rewrite Hsel.
  rewrite page_break_and_count_run. fold build_v2. rewrite Hbuild.
  unfold append. simpl. rewrite <- !app_assoc. reflexivity.
Qed.

Lemma turn_v2_raised (i : nat) (location : string) (group : list Row)
      (part1 : Row) (e : Exc) (st : LoopState) :
  select_parts_v2 group = Ok (Some part1) ->
  build_v2 part1 = Raise e ->
  turn_v2 (i, (location, group)) st
  = (Ok tt,
     mkLoopState
       (elements st ++ break_before (label_count st))
       (S (label_count st))
       (events (reported progress_bar status_text total i location st)
        ++ if status_text then [StatusError location e] else [])).
Proof.
  intros Hsel Hbuild.
  unfold turn_v2, process_group_v2, try_except, bind. simpl.
  rewrite report_group_run. unfold lift. rewrite Hsel.
  rewrite page_break_and_count_run. fold build_v2. rewrite Hbuild.
  unfold when, tell, ret. destruct status_text; simpl;
    rewrite ?app_nil_r; reflexivity.
Qed.

End Turn.

(** ** The Label Block Builder, v1 *)

(** The two part tables of a v1 label are the part tables of the two
    records, the first record first. *)
Lemma build_tables_v1_slots (markup_ok : string -> bool) (cols : list string)
      (part_no_col desc_col loc_col : string) (part1 part2 : Row)
      (t1 t2 lt : Flowable) :
  build_tables_v1 markup_ok cols part_no_col desc_col loc_col part1 part2
  = Ok (t1, t2, lt) ->
  part_table_of markup_ok cols part_no_col desc_col part1 = Ok t1 /\
  part_table_of markup_ok cols part_no_col desc_col part2 = Ok t2.
Proof.
  unfold build_tables_v1, part_table_of.
  destruct (getcell cols part1 part_no_col) as [pn1|]; [|discriminate].
  destruct (getcell cols part1 desc_col) as [ds1|]; [|discriminate].
  destruct (getcell cols part2 part_no_col) as [pn2|]; [|discriminate].
  destruct (getcell cols part2 desc_col) as [ds2|]; [|discriminate].
  destruct (getcell cols part1 loc_col) as [loc|]; [|discriminate].
  cbn [rbind].
  destruct (parse_location_string_v1 (Py.PyStr loc)); [|discriminate].
  cbn [rbind].
  destruct (format_part_no_v1 markup_ok (Py.PyStr pn1)); [|discriminate].
  destruct (format_description_v1 markup_ok (Py.PyStr ds1)); [|discriminate].
  destruct (format_part_no_v1 markup_ok (Py.PyStr pn2)); [|discriminate].
  destruct (format_description_v1 markup_ok (Py.PyStr ds2)); [|discriminate].
  cbn [rbind]. intros [= <- <- <-]. split; reflexivity.
Qed.

(** C4. In v1, on a group without records the turn appends nothing and
    counts nothing; on a group of one record the record fills both slots,
    so the two part tables of the block are the same table; on a group of
    two or more records the first two, in order, fill the slots and the
    turn is the turn of those two alone. *)
Theorem C4_pair_block_slots
  (markup_ok : string -> bool) (cols : list string)
  (part_no_col desc_col loc_col : string) (progress_bar status_text : bool)
  (total i : nat) (location : string) (st : LoopState) :
  let turn := process_group_v1 markup_ok cols part_no_col desc_col loc_col
                               progress_bar status_text total in
  let build := build_tables_v1 markup_ok cols part_no_col desc_col loc_col in
  let part_table := part_table_of markup_ok cols part_no_col desc_col in
  (select_parts_v1 [] = Ok None /\
   elements (snd (turn (i, (location, [])) st)) = elements st /\
   label_count (snd (turn (i, (location, [])) st)) = label_count st)
  /\
  (forall r : Row,
      select_parts_v1 [r] = Ok (Some (r, r)) /\
      turn (i, (location, [r])) st = turn (i, (location, [r; r])) st /\
      forall t1 t2 lt : Flowable,
        build r r = Ok (t1, t2, lt) ->
        t1 = t2 /\ part_table r = Ok t1 /\
        elements (snd (turn (i, (location, [r])) st))
        = (elements st ++ break_before (label_count st)
           ++ [t1; Spacer; t1; lt; Spacer])%list)
  /\
  (forall (r1 r2 : Row) (rest : list Row),
      select_parts_v1 (r1 :: r2 :: rest) = Ok (Some (r1, r2)) /\
      turn (i, (location, r1 :: r2 :: rest)) st
      = turn (i, (location, [r1; r2])) st /\
      forall t1 t2 lt : Flowable,
        build r1 r2 = Ok (t1, t2, lt) ->
        part_table r1 = Ok t1 /\ part_table r2 = Ok t2 /\
        elements (snd (turn (i, (location, r1 :: r2 :: rest)) st))
        = (elements st ++ break_before (label_count st)
           ++ [t1; Spacer; t2; lt; Spacer])%list).
Proof.
  intros turn build part_table. repeat split.
  - unfold turn. now rewrite turn_v1_empty.
  - unfold turn. now rewrite turn_v1_empty.
  - destruct (build_tables_v1_slots _ _ _ _ _ _ _ _ _ _ H) as [H1 H2].
    congruence.
  - now destruct (build_tables_v1_slots _ _ _ _ _ _ _ _ _ _ H).
  - destruct (build_tables_v1_slots _ _ _ _ _ _ _ _ _ _ H) as [H1 H2].
    assert (t2 = t1) as -> by congruence.
    unfold turn. now rewrite (turn_v1_built _ _ _ _ _ _ _ _ _ _ _ r r t1 t1 lt).
  - now destruct (build_tables_v1_slots _ _ _ _ _ _ _ _ _ _ H).
  - now destruct (build_tables_v1_slots _ _ _ _ _ _ _ _ _ _ H).
  - unfold turn.
    now rewrite (turn_v1_built _ _ _ _ _ _ _ _ _ _ _ r1 r2 t1 t2 lt).
Qed.

(** ** The location strip *)

Lemma location_table_backgrounds
      (values_size : nat) (location_values : list string) :
  strip_backgrounds (location_table values_size location_values)
  = map Some palette.
Proof. reflexivity. Qed.

(** The location strips of the two generators are [location_table]s, of
    whatever fields the parser returned. *)
Lemma build_tables_v1_strip (markup_ok : string -> bool) (cols : list string)
      (part_no_col desc_col loc_col : string) (part1 part2 : Row)
      (t1 t2 lt : Flowable) :
  build_tables_v1 markup_ok cols part_no_col desc_col loc_col part1 part2
  = Ok (t1, t2, lt) ->
  exists fields, lt = location_table 14 fields.
Proof.
  unfold build_tables_v1.
  repeat match goal with
         | |- context [rbind ?r _] =>
             destruct r; cbn [rbind]; [|discriminate]
         end.
  intros [= <- <- <-]. eexists. reflexivity.
Qed.

Lemma build_tables_v2_strip (markup_ok : string -> bool) (cols : list string)
      (part_no_col desc_col loc_col : string) (part1 : Row)
      (t1 lt : Flowable) :
  build_tables_v2 markup_ok cols part_no_col desc_col loc_col part1
  = Ok (t1, lt) ->
  exists fields, lt = location_table 16 fields.
Proof.
  unfold build_tables_v2.
  repeat match goal with
         | |- context [rbind ?r _] =>
             destruct r; cbn [rbind]; [|discriminate]
         end.
  intros [= <- <-]. eexists. reflexivity.
Qed.

(** C9, amended. Whatever the fields hold, the seven field cells of the
    location strip, in v1 (value size 14) and in v2 (value size 16), have
    the backgrounds salmon, light blue, light green, gold, light blue,
    salmon, light green; so positions 2 and 5 share a colour, positions 1
    and 6 share a colour and positions 3 and 7 share a colour. *)
Theorem C9_location_strip_colours
  (values_size : nat) (location_values : list string) :
  let strip := location_table values_size location_values in
  strip_backgrounds strip
  = [Some salmon; Some light_blue; Some light_green; Some gold;
     Some light_blue; Some salmon; Some light_green]%list /\
  background_of strip 2 0 = background_of strip 5 0 /\
  background_of strip 1 0 = background_of strip 6 0 /\
  background_of strip 3 0 = background_of strip 7 0.
Proof. repeat split. Qed.

(** C9, as stated, fails: the cells at positions 1 and 5 of the strip do
    not share a colour, the first is salmon and the fifth light blue. *)
Lemma C9_positions_1_and_5_differ :
  let strip := location_table 14 ["12M"; "R"; "0"; "2"; "A"; "1"; ""] in
  background_of strip 1 0 = Some salmon /\
  background_of strip 5 0 = Some light_blue /\
  background_of strip 1 0 <> background_of strip 5 0.
Proof. repeat split. discriminate. Qed.

(** ** The order of strings *)

Lemma ascii_compare_refl (a : ascii) : Ascii.compare a a = Eq.
Proof. unfold Ascii.compare. apply N.compare_refl. Qed.

Lemma ascii_compare_lt_trans (a b c : ascii) :
  Ascii.compare a b = Lt -> Ascii.compare b c = Lt -> Ascii.compare a c = Lt.
Proof.
  unfold Ascii.compare. rewrite !N.compare_lt_iff. apply N.lt_trans.
Qed.

Lemma str_lt_trans (a b c : string) : str_lt a b -> str_lt b c -> str_lt a c.
Proof.
  unfold str_lt. revert b c.
  induction a as [|x a IH]; intros [|y b] [|z c]; simpl; try discriminate;
    try reflexivity.
  destruct (Ascii.compare x y) eqn:Exy; try discriminate.
  - apply Ascii.compare_eq_iff in Exy. subst y.
    destruct (Ascii.compare x z); try discriminate; [apply IH | reflexivity].
  - intros _. destruct (Ascii.compare y z) eqn:Eyz; try discriminate.
    + apply Ascii.compare_eq_iff in Eyz. subst z. now rewrite Exy.
    + intros _. now rewrite (ascii_compare_lt_trans x y z Exy Eyz).
Qed.

Lemma str_lt_irrefl (a : string) : ~ str_lt a a.
Proof.
  unfold str_lt. induction a as [|x a IH]; simpl; [discriminate|].
  now rewrite ascii_compare_refl.
Qed.

Lemma compare_gt_lt (a b : string) : String.compare a b = Gt -> str_lt b a.
Proof.
  unfold str_lt. intros H. rewrite String.compare_antisym, H. reflexivity.
Qed.

(** ** The keys of a grouping *)

Lemma insert_key_in (k x : string) (keys : list string) :
  In x (insert_key k keys) <-> x = k \/ In x keys.
Proof.
  induction keys as [|y keys IH]; simpl.
  - intuition.
  - destruct (String.compare k y) eqn:E; simpl.
    + apply String.compare_eq_iff in E. subst y. intuition.
    + intuition.
    + rewrite IH. intuition.
Qed.

Lemma insert_key_sorted (k : string) (keys : list string) :
  StronglySorted str_lt keys -> StronglySorted str_lt (insert_key k keys).
Proof.
  induction 1 as [|y keys Hs IH Hy]; simpl.
  - repeat constructor.
  - destruct (String.compare k y) eqn:E.
    + now constructor.
    + constructor; [now constructor|].
      constructor; [exact E|].
      eapply Forall_impl; [|exact Hy]. intros z Hz.
      exact (str_lt_trans _ _ _ E Hz).
    + constructor; [exact IH|].
      apply Forall_forall. intros z Hz. apply insert_key_in in Hz.
      destruct Hz as [->|Hz]; [now apply compare_gt_lt|].
      rewrite Forall_forall in Hy. now apply Hy.
Qed.

Lemma group_keys_in (values : list string) (x : string) :
  In x (group_keys values) <-> In x values.
Proof.
  induction values as [|v values IH]; simpl; [reflexivity|].
  rewrite insert_key_in, IH. intuition.
Qed.

Lemma group_keys_sorted (values : list string) :
  StronglySorted str_lt (group_keys values).
Proof.
  induction values as [|v values IH]; simpl;
    [constructor | now apply insert_key_sorted].
Qed.

(** C8, amended. The groups of a frame by a column are formed by equality
    of the cell of that column: the group of a key holds the rows whose
    cell is the key, in the order of the frame, and the keys are the values
    of the column. The loop visits them in ascending order of the key
    (strings compared code point by code point), each key once, whatever
    the order in which the values appear in the frame. *)
Theorem C8_groups_in_key_order
  (df : DataFrame) (by_col : string) (i : nat) :
  column_index (columns df) by_col = Some i ->
  exists groups : list (string * list Row),
    groupby df by_col = Ok groups /\
    StronglySorted str_lt (map fst groups) /\
    (forall k, In k (map fst groups) <-> In k (map (cell_at i) (rows df))) /\
    (forall k g, In (k, g) groups ->
                 g = filter (fun r => cell_at i r =? k) (rows df)).
Proof.
  intros Hi. unfold groupby. rewrite Hi. eexists. split; [reflexivity|].
  rewrite map_map. simpl. rewrite map_id. split; [|split].
  - apply group_keys_sorted.
  - intros k. apply group_keys_in.
  - intros k g H. apply in_map_iff in H. destruct H as (k' & [= <- <-] & _).
    reflexivity.
Qed.

(** ** The loop *)

Lemma build_tables_v1_shape (markup_ok : string -> bool) (cols : list string)
      (part_no_col desc_col loc_col : string) (part1 part2 : Row)
      (t1 t2 lt : Flowable) :
  build_tables_v1 markup_ok cols part_no_col desc_col loc_col part1 part2
  = Ok (t1, t2, lt) ->
  blocks_on [t1; Spacer; t2; lt; Spacer] = 1 /\
  ~ In PageBreak [t1; Spacer; t2; lt; Spacer].
Proof.
  unfold build_tables_v1.
  repeat match goal with
         | |- context [rbind ?r _] =>
             destruct r; cbn [rbind]; [|discriminate]
         end.
  intros [= <- <- <-]. split; [reflexivity|].
  simpl. intuition discriminate.
Qed.

Lemma build_tables_v2_shape (markup_ok : string -> bool) (cols : list string)
      (part_no_col desc_col loc_col : string) (part1 : Row)
      (t1 lt : Flowable) :
  build_tables_v2 markup_ok cols part_no_col desc_col loc_col part1
  = Ok (t1, lt) ->
  blocks_on [t1; Spacer; lt; Spacer] = 1 /\
  ~ In PageBreak [t1; Spacer; lt; Spacer].
Proof.
  unfold build_tables_v2.
  repeat match goal with
         | |- context [rbind ?r _] =>
             destruct r; cbn [rbind]; [|discriminate]
         end.
  intros [= <- <-]. split; [reflexivity|].
  simpl. intuition discriminate.
Qed.

(** A turn never raises, and has one of the three effects. *)
Lemma turn_v1_effect (markup_ok : string -> bool) (cols : list string)
      (part_no_col desc_col loc_col : string) (progress_bar status_text : bool)
      (total : nat) (item : nat * (string * list Row)) (st : LoopState) :
  exists st',
    process_group_v1 markup_ok cols part_no_col desc_col loc_col
                     progress_bar status_text total item st = (Ok tt, st') /\
    turn_effect progress_bar status_text total (fst item) (fst (snd item))
                st st'.
Proof.
  destruct item as [i [location group]]. simpl fst. simpl snd.
  destruct group as [|r1 rest].
  - eexists. split; [apply turn_v1_empty | constructor].
  - pose proof (select_parts_v1_cases (r1 :: rest)) as Hsel.
    set (r2 := match rest with [] => r1 | r :: _ => r end).
    assert (Hsel' : select_parts_v1 (r1 :: rest) = Ok (Some (r1, r2)))
      by (rewrite Hsel; subst r2; destruct rest; reflexivity).
    destruct (build_tables_v1 markup_ok cols part_no_col desc_col loc_col
                              r1 r2) as [[[t1 t2] lt]|e] eqn:Hb.
    + eexists. split; [eapply turn_v1_built; eassumption|].
      destruct (build_tables_v1_shape _ _ _ _ _ _ _ _ _ _ Hb).
      now apply turn_placed.
    + eexists. split; [eapply turn_v1_raised; eassumption|].
      apply turn_raised.
Qed.

Lemma turn_v2_effect (markup_ok : string -> bool) (cols : list string)
      (part_no_col desc_col loc_col : string) (progress_bar status_text : bool)
      (total : nat) (item : nat * (string * list Row)) (st : LoopState) :
  exists st',
    process_group_v2 markup_ok cols part_no_col desc_col loc_col
                     progress_bar status_text total item st = (Ok tt, st') /\
    turn_effect progress_bar status_text total (fst item) (fst (snd item))
                st st'.
Proof.
  destruct item as [i [location group]]. simpl fst. simpl snd.
  destruct group as [|r1 rest].
  - eexists. split; [apply turn_v2_empty | constructor].
  - assert (Hsel : select_parts_v2 (r1 :: rest) = Ok (Some r1))
      by (rewrite select_parts_v2_cases; reflexivity).
    destruct (build_tables_v2 markup_ok cols part_no_col desc_col loc_col r1)
      as [[t1 lt]|e] eqn:Hb.
    + eexists. split; [eapply turn_v2_built; eassumption|].
      destruct (build_tables_v2_shape _ _ _ _ _ _ _ _ Hb).
      now apply turn_placed.
    + eexists. split; [eapply turn_v2_raised; eassumption|].
      apply turn_raised.
Qed.

(** A loop of turns that never raise runs through every group. *)
Lemma for_each_effect (progress_bar status_text : bool) (total : nat)
      (turn : nat * (string * list Row) -> M unit) :
  (forall item st, exists st',
        turn item st = (Ok tt, st') /\
        turn_effect progress_bar status_text total (fst item)
                    (fst (snd item)) st st') ->
  forall items st, exists st',
      for_each turn items st = (Ok tt, st') /\
      loop_effect progress_bar status_text total items st st'.
Proof.
  intros Hturn. induction items as [|item items IH]; intros st; simpl.
  - exists st. split; [reflexivity | constructor].
  - destruct (Hturn item st) as (st1 & H1 & E1).
    destruct (IH st1) as (st2 & H2 & E2).
    exists st2. unfold bind. rewrite H1. split; [exact H2|].
    econstructor; eassumption.
Qed.

(** ** A run *)

(** The anatomy of a run whose turns never raise: the frame of the caller
    has upper-cased labels whatever happens next; the columns are resolved
    on the upper-cased labels; the loop visits every group; and the run
    returns the document when something was appended, [None] otherwise. *)
Lemma generate_anatomy
      (upper : string -> string)
      (turn : list string -> string -> string -> string -> bool -> bool ->
              nat -> nat * (string * list Row) -> M unit)
      (df : DataFrame) (progress_bar status_text : bool) :
  (forall cols p d l total item st, exists st',
        turn cols p d l progress_bar status_text total item st = (Ok tt, st')
        /\ turn_effect progress_bar status_text total (fst item)
                       (fst (snd item)) st st') ->
  let df' := set_columns df (map upper (columns df)) in
  let r := generate upper turn df progress_bar status_text in
  frame r = df' /\
  match resolve_columns (columns df') with
  | Raise e => outcome r = Raise e /\ calls r = []
  | Ok found =>
      match groupby df' (snd found) with
      | Raise e => outcome r = Raise e
                   /\ calls r = told_columns status_text found
      | Ok groups =>
          exists st',
          loop_effect progress_bar status_text (List.length groups)
                      (Py.enumerate groups)
                      (mkLoopState [] 0 (told_columns status_text found)) st'
          /\ outcome r = Ok match elements st' with
                            | [] => None
                            | _ :: _ => Some (elements st')
                            end
          /\ calls r
             = (events st'
                ++ (if progress_bar then [ProgressDone] else [])
                ++ (if status_text
                    then [match elements st' with
                          | [] => StatusNoLabels
                          | _ :: _ => StatusBuilding
                          end]
                    else []))%list
      end
  end.
Proof.
  intros Hturn df' r. subst r. unfold generate. fold df'.
  destruct (resolve_columns (columns df')) as [[[p d] l]|e];
    [|split; [reflexivity | split; reflexivity]].
  cbn [fst snd].
  destruct (groupby df' l) as [groups|e];
    [|split; [reflexivity | split; reflexivity]].
  destruct (for_each_effect progress_bar status_text (List.length groups)
              (turn (columns df') p d l progress_bar status_text
                    (List.length groups))
              (Hturn _ _ _ _ _) (Py.enumerate groups)
              (mkLoopState [] 0 (told_columns status_text (p, d, l))))
    as (st' & Hloop & Heff).
  assert (Hrun :
            (for_each (turn (columns df') p d l progress_bar status_text
                            (List.length groups)) (Py.enumerate groups) ;;
             when progress_bar (tell ProgressDone))
              (mkLoopState [] 0
                 (if status_text then [StatusUsingColumns p d l] else []))
            = (Ok tt,
               mkLoopState (elements st') (label_count st')
                 (events st' ++ if progress_bar then [ProgressDone] else []))).
  { unfold bind. unfold told_columns in Hloop. cbn [fst snd] in Hloop.
    rewrite Hloop. destruct st' as [els n evs].
    destruct progress_bar; cbn; rewrite ?app_nil_r; reflexivity. }
  rewrite Hrun. cbn [elements events label_count].
  split; [destruct (elements st'); reflexivity|].
  exists st'. split; [exact Heff|].
  destruct (elements st'); cbn [outcome calls];
    rewrite <- app_assoc; split; reflexivity.
Qed.

Lemma turn_effect_events (progress_bar status_text : bool) (total i : nat)
      (location : string) (st st' : LoopState) :
  turn_effect progress_bar status_text total i location st st' ->
  exists evs, events st' = (events st ++ evs)%list.
Proof.
  destruct 1; cbn [events reported]; try (eexists; reflexivity).
  rewrite <- app_assoc. eexists; reflexivity.
Qed.

Lemma loop_effect_events (progress_bar status_text : bool) (total : nat)
      (items : list (nat * (string * list Row))) (st st' : LoopState) :
  loop_effect progress_bar status_text total items st st' ->
  exists evs, events st' = (events st ++ evs)%list.
Proof.
  induction 1 as [st|item items st st1 st2 Hturn _ IH].
  - exists []. now rewrite app_nil_r.
  - destruct (turn_effect_events _ _ _ _ _ _ _ Hturn) as [evs1 H1].
    destruct IH as [evs2 H2]. exists (evs1 ++ evs2)%list.
    now rewrite H2, H1, app_assoc.
Qed.

(** The first calls of a run are those told when the columns were found,
    on the upper-cased labels. *)
Lemma generate_calls_begin
      (upper : string -> string)
      (turn : list string -> string -> string -> string -> bool -> bool ->
              nat -> nat * (string * list Row) -> M unit)
      (df : DataFrame) (progress_bar status_text : bool)
      (found : string * string * string) :
  (forall cols p d l total item st, exists st',
        turn cols p d l progress_bar status_text total item st = (Ok tt, st')
        /\ turn_effect progress_bar status_text total (fst item)
                       (fst (snd item)) st st') ->
  resolve_columns (map upper (columns df)) = Ok found ->
  exists rest,
    calls (generate upper turn df progress_bar status_text)
    = (told_columns status_text found ++ rest)%list.
Proof.
  intros Hturn Hfound.
  destruct (generate_anatomy upper turn df progress_bar status_text Hturn)
    as [_ H].
  cbn [columns set_columns] in H. rewrite Hfound in H.
  destruct (groupby _ _) as [groups|e].
  - destruct H as (st' & Heff & _ & Hcalls).
    destruct (loop_effect_events _ _ _ _ _ _ Heff) as [evs Hevs].
    cbn [events] in Hevs. rewrite Hcalls, Hevs, <- app_assoc.
    eexists; reflexivity.
  - destruct H as [_ ->]. exists []. now rewrite app_nil_r.
Qed.

(** C10. A run of either generator changes the frame that it was given:
    when it ends, by a return or by an exception, the labels of the columns
    are their upper-cased forms and the cells are where they were; the
    columns were resolved on the upper-cased labels; and a frame with a
    label that is not upper case already is not the frame it was. *)
Theorem C10_input_columns_upper_cased
  (upper : string -> string) (markup_ok : string -> bool)
  (df : DataFrame) (progress_bar status_text : bool) :
  let r1 := generate_labels_from_excel_v1 upper markup_ok df
                                          progress_bar status_text in
  let r2 := generate_labels_from_excel_v2 upper markup_ok df
                                          progress_bar status_text in
  frame r1 = mkDataFrame (map upper (columns df)) (rows df) /\
  frame r2 = mkDataFrame (map upper (columns df)) (rows df) /\
  (forall found,
      resolve_columns (map upper (columns df)) = Ok found ->
      exists rest1 rest2,
        calls r1 = (told_columns status_text found ++ rest1)%list /\
        calls r2 = (told_columns status_text found ++ rest2)%list) /\
  (map upper (columns df) <> columns df -> frame r1 <> df /\ frame r2 <> df).
Proof.
  intros r1 r2.
  assert (H1 : frame r1 = mkDataFrame (map upper (columns df)) (rows df)).
  { apply (generate_anatomy upper (process_group_v1 markup_ok)).
    intros. apply turn_v1_effect. }
  assert (H2 : frame r2 = mkDataFrame (map upper (columns df)) (rows df)).
  { apply (generate_anatomy upper (process_group_v2 markup_ok)).
    intros. apply turn_v2_effect. }
  repeat split; try assumption.
  - intros found Hfound.
    destruct (generate_calls_begin upper (process_group_v1 markup_ok) df
                progress_bar status_text found) as [rest1 E1];
      [intros; apply turn_v1_effect | assumption |].
    destruct (generate_calls_begin upper (process_group_v2 markup_ok) df
                progress_bar status_text found) as [rest2 E2];
      [intros; apply turn_v2_effect | assumption |].
    exists rest1, rest2. split; assumption.
  - rewrite H1. intros E. apply H. rewrite <- E at 2. reflexivity.
  - rewrite H2. intros E. apply H. rewrite <- E at 2. reflexivity.
Qed.

(** A frame that a run of v1 and a run of v2 left changed. *)
Lemma C10_frame_changed :
  frame (run_v1 b_then_a false false) <> b_then_a /\
  frame (run_v2 b_then_a false false) <> b_then_a.
Proof.
  apply (C10_input_columns_upper_cased upper_ascii bold_tags_paired
           b_then_a false false).
  vm_compute. discriminate.
Defined.

(** C5, as stated, fails on a frame without columns: there is no first
    column to fall back on, the resolver raises [IndexError], and so does
    the run of either generator. *)
Lemma C5_no_column_raises :
  resolve_columns (map upper_ascii (columns no_columns)) = Raise IndexError /\
  outcome (run_v1 no_columns false false) = Raise IndexError /\
  outcome (run_v2 no_columns false false) = Raise IndexError.
Proof. repeat split. Qed.

(** C8, as stated, fails: in a frame whose first row is at location B and
    whose second row is at location A, B appears first, and the loop visits
    A first; the strip of A comes first in the document. *)
Lemma C8_later_location_visited_first :
  let df := frame (run_v1 b_then_a false true) in
  first_appearance (map (cell_at 2) (rows df)) = ["B"; "A"] /\
  groupby df "LOCATION"
  = Ok [ ("A", [["P2"; "Second row"; "A"]]);
         ("B", [["P1"; "First row"; "B"]]) ] /\
  locations_told (calls (run_v1 b_then_a false true)) = ["A"; "B"] /\
  locations_told (calls (run_v2 b_then_a false true)) = ["A"; "B"] /\
  match outcome (run_v1 b_then_a false true) with
  | Ok (Some els) => map (hd (Text "")) (strips_of els) = [Text "A"; Text "B"]
  | _ => False
  end.
Proof. vm_compute. repeat split. Qed.

(** ** Runs on given frames, whatever the paragraph parser accepts besides *)

Lemma for_each_cons {A} (body : A -> M unit) (x : A) (l : list A)
      (st st' : LoopState) :
  body x st = (Ok tt, st') ->
  for_each body (x :: l) st = for_each body l st'.
Proof. intros H. simpl. unfold bind. now rewrite H. Qed.

Lemma generate_outcome
      (upper : string -> string)
      (turn : list string -> string -> string -> string -> bool -> bool ->
              nat -> nat * (string * list Row) -> M unit)
      (df : DataFrame) (progress_bar status_text : bool)
      (p d l : string) (groups : list (string * list Row)) (st' : LoopState) :
  resolve_columns (map upper (columns df)) = Ok (p, d, l) ->
  groupby (set_columns df (map upper (columns df))) l = Ok groups ->
  for_each (turn (map upper (columns df)) p d l progress_bar status_text
                 (List.length groups))
           (Py.enumerate groups)
           (mkLoopState [] 0 (told_columns status_text (p, d, l)))
  = (Ok tt, st') ->
  outcome (generate upper turn df progress_bar status_text)
  = Ok match elements st' with
       | [] => None
       | _ :: _ => Some (elements st')
       end.
Proof.
  intros Hres Hgroups Hloop. unfold generate.
  cbn [columns set_columns]. rewrite Hres, Hgroups.
  unfold told_columns in Hloop. cbn [fst snd] in Hloop.
  unfold bind. rewrite Hloop.
  destruct progress_bar; cbn; destruct (elements st'); reflexivity.
Qed.

Lemma bad_description_v1 (markup_ok : string -> bool) :
  markup_ok "<b>" = false ->
  format_description_v1 markup_ok (Py.PyStr "<b>") = Raise ValueError.
Proof.
  intros Hbad. unfold format_description_v1. rewrite ensure_str_str.
  change (description_v1_directive "<b>") with (15, "<b>").
  cbv beta iota. unfold Paragraph. now rewrite Hbad.
Qed.

Lemma bad_description_v2 (markup_ok : string -> bool) :
  markup_ok "<b>" = false ->
  format_description markup_ok (Py.PyStr "<b>") = Raise ValueError.
Proof.
  intros Hbad. unfold format_description. rewrite ensure_str_str.
  unfold Paragraph. now rewrite Hbad.
Qed.

(** The part number can only raise a [ValueError]. *)
Lemma format_part_no_v1_raise (markup_ok : string -> bool) (v : Py.PyVal)
      (e : Exc) :
  format_part_no_v1 markup_ok v = Raise e -> e = ValueError.
Proof.
  unfold format_part_no_v1, Paragraph. intros H.
  repeat match type of H with
         | context [if ?c then _ else _] => destruct c
         end; congruence.
Qed.

Lemma format_part_no_v2_raise (markup_ok : string -> bool) (v : Py.PyVal)
      (e : Exc) :
  format_part_no_v2 markup_ok v = Raise e -> e = ValueError.
Proof.
  unfold format_part_no_v2, Paragraph. intros H.
  repeat match type of H with
         | context [if ?c then _ else _] => destruct c
         end; congruence.
Qed.

(** A record whose description is an unclosed bold tag builds no table. *)
Lemma bad_record_raises_v1 (markup_ok : string -> bool)
      (part_no location : string) :
  markup_ok "<b>" = false ->
  build_tables_v1 markup_ok three_columns "PART NO" "DESCRIPTION" "LOCATION"
                  [part_no; "<b>"; location] [part_no; "<b>"; location]
  = Raise ValueError.
Proof.
  intros Hbad. unfold build_tables_v1.
  change (getcell three_columns [part_no; "<b>"; location] "PART NO")
    with (Ok (A:=string) part_no).
  change (getcell three_columns [part_no; "<b>"; location] "DESCRIPTION")
    with (Ok "<b>").
  change (getcell three_columns [part_no; "<b>"; location] "LOCATION")
    with (Ok (A:=string) location).
  cbn [rbind]. rewrite parse_v1_str. cbn [rbind].
  destruct (format_part_no_v1 markup_ok (Py.PyStr part_no)) as [p|e] eqn:Hp.
  - cbn [rbind]. now rewrite (bad_description_v1 _ Hbad).
  - cbn [rbind]. now rewrite (format_part_no_v1_raise _ _ _ Hp).
Qed.

Lemma bad_record_raises_v2 (markup_ok : string -> bool)
      (part_no location : string) :
  markup_ok "<b>" = false ->
  build_tables_v2 markup_ok three_columns "PART NO" "DESCRIPTION" "LOCATION"
                  [part_no; "<b>"; location]
  = Raise ValueError.
Proof.
  intros Hbad. unfold build_tables_v2.
  change (getcell three_columns [part_no; "<b>"; location] "PART NO")
    with (Ok (A:=string) part_no).
  change (getcell three_columns [part_no; "<b>"; location] "DESCRIPTION")
    with (Ok "<b>").
  change (getcell three_columns [part_no; "<b>"; location] "LOCATION")
    with (Ok (A:=string) location).
  cbn [rbind].
  change (parse_location_string_v2 (Py.PyStr location))
    with (parse_location_string_v1 (Py.PyStr location)).
  rewrite parse_v1_str. cbn [rbind].
  destruct (format_part_no_v2 markup_ok (Py.PyStr part_no)) as [p|e] eqn:Hp.
  - cbn [rbind]. now rewrite (bad_description_v2 _ Hbad).
  - cbn [rbind]. now rewrite (format_part_no_v2_raise _ _ _ Hp).
Qed.

(** A good record builds its tables. *)
Lemma good_record_builds_v1 (markup_ok : string -> bool) (location : string) :
  markup_ok "Short" = true ->
  markup_ok good_markup_v1 = true ->
  build_tables_v1 markup_ok three_columns "PART NO" "DESCRIPTION" "LOCATION"
                  ["AB12345"; "Short"; location] ["AB12345"; "Short"; location]
  = Ok (good_part_table_v1, good_part_table_v1, strip_of_location 14 location).
Proof.
  intros Hd Hp. unfold build_tables_v1.
  change (getcell three_columns ["AB12345"; "Short"; location] "PART NO")
    with (Ok "AB12345").
  change (getcell three_columns ["AB12345"; "Short"; location] "DESCRIPTION")
    with (Ok "Short").
  change (getcell three_columns ["AB12345"; "Short"; location] "LOCATION")
    with (Ok (A:=string) location).
  cbn [rbind]. rewrite parse_v1_str. cbn [rbind].
  change (format_part_no_v1 markup_ok (Py.PyStr "AB12345"))
    with (Paragraph markup_ok good_markup_v1 bold_style_v1).
  change (format_description_v1 markup_ok (Py.PyStr "Short"))
    with (Paragraph markup_ok "Short" (description_style_v1 15)).
  unfold Paragraph. rewrite Hd, Hp. reflexivity.
Qed.

Lemma good_record_builds_v2 (markup_ok : string -> bool) (location : string) :
  markup_ok "Short" = true ->
  markup_ok good_markup_v2 = true ->
  build_tables_v2 markup_ok three_columns "PART NO" "DESCRIPTION" "LOCATION"
                  ["AB12345"; "Short"; location]
  = Ok (good_part_table_v2, strip_of_location 16 location).
Proof.
  intros Hd Hp. unfold build_tables_v2.
  change (getcell three_columns ["AB12345"; "Short"; location] "PART NO")
    with (Ok "AB12345").
  change (getcell three_columns ["AB12345"; "Short"; location] "DESCRIPTION")
    with (Ok "Short").
  change (getcell three_columns ["AB12345"; "Short"; location] "LOCATION")
    with (Ok (A:=string) location).
  cbn [rbind].
  change (parse_location_string_v2 (Py.PyStr location))
    with (parse_location_string_v1 (Py.PyStr location)).
  rewrite parse_v1_str. cbn [rbind].
  change (format_part_no_v2 markup_ok (Py.PyStr "AB12345"))
    with (Paragraph markup_ok good_markup_v2 bold_style_v2).
  change (format_description markup_ok (Py.PyStr "Short"))
    with (Paragraph markup_ok "Short" desc_style).
  unfold Paragraph. rewrite Hd, Hp. reflexivity.
Qed.

(** The steps of a loop on the frames above. *)
Ltac raised_turn turn_raised bad_record Hbad :=
  erewrite for_each_cons;
  [|eapply turn_raised; [reflexivity | apply (bad_record _ _ _ Hbad)]].

Ltac built_turn turn_built good_record Hd Hp :=
  erewrite for_each_cons;
  [|eapply turn_built; [reflexivity | apply (good_record _ _ Hd Hp)]].

(** C7, on a frame where it fails. Five locations whose descriptions the
    paragraph parser refuses: every turn raises and no block is placed, yet
    the fifth turn appended a page break before it raised, so [elements] is
    not empty and both generators return a document, of two pages without a
    block, where C7 has them return [None]. *)
Theorem C7_no_block_yet_a_document
  (markup_ok : string -> bool) (progress_bar status_text : bool) :
  markup_ok "<b>" = false ->
  let r1 := generate_labels_from_excel_v1 upper_ascii markup_ok
              five_groups_all_bad progress_bar status_text in
  let r2 := generate_labels_from_excel_v2 upper_ascii markup_ok
              five_groups_all_bad progress_bar status_text in
  outcome r1 = Ok (Some [PageBreak]) /\ pages_of r1 = Some [0; 0] /\
  outcome r2 = Ok (Some [PageBreak]) /\ pages_of r2 = Some [0; 0].
Proof.
  intros Hbad r1 r2.
  assert (H1 : outcome r1 = Ok (Some [PageBreak])).
  { subst r1. unfold generate_labels_from_excel_v1.
    erewrite (generate_outcome upper_ascii (process_group_v1 markup_ok)
                five_groups_all_bad progress_bar status_text
                "PART NO" "DESCRIPTION" "LOCATION"); cycle 1.
    - reflexivity.
    - vm_compute. reflexivity.
    - change (map upper_ascii (columns five_groups_all_bad))
        with three_columns.
      cbn [List.length Py.enumerate seq combine].
      do 5 raised_turn turn_v1_raised bad_record_raises_v1 Hbad.
      reflexivity.
    - reflexivity. }
  assert (H2 : outcome r2 = Ok (Some [PageBreak])).
  { subst r2. unfold generate_labels_from_excel_v2.
    erewrite (generate_outcome upper_ascii (process_group_v2 markup_ok)
                five_groups_all_bad progress_bar status_text
                "PART NO" "DESCRIPTION" "LOCATION"); cycle 1.
    - reflexivity.
    - vm_compute. reflexivity.
    - change (map upper_ascii (columns five_groups_all_bad))
        with three_columns.
      cbn [List.length Py.enumerate seq combine].
      do 5 raised_turn turn_v2_raised bad_record_raises_v2 Hbad.
      reflexivity.
    - reflexivity. }
  unfold pages_of. rewrite H1, H2. repeat split.
Qed.

(** The paragraph parser that pairs bold tags refuses an unclosed one. *)
Lemma C7_on_paired_bold_tags :
  outcome (run_v1 five_groups_all_bad false true) = Ok (Some [PageBreak]) /\
  pages_of (run_v1 five_groups_all_bad false true) = Some [0; 0] /\
  outcome (run_v2 five_groups_all_bad false true) = Ok (Some [PageBreak]) /\
  pages_of (run_v2 five_groups_all_bad false true) = Some [0; 0].
Proof.
  apply (C7_no_block_yet_a_document bold_tags_paired false true).
  reflexivity.
Defined.

(** C2, on a frame where it fails. Five locations, the second with a
    description that the paragraph parser refuses: the turn of the second
    location counted a label and placed none, so the page break comes
    before the fourth block that is placed, not the fifth, and the pages
    hold 3 blocks and 1 block where C2 has one page of 4. *)
Theorem C2_break_before_fourth_block
  (markup_ok : string -> bool) (progress_bar status_text : bool) :
  markup_ok "<b>" = false ->
  markup_ok "Short" = true ->
  markup_ok good_markup_v1 = true ->
  markup_ok good_markup_v2 = true ->
  pages_of (generate_labels_from_excel_v1 upper_ascii markup_ok
              five_groups_one_bad progress_bar status_text) = Some [3; 1] /\
  pages_of (generate_labels_from_excel_v2 upper_ascii markup_ok
              five_groups_one_bad progress_bar status_text) = Some [3; 1].
Proof.
  intros Hbad Hd Hp1 Hp2. unfold pages_of. split.
  - unfold generate_labels_from_excel_v1.
    erewrite (generate_outcome upper_ascii (process_group_v1 markup_ok)
                five_groups_one_bad progress_bar status_text
                "PART NO" "DESCRIPTION" "LOCATION"); cycle 1.
    + reflexivity.
    + vm_compute. reflexivity.
    + change (map upper_ascii (columns five_groups_one_bad))
        with three_columns.
      cbn [List.length Py.enumerate seq combine].
      built_turn turn_v1_built good_record_builds_v1 Hd Hp1.
      raised_turn turn_v1_raised bad_record_raises_v1 Hbad.
      do 3 built_turn turn_v1_built good_record_builds_v1 Hd Hp1.
      reflexivity.
    + reflexivity.
  - unfold generate_labels_from_excel_v2.
    erewrite (generate_outcome upper_ascii (process_group_v2 markup_ok)
                five_groups_one_bad progress_bar status_text
                "PART NO" "DESCRIPTION" "LOCATION"); cycle 1.
    + reflexivity.
    + vm_compute. reflexivity.
    + change (map upper_ascii (columns five_groups_one_bad))
        with three_columns.
      cbn [List.length Py.enumerate seq combine].
      built_turn turn_v2_built good_record_builds_v2 Hd Hp2.
      raised_turn turn_v2_raised bad_record_raises_v2 Hbad.
      do 3 built_turn turn_v2_built good_record_builds_v2 Hd Hp2.
      reflexivity.
    + reflexivity.
Qed.

Lemma C2_on_paired_bold_tags :
  pages_of (run_v1 five_groups_one_bad false true) = Some [3; 1] /\
  pages_of (run_v2 five_groups_one_bad false true) = Some [3; 1].
Proof.
  apply (C2_break_before_fourth_block bold_tags_paired false true);
    reflexivity.
Defined.

(** ** The theorems at given inputs *)

(** C3 at the part number of the specification's example, and at one of
    two characters. *)
Lemma C3_on_AB12345_and_P2 :
  (exists prefix suffix : string,
      prefix ++ suffix = "AB12345" /\
      String.length prefix = 2 /\
      String.length suffix = 5 /\
      format_part_no_v1 bold_tags_paired (Py.PyStr "AB12345")
      = Paragraph bold_tags_paired (bold (font 17 prefix ++ font 22 suffix))
                  bold_style_v1 /\
      format_part_no_v2 bold_tags_paired (Py.PyStr "AB12345")
      = Paragraph bold_tags_paired
                  (bold (font 34 prefix ++ font 40 suffix) ++ "<br/><br/>")
                  bold_style_v2)
  /\
  (format_part_no_v1 bold_tags_paired (Py.PyStr "P2")
   = Paragraph bold_tags_paired (bold (font 17 "P2")) bold_style_v1 /\
   format_part_no_v2 bold_tags_paired (Py.PyStr "P2")
   = Paragraph bold_tags_paired (bold (font 34 "P2") ++ "<br/><br/>")
               bold_style_v2).
Proof.
  split.
  - apply (proj1 (C3_part_number_split bold_tags_paired "AB12345")).
    simpl. lia.
  - apply (proj2 (C3_part_number_split bold_tags_paired "P2")).
    simpl. lia.
Defined.

(** C6 at a short description. *)
Lemma C6_on_Short :
  exists (size : nat) (text : string),
    format_description_v1 bold_tags_paired (Py.PyStr "Short")
    = Paragraph bold_tags_paired text (description_style_v1 size) /\
    size = 15 /\ text = "Short".
Proof.
  destruct (C6_description_v1_size_and_truncation bold_tags_paired "Short")
    as (size & text & H & H30 & _ & _ & _ & _ & _ & H100).
  exists size, text. repeat split.
  - exact H.
  - apply H30. simpl. lia.
  - apply H100. simpl. lia.
Defined.

(** C4 at a group of one good record. *)
Lemma C4_on_one_record :
  let r := ["AB12345"; "Short"; "B"] in
  let st := mkLoopState [] 0 [] in
  let turn := process_group_v1 bold_tags_paired three_columns
                "PART NO" "DESCRIPTION" "LOCATION" false true 2 in
  exists t lt : Flowable,
    elements (snd (turn (1, ("B", [r])) st)) = [t; Spacer; t; lt; Spacer].
Proof.
  intros r st turn.
  destruct (C4_pair_block_slots bold_tags_paired three_columns
              "PART NO" "DESCRIPTION" "LOCATION" false true 2 1 "B" st)
    as (_ & Hone & _).
  destruct (Hone r) as (_ & _ & Hslots).
  destruct (Hslots good_part_table_v1 good_part_table_v1
                   (strip_of_location 14 "B")) as (_ & _ & Hels).
  - subst r. apply good_record_builds_v1; reflexivity.
  - do 2 eexists. exact Hels.
Defined.

(** C8 at the frame [b_then_a], once its labels are upper case. *)
Lemma C8_on_b_then_a :
  exists groups : list (string * list Row),
    groupby (frame (run_v1 b_then_a false true)) "LOCATION" = Ok groups /\
    StronglySorted str_lt (map fst groups) /\
    (forall k, In k (map fst groups)
               <-> In k (map (cell_at 2)
                             (rows (frame (run_v1 b_then_a false true))))) /\
    (forall k g, In (k, g) groups ->
                 g = filter (fun r => cell_at 2 r =? k)
                            (rows (frame (run_v1 b_then_a false true)))).
Proof.
  apply (C8_groups_in_key_order (frame (run_v1 b_then_a false true))
                                "LOCATION" 2).
  reflexivity.
Defined.

(** ** Pages *)

Lemma split_pages_not_nil (els : list Flowable) : split_pages els <> [].
Proof.
  induction els as [|f els IH]; simpl; [discriminate|].
  destruct f; try discriminate; destruct (split_pages els); discriminate.
Qed.

Lemma split_pages_no_break (blk : list Flowable) :
  ~ In PageBreak blk -> split_pages blk = [blk].
Proof.
  induction blk as [|f blk IH]; intros H; [reflexivity|].
  assert (Hblk : split_pages blk = [blk]) by (apply IH; intros ?; apply H; now right).
  destruct f; simpl; rewrite ?Hblk; try reflexivity.
  exfalso. apply H. now left.
Qed.

Lemma split_pages_app_break (els : list Flowable) :
  split_pages (els ++ [PageBreak]) = (split_pages els ++ [[]])%list.
Proof.
  induction els as [|f els IH]; [reflexivity|].
  pose proof (split_pages_not_nil els) as Hne.
  destruct f; simpl; rewrite IH;
    destruct (split_pages els); try contradiction; reflexivity.
Qed.

Lemma split_pages_app_block (els blk : list Flowable) :
  ~ In PageBreak blk ->
  split_pages (els ++ blk)
  = (removelast (split_pages els) ++ [last (split_pages els) [] ++ blk])%list.
Proof.
  intros Hblk. induction els as [|f els IH].
  - simpl. now apply split_pages_no_break.
  - pose proof (split_pages_not_nil els) as Hne.
    destruct f; cbn [app split_pages]; rewrite IH;
      destruct (split_pages els) as [|p [|p' ps]]; try contradiction;
      reflexivity.
Qed.

Lemma blocks_on_app (a b : list Flowable) :
  blocks_on (a ++ b) = blocks_on a + blocks_on b.
Proof. unfold blocks_on. now rewrite filter_app, length_app. Qed.

Lemma counts_app_break (els : list Flowable) :
  page_block_counts (els ++ [PageBreak])
  = (page_block_counts els ++ [0])%list.
Proof.
  unfold page_block_counts. now rewrite split_pages_app_break, map_app.
Qed.

Lemma map_removelast {A B} (f : A -> B) (l : list A) :
  map f (removelast l) = removelast (map f l).
Proof.
  induction l as [|x [|y l] IH]; try reflexivity.
  cbn [removelast map] in *. now rewrite IH.
Qed.

Lemma map_last {A B} (f : A -> B) (l : list A) (d : A) :
  l <> [] -> f (last l d) = last (map f l) (f d).
Proof.
  induction l as [|x [|y l] IH]; intros H; try reflexivity; try contradiction.
  cbn [last map] in *. apply IH. discriminate.
Qed.

Lemma counts_app_block (els blk : list Flowable) :
  ~ In PageBreak blk ->
  page_block_counts (els ++ blk)
  = (removelast (page_block_counts els)
     ++ [last (page_block_counts els) 0 + blocks_on blk])%list.
Proof.
  intros H. unfold page_block_counts.
  rewrite (split_pages_app_block els blk H), map_app, map_removelast.
  cbn [map]. rewrite blocks_on_app.
  now rewrite (map_last blocks_on _ [] (split_pages_not_nil els)).
Qed.

Lemma counts_not_nil (els : list Flowable) : page_block_counts els <> [].
Proof.
  unfold page_block_counts. pose proof (split_pages_not_nil els).
  destruct (split_pages els); [contradiction | discriminate].
Qed.

Lemma removelast_last_app {A} (l : list A) (x : A) :
  removelast (l ++ [x]) = l /\ last (l ++ [x]) x = x.
Proof. split; [apply removelast_last | apply last_last]. Qed.

Lemma Forall_removelast {A} (P : A -> Prop) (l : list A) :
  Forall P l -> Forall P (removelast l).
Proof.
  induction 1 as [|x l Hx Hl IH]; [constructor|].
  destruct l; [constructor|]. cbn [removelast]. constructor; assumption.
Qed.

(** ** The count of labels and the page break *)

Lemma break_before_cases (n : nat) :
  (0 < n /\ n mod 4 = 0 /\ break_before n = [PageBreak])
  \/ ((n = 0 \/ n mod 4 <> 0) /\ break_before n = []).
Proof.
  unfold break_before, MAX_LABELS_PER_PAGE.
  destruct (Nat.ltb_spec 0 n); destruct (Nat.eqb_spec (n mod 4) 0);
    cbn [andb]; [left | right | right | right]; repeat split;
    try assumption; lia.
Qed.

Lemma counted_after_break (n : nat) :
  0 < n -> n mod 4 = 0 ->
  counted_on_page n = 4 /\ counted_on_page (S n) = 1 /\
  (S n - 1) / 4 = S ((n - 1) / 4).
Proof.
  intros Hn Hm. unfold counted_on_page, MAX_LABELS_PER_PAGE.
  destruct (Nat.eqb_spec n 0); [lia|]. cbn [Nat.eqb].
  replace (S n - 1) with n by lia.
  pose proof (Nat.div_mod_eq n 4) as Dn.
  pose proof (Nat.div_mod_eq (n - 1) 4) as Dp.
  pose proof (Nat.mod_upper_bound (n - 1) 4) as Bp.
  rewrite Hm. lia.
Qed.

Lemma counted_without_break (n : nat) :
  n = 0 \/ n mod 4 <> 0 ->
  counted_on_page (S n) = counted_on_page n + 1 /\
  counted_on_page (S n) <= 4 /\
  (S n - 1) / 4 = (n - 1) / 4.
Proof.
  intros H. unfold counted_on_page, MAX_LABELS_PER_PAGE. cbn [Nat.eqb].
  replace (S n - 1) with n by lia.
  destruct (Nat.eqb_spec n 0) as [->|Hn];
    [repeat split; cbn; lia|].
  pose proof (Nat.div_mod_eq n 4) as Dn.
  pose proof (Nat.div_mod_eq (n - 1) 4) as Dp.
  pose proof (Nat.mod_upper_bound (n - 1) 4) as Bp.
  pose proof (Nat.mod_upper_bound n 4) as Bn.
  lia.
Qed.

(** ** Every page holds at most four blocks *)

Lemma paginated_start (evs : list Event) : paginated (mkLoopState [] 0 evs).
Proof. split; cbn; [repeat constructor | lia]. Qed.

Lemma turn_effect_paginated (progress_bar status_text : bool) (total i : nat)
      (location : string) (st st' : LoopState) :
  turn_effect progress_bar status_text total i location st st' ->
  paginated st -> paginated st'.
Proof.
  intros Heff [Hall Hlast]. unfold paginated, MAX_LABELS_PER_PAGE in *.
  destruct Heff as [|block Hone Hnb|e]; cbn [elements label_count reported].
  - split; assumption.
  - destruct (break_before_cases (label_count st))
      as [(Hn & Hm & ->)|(Hn & ->)].
    + destruct (counted_after_break _ Hn Hm) as (_ & -> & _).
      rewrite app_assoc, counts_app_block, counts_app_break by assumption.
      rewrite removelast_last, !last_last, Hone. split; [|lia].
      apply Forall_app. split; [assumption|].
      constructor; [lia | constructor].
    + destruct (counted_without_break _ Hn) as (-> & Hle & _).
      cbn [app]. rewrite counts_app_block, Hone by assumption.
      destruct (counted_without_break _ Hn) as (E & _ & _).
      rewrite last_last. split; [|lia].
      apply Forall_app. split; [now apply Forall_removelast|].
      constructor; [lia | constructor].
  - destruct (break_before_cases (label_count st))
      as [(Hn & Hm & ->)|(Hn & ->)].
    + destruct (counted_after_break _ Hn Hm) as (_ & -> & _).
      rewrite counts_app_break, last_last. split; [|lia].
      apply Forall_app. split; [assumption|].
      constructor; [lia | constructor].
    + destruct (counted_without_break _ Hn) as (-> & _ & _).
      rewrite app_nil_r. split; [assumption | lia].
Qed.

Lemma loop_effect_paginated (progress_bar status_text : bool) (total : nat)
      (items : list (nat * (string * list Row))) (st st' : LoopState) :
  loop_effect progress_bar status_text total items st st' ->
  paginated st -> paginated st'.
Proof.
  induction 1 as [st|item items st st1 st2 Hturn _ IH]; intros H;
    [assumption|].
  apply IH. eapply turn_effect_paginated; eassumption.
Qed.

(** In every run of either generator that returns a document, whichever
    turns raised, no page holds more than four blocks. *)
Theorem pages_hold_at_most_four
  (upper : string -> string) (markup_ok : string -> bool)
  (df : DataFrame) (progress_bar status_text : bool) (els : list Flowable) :
  outcome (generate_labels_from_excel_v1 upper markup_ok df
                                         progress_bar status_text)
  = Ok (Some els)
  \/ outcome (generate_labels_from_excel_v2 upper markup_ok df
                                            progress_bar status_text)
     = Ok (Some els) ->
  Forall (fun k => k <= 4) (page_block_counts els).
Proof.
  assert (Hgen : forall turn,
             (forall cols p d l total item st, exists st',
                   turn cols p d l progress_bar status_text total item st
                   = (Ok tt, st')
                   /\ turn_effect progress_bar status_text total (fst item)
                                  (fst (snd item)) st st') ->
             outcome (generate upper turn df progress_bar status_text)
             = Ok (Some els) ->
             Forall (fun k => k <= 4) (page_block_counts els)).
  { intros turn Hturn Hout.
    destruct (generate_anatomy upper turn df progress_bar status_text Hturn)
      as [_ H].
    destruct (resolve_columns _) as [found|e];
      [|destruct H as [H _]; congruence].
    destruct (groupby _ _) as [groups|e];
      [|destruct H as [H _]; congruence].
    destruct H as (st' & Heff & Hres & _).
    apply loop_effect_paginated in Heff; [|apply paginated_start].
    rewrite Hres in Hout. destruct (elements st') eqn:E; [discriminate|].
    injection Hout as <-. rewrite <- E. apply Heff. }
  intros [H|H].
  - apply (Hgen (process_group_v1 markup_ok));
      [intros; apply turn_v1_effect | exact H].
  - apply (Hgen (process_group_v2 markup_ok));
      [intros; apply turn_v2_effect | exact H].
Qed.

(** ** Runs in which no turn raises: the page break falls exactly before
       the 5th, 9th, 13th, ... block *)

Lemma all_placed_pages (progress_bar status_text : bool) (total : nat)
      (items : list (nat * (string * list Row))) (st st' : LoopState) :
  all_placed progress_bar status_text total items st st' ->
  page_block_counts (elements st) = four_to_a_page (label_count st) ->
  page_block_counts (elements st') = four_to_a_page (label_count st') /\
  label_count st' = label_count st + List.length items.
Proof.
  induction 1 as [st|item items st block st'' Hone Hnb _ IH]; intros Hinv.
  - split; [assumption | cbn; lia].
  - assert (Hnext :
              page_block_counts
                (elements st ++ break_before (label_count st) ++ block)
              = four_to_a_page (S (label_count st)));
      [|destruct (IH Hnext) as [Hp Hl]; cbn [label_count] in Hl;
        split; [exact Hp | cbn [List.length]; lia]].
    clear IH. unfold four_to_a_page, MAX_LABELS_PER_PAGE in *.
    destruct (break_before_cases (label_count st))
      as [(Hn & Hm & ->)|(Hn & ->)].
    + destruct (counted_after_break _ Hn Hm) as (E4 & -> & ->).
      rewrite app_assoc, counts_app_block, counts_app_break by assumption.
      rewrite removelast_last, last_last, Hone, Hinv, E4.
      cbn [repeat]. rewrite repeat_cons. reflexivity.
    + destruct (counted_without_break _ Hn) as (-> & _ & ->).
      cbn [app]. rewrite counts_app_block, Hone, Hinv by assumption.
      now rewrite removelast_last, last_last.
Qed.

(** Where every group has a row and its tables are built, every turn of
    the v1 loop places a block. *)
Lemma for_each_all_placed_v1
      (markup_ok : string -> bool) (cols : list string)
      (part_no_col desc_col loc_col : string) (progress_bar status_text : bool)
      (total : nat) (items : list (nat * (string * list Row))) :
  Forall (fun item =>
            exists part1 part2 tables,
              select_parts_v1 (snd (snd item)) = Ok (Some (part1, part2)) /\
              build_tables_v1 markup_ok cols part_no_col desc_col loc_col
                              part1 part2 = Ok tables) items ->
  forall st, exists st',
      for_each (process_group_v1 markup_ok cols part_no_col desc_col loc_col
                                 progress_bar status_text total) items st
      = (Ok tt, st') /\
      all_placed progress_bar status_text total items st st'.
Proof.
  induction 1 as [|item items Hitem _ IH]; intros st.
  - exists st. split; [reflexivity | constructor].
  - destruct Hitem as (part1 & part2 & [[t1 t2] lt] & Hsel & Hb).
    destruct item as [i [location group]]. cbn [fst snd] in *.
    pose proof (turn_v1_built markup_ok cols part_no_col desc_col loc_col
                  progress_bar status_text total i location group
                  part1 part2 t1 t2 lt st Hsel Hb) as Hturn.
    destruct (build_tables_v1_shape _ _ _ _ _ _ _ _ _ _ Hb) as [Hone Hnb].
    match type of Hturn with _ = (_, ?s) => destruct (IH s) as (st' & Hl & Hp)
    end.
    exists st'. split.
    + now rewrite (for_each_cons _ _ _ _ _ Hturn).
    + econstructor; eassumption.
Qed.

Lemma for_each_all_placed_v2
      (markup_ok : string -> bool) (cols : list string)
      (part_no_col desc_col loc_col : string) (progress_bar status_text : bool)
      (total : nat) (items : list (nat * (string * list Row))) :
  Forall (fun item =>
            exists part1 tables,
              select_parts_v2 (snd (snd item)) = Ok (Some part1) /\
              build_tables_v2 markup_ok cols part_no_col desc_col loc_col
                              part1 = Ok tables) items ->
  forall st, exists st',
      for_each (process_group_v2 markup_ok cols part_no_col desc_col loc_col
                                 progress_bar status_text total) items st
      = (Ok tt, st') /\
      all_placed progress_bar status_text total items st st'.
Proof.
  induction 1 as [|item items Hitem _ IH]; intros st.
  - exists st. split; [reflexivity | constructor].
  - destruct Hitem as (part1 & [t1 lt] & Hsel & Hb).
    destruct item as [i [location group]]. cbn [fst snd] in *.
    pose proof (turn_v2_built markup_ok cols part_no_col desc_col loc_col
                  progress_bar status_text total i location group
                  part1 t1 lt st Hsel Hb) as Hturn.
    destruct (build_tables_v2_shape _ _ _ _ _ _ _ _ Hb) as [Hone Hnb].
    match type of Hturn with _ = (_, ?s) => destruct (IH s) as (st' & Hl & Hp)
    end.
    exists st'. split.
    + now rewrite (for_each_cons _ _ _ _ _ Hturn).
    + econstructor; eassumption.
Qed.

(** Where no turn raises, the loop of either generator, begun on the empty
    document, leaves as many labels counted as there are groups and pages
    that hold four blocks each but the last: the page breaks stand exactly
    before the 5th, 9th, 13th, ... block. *)
Theorem faultless_loop_four_to_a_page
  (markup_ok : string -> bool) (cols : list string)
  (part_no_col desc_col loc_col : string) (progress_bar status_text : bool)
  (total : nat) (items : list (nat * (string * list Row)))
  (evs : list Event) :
  (Forall (fun item =>
             exists part1 part2 tables,
               select_parts_v1 (snd (snd item)) = Ok (Some (part1, part2)) /\
               build_tables_v1 markup_ok cols part_no_col desc_col loc_col
                               part1 part2 = Ok tables) items ->
   exists st',
     for_each (process_group_v1 markup_ok cols part_no_col desc_col loc_col
                                progress_bar status_text total)
              items (mkLoopState [] 0 evs) = (Ok tt, st') /\
     label_count st' = List.length items /\
     page_block_counts (elements st') = four_to_a_page (List.length items))
  /\
  (Forall (fun item =>
             exists part1 tables,
               select_parts_v2 (snd (snd item)) = Ok (Some part1) /\
               build_tables_v2 markup_ok cols part_no_col desc_col loc_col
                               part1 = Ok tables) items ->
   exists st',
     for_each (process_group_v2 markup_ok cols part_no_col desc_col loc_col
                                progress_bar status_text total)
              items (mkLoopState [] 0 evs) = (Ok tt, st') /\
     label_count st' = List.length items /\
     page_block_counts (elements st') = four_to_a_page (List.length items)).
Proof.
  split; intros Hitems.
  - destruct (for_each_all_placed_v1 _ _ _ _ _ progress_bar status_text total
                _ Hitems (mkLoopState [] 0 evs)) as (st' & Hloop & Hplaced).
    destruct (all_placed_pages _ _ _ _ _ _ Hplaced eq_refl) as [Hp Hn].
    cbn [label_count] in Hn. rewrite Nat.add_0_l in Hn.
    exists st'. rewrite <- Hn. auto.
  - destruct (for_each_all_placed_v2 _ _ _ _ _ progress_bar status_text total
                _ Hitems (mkLoopState [] 0 evs)) as (st' & Hloop & Hplaced).
    destruct (all_placed_pages _ _ _ _ _ _ Hplaced eq_refl) as [Hp Hn].
    cbn [label_count] in Hn. rewrite Nat.add_0_l in Hn.
    exists st'. rewrite <- Hn. auto.
Qed.

Example four_to_a_page_9 : four_to_a_page 9 = [4; 4; 1].
Proof. reflexivity. Qed.

Example four_to_a_page_8 : four_to_a_page 8 = [4; 4].
Proof. reflexivity. Qed.

(** Nine locations with one good record each: three pages, of 4, 4 and 1
    blocks, in v1 and in v2. *)
Lemma nine_groups_three_pages :
  pages_of (run_v1 nine_groups true true) = Some [4; 4; 1] /\
  pages_of (run_v2 nine_groups true true) = Some [4; 4; 1].
Proof. vm_compute. split; reflexivity. Qed.

(** ** A turn that raises does not end the loop *)

Lemma locations_told_app (a b : list Event) :
  locations_told (a ++ b) = (locations_told a ++ locations_told b)%list.
Proof.
  induction a as [|ev a IH]; [reflexivity|].
  destruct ev; cbn [app locations_told]; rewrite IH; reflexivity.
Qed.

Lemma turn_effect_told (progress_bar : bool) (total i : nat)
      (location : string) (st st' : LoopState) :
  turn_effect progress_bar true total i location st st' ->
  locations_told (events st')
  = (locations_told (events st) ++ [location])%list.
Proof.
  destruct 1; cbn [events reported]; rewrite ?locations_told_app;
    destruct progress_bar; cbn; rewrite ?app_nil_r; reflexivity.
Qed.

Lemma loop_effect_told (progress_bar : bool) (total : nat)
      (items : list (nat * (string * list Row))) (st st' : LoopState) :
  loop_effect progress_bar true total items st st' ->
  locations_told (events st')
  = (locations_told (events st) ++ map (fun item => fst (snd item)) items)%list.
Proof.
  induction 1 as [st|item items st st1 st2 Hturn _ IH].
  - now rewrite app_nil_r.
  - rewrite IH, (turn_effect_told _ _ _ _ _ _ Hturn), <- app_assoc.
    reflexivity.
Qed.

(** The loop of either generator never raises, whatever its turns meet,
    and the status callback is told every group, in the order of the
    groups: a group whose turn raised does not keep the next from its
    turn. *)
Theorem loop_visits_every_group
  (markup_ok : string -> bool) (cols : list string)
  (part_no_col desc_col loc_col : string) (progress_bar : bool)
  (total : nat) (items : list (nat * (string * list Row)))
  (st : LoopState) :
  (exists st',
      for_each (process_group_v1 markup_ok cols part_no_col desc_col loc_col
                                 progress_bar true total) items st
      = (Ok tt, st') /\
      locations_told (events st')
      = (locations_told (events st)
         ++ map (fun item => fst (snd item)) items)%list)
  /\
  (exists st',
      for_each (process_group_v2 markup_ok cols part_no_col desc_col loc_col
                                 progress_bar true total) items st
      = (Ok tt, st') /\
      locations_told (events st')
      = (locations_told (events st)
         ++ map (fun item => fst (snd item)) items)%list).
Proof.
  split.
  - destruct (for_each_effect progress_bar true total
                (process_group_v1 markup_ok cols part_no_col desc_col loc_col
                                  progress_bar true total)
                (turn_v1_effect _ _ _ _ _ _ _ _) items st)
      as (st' & Hloop & Heff).
    exists st'. split; [exact Hloop | now apply loop_effect_told in Heff].
  - destruct (for_each_effect progress_bar true total
                (process_group_v2 markup_ok cols part_no_col desc_col loc_col
                                  progress_bar true total)
                (turn_v2_effect _ _ _ _ _ _ _ _) items st)
      as (st' & Hloop & Heff).
    exists st'. split; [exact Hloop | now apply loop_effect_told in Heff].
Qed.

Lemma strips_of_app (a b : list Flowable) :
  strips_of (a ++ b) = (strips_of a ++ strips_of b)%list.
Proof. unfold strips_of. apply flat_map_app. Qed.

Lemma strips_of_break_before (n : nat) : strips_of (break_before n) = [].
Proof.
  destruct (break_before_cases n) as [(_ & _ & ->)|(_ & ->)]; reflexivity.
Qed.

(** A turn, of v1 or of v2, whose tables raised: the document has the
    location strips that it had, so the group gave no block, and the last
    call of the status callback reports the error at the location. *)
Theorem raised_turn_places_no_block
  (markup_ok : string -> bool) (cols : list string)
  (part_no_col desc_col loc_col : string) (progress_bar : bool)
  (total i : nat) (location : string) (group : list Row) (st : LoopState)
  (e : Exc) :
  (forall part1 part2,
      select_parts_v1 group = Ok (Some (part1, part2)) ->
      build_tables_v1 markup_ok cols part_no_col desc_col loc_col part1 part2
      = Raise e ->
      let st' := snd (process_group_v1 markup_ok cols part_no_col desc_col
                        loc_col progress_bar true total
                        (i, (location, group)) st) in
      strips_of (elements st') = strips_of (elements st) /\
      last (events st') ProgressDone = StatusError location e)
  /\
  (forall part1,
      select_parts_v2 group = Ok (Some part1) ->
      build_tables_v2 markup_ok cols part_no_col desc_col loc_col part1
      = Raise e ->
      let st' := snd (process_group_v2 markup_ok cols part_no_col desc_col
                        loc_col progress_bar true total
                        (i, (location, group)) st) in
      strips_of (elements st') = strips_of (elements st) /\
      last (events st') ProgressDone = StatusError location e).
Proof.
  split.
  - intros part1 part2 Hsel Hb st'. subst st'.
    rewrite (turn_v1_raised _ _ _ _ _ _ _ _ _ _ _ _ _ _ _ Hsel Hb).
    cbn [snd elements events].
    rewrite strips_of_app, strips_of_break_before, app_nil_r, last_last.
    split; reflexivity.
  - intros part1 Hsel Hb st'. subst st'.
    rewrite (turn_v2_raised _ _ _ _ _ _ _ _ _ _ _ _ _ _ Hsel Hb).
    cbn [snd elements events].
    rewrite strips_of_app, strips_of_break_before, app_nil_r, last_last.
    split; reflexivity.
Qed.

(** ** The columns that a run resolves *)

Lemma find_in {A} (p : A -> bool) (l : list A) (x : A) :
  find p l = Some x -> In x l.
Proof. intros H. now apply find_some in H. Qed.

(** The three columns are columns of the frame. *)
Lemma resolve_columns_members (cols : list string) (p d l : string) :
  resolve_columns cols = Ok (p, d, l) ->
  In p cols /\ In d cols /\ In l cols.
Proof.
  destruct cols as [|c cs]; [discriminate|].
  pose proof (resolve_columns_found c cs) as Hfound. cbv zeta in Hfound.
  rewrite Hfound. clear Hfound.
  set (cols := c :: cs).
  assert (Hc : In c cols) by now left.
  assert (H2 : forall second rest, cs = second :: rest -> In second cols)
    by (intros second rest ->; right; now left).
  assert (H3 : forall second third rest,
             cs = second :: third :: rest -> In third cols)
    by (intros second third rest ->; right; right; now left).
  pose proof (find_in names_part_number cols) as Hfp.
  pose proof (find_in is_partno_or_part cols) as Hfe.
  pose proof (find_in names_description cols) as Hfd.
  pose proof (find_in names_location cols) as Hfl.
  destruct (find names_part_number cols) as [xp|];
    destruct (find is_partno_or_part cols) as [xe|];
    destruct (find names_description cols) as [xd|];
    destruct (find names_location cols) as [xl|];
    destruct cs as [|second [|third rest]];
    intros [= <- <- <-]; repeat split; eauto.
Qed.

Lemma column_index_member (cols : list string) (col : string) :
  In col cols -> exists i, column_index cols col = Some i.
Proof.
  induction cols as [|c cols IH]; intros H; [contradiction|].
  simpl. destruct (String.eqb_spec c col) as [_|Hne]; [now exists 0|].
  destruct H as [H|H]; [contradiction|].
  destruct (IH H) as [i ->]. now exists (S i).
Qed.

(** ** The order of a run *)

Lemma enumerate_locations {A} (groups : list (string * A)) :
  map (fun item => fst (snd item)) (Py.enumerate groups) = map fst groups.
Proof.
  unfold Py.enumerate. generalize 0.
  induction groups as [|g groups IH]; intros n; [reflexivity|].
  cbn [List.length seq combine map fst snd]. now rewrite IH.
Qed.

(** The status callback of a run is told the locations in the order of the
    keys of the grouping: with [C8_groups_in_key_order], ascending. *)
Theorem run_tells_locations_in_key_order
  (upper : string -> string) (markup_ok : string -> bool)
  (df : DataFrame) (progress_bar : bool)
  (found : string * string * string) (groups : list (string * list Row)) :
  resolve_columns (map upper (columns df)) = Ok found ->
  groupby (set_columns df (map upper (columns df))) (snd found) = Ok groups ->
  locations_told (calls (generate_labels_from_excel_v1 upper markup_ok df
                           progress_bar true)) = map fst groups /\
  locations_told (calls (generate_labels_from_excel_v2 upper markup_ok df
                           progress_bar true)) = map fst groups.
Proof.
  intros Hres Hgroups.
  assert (Hgen : forall turn,
             (forall cols p d l total item st, exists st',
                   turn cols p d l progress_bar true total item st
                   = (Ok tt, st')
                   /\ turn_effect progress_bar true total (fst item)
                                  (fst (snd item)) st st') ->
             locations_told (calls (generate upper turn df progress_bar true))
             = map fst groups).
  { intros turn Hturn.
    destruct (generate_anatomy upper turn df progress_bar true Hturn)
      as [_ H].
    cbn [columns set_columns] in H. rewrite Hres in H.
    cbn [columns set_columns] in Hgroups. rewrite Hgroups in H.
    destruct H as (st' & Heff & _ & ->).
    apply loop_effect_told in Heff. cbn [events] in Heff.
    rewrite !locations_told_app, Heff, enumerate_locations.
    destruct progress_bar, (elements st'); cbn; now rewrite ?app_nil_r. }
  split.
  - apply (Hgen (process_group_v1 markup_ok)). intros. apply turn_v1_effect.
  - apply (Hgen (process_group_v2 markup_ok)). intros. apply turn_v2_effect.
Qed.

(** ** The examples of the specification *)

Example parse_six_tokens :
  parse_location_string_v1 (Py.PyStr "12M R 0 2 A 1")
  = Ok ["12M"; "R"; "0"; "2"; "A"; "1"; ""].
Proof. reflexivity. Qed.

Example parse_ten_tokens :
  parse_location_string_v2 (Py.PyStr " 12M_ST-140_R_0_2_A_1_X_Y_Z ")
  = Ok ["12M"; "ST-140"; "R"; "0"; "2"; "A"; "1"].
Proof. reflexivity. Qed.

Example parse_no_token :
  parse_location_string_v1 (Py.PyStr " _ _ ") = Ok (repeat "" 7).
Proof. reflexivity. Qed.

Example resolve_by_keyword :
  resolve_columns ["QTY"; "LOCATION"; "PART"; "DESCRIPTION"]
  = Ok ("PART", "DESCRIPTION", "LOCATION").
Proof. reflexivity. Qed.

Example resolve_by_position :
  resolve_columns ["A"; "B"; "C"; "D"] = Ok ("A", "B", "C").
Proof. reflexivity. Qed.

Example resolve_one_column : resolve_columns ["X"] = Ok ("X", "X", "X").
Proof. reflexivity. Qed.

Example description_of_101_characters :
  let desc := String.concat "" (repeat "0123456789" 10) ++ "X" in
  description_v1_directive desc
  = (9, String.concat "" (repeat "0123456789" 10) ++ "...").
Proof. reflexivity. Qed.

(** Two rows at one location make one v1 block, on one page, with the
    fields of the location and the part number split as "AB" and "12345". *)
Example two_rows_one_block :
  match outcome (run_v1 two_rows_one_location false false) with
  | Ok (Some [Table [[_; Flow part_no]; _] _; Spacer; second; strip; Spacer]) =>
      para_text part_no = bold (font 17 "AB" ++ font 22 "12345") /\
      second = good_part_table_v1 /\
      strips_of [strip]
      = [[Text "12M"; Text "R"; Text "0"; Text "2"; Text "A"; Text "1";
          Text ""]]
  | _ => False
  end.
Proof. vm_compute. repeat split. Qed.

Example one_row_same_tables :
  match outcome (run_v1 (one_per_location "Short" ["L1"]) false false) with
  | Ok (Some [first; Spacer; second; _; Spacer]) => first = second
  | _ => False
  end.
Proof. vm_compute. reflexivity. Qed.

(** The strings of the two docstrings. The dashes of the first are token
    characters, so it has four tokens; the second has its seven. *)
Example parse_docstring_v1 :
  parse_location_string_v1 (Py.PyStr "12M - LH -R-0-2-A-1")
  = Ok ["12M"; "-"; "LH"; "-R-0-2-A-1"; ""; ""; ""].
Proof. reflexivity. Qed.

Example parse_docstring_v2 :
  parse_location_string_v2 (Py.PyStr "12M_ST-140_R_0_2_A_1")
  = Ok ["12M"; "ST-140"; "R"; "0"; "2"; "A"; "1"].
Proof. reflexivity. Qed.

(** * Further properties of the code *)

(** ** The Location Parser: separators, fields, round trip *)

Lemma tokens_of_skip_all (w s : string) (ts : list string) :
  all_sep w = true -> tokens_of s ts -> tokens_of (w ++ s) ts.
Proof.
  induction w as [|c w IH]; intros Hw H; [exact H|].
  simpl in Hw. apply andb_true_iff in Hw as [Hc Hw].
  simpl. apply tokens_skip; [exact Hc | now apply IH].
Qed.

Lemma at_separator_app (s w : string) :
  at_separator s -> all_sep w = true -> at_separator (s ++ w).
Proof.
  destruct s as [|c s]; intros Hs Hw; [|exact Hs].
  destruct w as [|d w]; [exact I|]. simpl in *.
  now apply andb_true_iff in Hw as [Hd _].
Qed.

Lemma tokens_of_app_sep (s w : string) (ts : list string) :
  all_sep w = true -> tokens_of s ts -> tokens_of (s ++ w) ts.
Proof.
  intros Hw. induction 1 as [|c s ts Hc _ IH|t s ts Hne Ht Hs _ IH].
  - simpl. rewrite <- (append_empty_r w).
    apply tokens_of_skip_all; [assumption | constructor].
  - simpl. now apply tokens_skip.
  - rewrite append_assoc. apply tokens_run; try assumption.
    now apply at_separator_app.
Qed.

Lemma findall_around (pre s post : string) :
  all_sep pre = true -> all_sep post = true ->
  Py.findall (pre ++ s ++ post) = Py.findall s.
Proof.
  intros Hpre Hpost. symmetry. apply tokens_of_findall.
  apply tokens_of_skip_all; [assumption|].
  apply tokens_of_app_sep; [assumption | apply findall_tokens].
Qed.

Lemma isspace_sep (c : ascii) : Py.isspace c = true -> separator c = true.
Proof. rewrite isspace_white_space. apply white_space_separator. Qed.

Lemma lstrip_split (s : string) :
  exists w, s = w ++ Py.lstrip s /\ all_sep w = true.
Proof.
  induction s as [|c s (w & Hs & Hw)]; [now exists ""|].
  simpl. destruct (Py.isspace c) eqn:E; [|now exists ""].
  exists (String c w). simpl. rewrite <- Hs, Hw, (isspace_sep c E).
  split; reflexivity.
Qed.

Lemma rstrip_split (s : string) :
  exists w, s = Py.rstrip s ++ w /\ all_sep w = true.
Proof.
  induction s as [|c s (w & Hs & Hw)]; [now exists ""|].
  simpl. destruct (Py.rstrip s) as [|d r] eqn:Er.
  - simpl in Hs. subst s. destruct (Py.isspace c) eqn:E.
    + exists (String c w). simpl. now rewrite Hw, (isspace_sep c E).
    + now exists w.
  - exists w. simpl. now rewrite Hs at 1.
Qed.

(** The trimming of the text does not change its tokens. *)
Lemma findall_strip (s : string) : Py.findall (Py.strip s) = Py.findall s.
Proof.
  unfold Py.strip.
  destruct (lstrip_split s) as (pre & Hs & Hpre).
  destruct (rstrip_split (Py.lstrip s)) as (post & Hl & Hpost).
  rewrite Hs at 2. rewrite Hl at 2.
  symmetry. now apply findall_around.
Qed.

(** Separators before and after a location text (spaces, tabs, new lines,
    underscores) change nothing: both parsers return the fields of the text
    without them. *)
Theorem separators_around_ignored (pre s post : string) :
  all_sep pre = true -> all_sep post = true ->
  parse_location_string_v1 (Py.PyStr (pre ++ s ++ post))
  = parse_location_string_v1 (Py.PyStr s) /\
  parse_location_string_v2 (Py.PyStr (pre ++ s ++ post))
  = parse_location_string_v2 (Py.PyStr s).
Proof.
  intros Hpre Hpost.
  change (parse_location_string_v2 (Py.PyStr (pre ++ s ++ post)))
    with (parse_location_string_v1 (Py.PyStr (pre ++ s ++ post))).
  change (parse_location_string_v2 (Py.PyStr s))
    with (parse_location_string_v1 (Py.PyStr s)).
  rewrite !parse_v1_str, !findall_strip, findall_around by assumption.
  split; reflexivity.
Qed.

Lemma separators_around_12M :
  parse_location_string_v1 (Py.PyStr (" _" ++ "12M_R" ++ "_ "))
  = parse_location_string_v1 (Py.PyStr "12M_R") /\
  parse_location_string_v2 (Py.PyStr (" _" ++ "12M_R" ++ "_ "))
  = parse_location_string_v2 (Py.PyStr "12M_R").
Proof.
  apply (separators_around_ignored " _" "12M_R" "_ "); reflexivity.
Defined.

Lemma tokens_of_are_tokens (s : string) (ts : list string) :
  tokens_of s ts -> Forall is_token ts.
Proof.
  induction 1 as [|c s ts _ _ IH|t s ts Hne Ht _ _ IH];
    [constructor | exact IH | constructor; [split|]; assumption].
Qed.

Lemma findall_are_tokens (s : string) : Forall is_token (Py.findall s).
Proof. apply (tokens_of_are_tokens s), findall_tokens. Qed.

Lemma Forall_firstn {A} (P : A -> Prop) (n : nat) (l : list A) :
  Forall P l -> Forall P (firstn n l).
Proof.
  revert l. induction n as [|n IH]; intros l H; [constructor|].
  destruct H; [constructor|]. simpl. constructor; auto.
Qed.

Lemma parse_fields_shape (v : Py.PyVal) :
  exists tokens : list string,
    List.length tokens <= 7 /\
    Forall is_token tokens /\
    parse_location_string_v1 v
    = Ok (tokens ++ repeat "" (7 - List.length tokens))%list.
Proof.
  destruct v as [|s|t r].
  - exists []. split; [simpl; lia|]. split; [constructor | reflexivity].
  - exists (firstn 7 (Py.findall (Py.strip s))).
    rewrite parse_v1_str. split; [apply firstn_le_length|].
    split; [apply Forall_firstn, findall_are_tokens | reflexivity].
  - exists []. unfold parse_location_string_v1.
    simpl. rewrite orb_true_r. split; [lia|].
    split; [constructor | reflexivity].
Qed.

(** The shape of the fields of a text, trimmed or not: the maximal runs of
    the text as it is given, each of them non-empty and free of white space
    and underscores, fill the first fields, seven at most, and the empty
    fields fill the rest; so no field holds a separator and no empty field
    stands before a token. *)
Theorem fields_are_tokens_then_empties (s : string) :
  exists tokens : list string,
    tokens_of s tokens /\
    Forall is_token tokens /\
    parse_location_string_v1 (Py.PyStr s)
    = Ok (firstn 7 tokens
          ++ repeat "" (7 - List.length (firstn 7 tokens)))%list /\
    parse_location_string_v2 (Py.PyStr s)
    = Ok (firstn 7 tokens
          ++ repeat "" (7 - List.length (firstn 7 tokens)))%list.
Proof.
  exists (Py.findall s). split; [apply findall_tokens|].
  split; [apply findall_are_tokens|].
  change (parse_location_string_v2 (Py.PyStr s))
    with (parse_location_string_v1 (Py.PyStr s)).
  rewrite parse_v1_str, findall_strip. split; reflexivity.
Qed.

Lemma all_white_all_sep (w : string) : all_white w = true -> all_sep w = true.
Proof.
  induction w as [|c w IH]; [reflexivity|]. cbn [all_white all_sep].
  intros H. apply andb_true_iff in H as [Hc Hw].
  now rewrite (white_space_separator c Hc), IH.
Qed.

(** The tokens of a trimmed text are those of the text. *)
Lemma trimmed_tokens (s t : string) (ts : list string) :
  trimmed s t -> tokens_of t ts -> ts = Py.findall s.
Proof.
  intros (pre & post & -> & Hpre & Hpost & _) H.
  rewrite findall_around by now apply all_white_all_sep.
  now apply tokens_of_findall.
Qed.

Lemma C1_on_tabs_and_underscores :
  parse_location_string_v1 (Py.PyStr tabbed_location)
  = Ok ["12M"; "R"; "0"; "2"; ""; ""; ""] /\
  parse_location_string_v2 (Py.PyStr tabbed_location)
  = Ok ["12M"; "R"; "0"; "2"; ""; ""; ""] /\
  exists text tokens : _,
    trimmed tabbed_location text /\ tokens_of text tokens /\
    tokens = ["12M"; "R"; "0"; "2"] /\
    seven_fields tokens = ["12M"; "R"; "0"; "2"; ""; ""; ""].
Proof.
  destruct (C1_location_parser_seven_fields (Py.PyStr tabbed_location))
    as (fields & H1 & H2 & _ & text & tokens & Htrim & Htok & Hfields).
  assert (Hf : fields = ["12M"; "R"; "0"; "2"; ""; ""; ""])
    by (vm_compute in H1; now injection H1).
  rewrite <- Hf. split; [exact H1|]. split; [exact H2|].
  exists text, tokens. split; [exact Htrim|]. split; [exact Htok|].
  split; [|now symmetry].
  rewrite (trimmed_tokens _ _ _ Htrim Htok). reflexivity.
Defined.

Lemma fields_of_tabbed_location :
  exists tokens : list string,
    tokens_of tabbed_location tokens /\
    tokens = ["12M"; "R"; "0"; "2"] /\
    parse_location_string_v1 (Py.PyStr tabbed_location)
    = Ok ["12M"; "R"; "0"; "2"; ""; ""; ""] /\
    parse_location_string_v2 (Py.PyStr tabbed_location)
    = Ok ["12M"; "R"; "0"; "2"; ""; ""; ""].
Proof.
  destruct (fields_are_tokens_then_empties tabbed_location)
    as (tokens & Htok & _ & H1 & H2).
  assert (E : tokens = ["12M"; "R"; "0"; "2"])
    by (rewrite (tokens_of_findall _ _ Htok); reflexivity).
  exists tokens. split; [exact Htok|]. split; [exact E|].
  rewrite E in H1, H2. split; [exact H1 | exact H2].
Defined.

Lemma concat_tokens (sep : string) (l : list string) :
  sep <> "" -> all_sep sep = true ->
  Forall (fun t => t = "" \/ is_token t) l ->
  tokens_of (String.concat sep l) (filter (fun t => negb (t =? "")) l).
Proof.
  intros Hne Hsep. induction 1 as [|x l Hx _ IH]; [constructor|].
  assert (Hat : forall rest, at_separator (sep ++ rest)).
  { intros rest. destruct sep as [|c sep]; [contradiction|].
    simpl in *. now apply andb_true_iff in Hsep as [Hc _]. }
  destruct l as [|y l].
  - simpl. destruct Hx as [->|[Hx1 Hx2]]; [constructor|].
    destruct (String.eqb_spec x ""); [contradiction|]. simpl.
    rewrite <- (append_empty_r x) at 1.
    apply tokens_run; try assumption; try exact I; constructor.
  - change (String.concat sep (x :: y :: l))
      with (x ++ sep ++ String.concat sep (y :: l)).
    cbn [filter].
    destruct Hx as [->|[Hx1 Hx2]].
    + simpl. now apply tokens_of_skip_all.
    + destruct (String.eqb_spec x ""); [contradiction|]. simpl negb.
      cbv iota. apply tokens_run; try assumption; [apply Hat|].
      now apply tokens_of_skip_all.
Qed.

Lemma filter_tokens_empties (tokens : list string) (k : nat) :
  Forall is_token tokens ->
  filter (fun t => negb (t =? "")) (tokens ++ repeat "" k) = tokens.
Proof.
  intros H. rewrite filter_app.
  replace (filter (fun t => negb (t =? "")) (repeat "" k)) with (@nil string)
    by (induction k; [reflexivity | assumption]).
  rewrite app_nil_r. induction H as [|t l [Ht _] _ IH]; [reflexivity|].
  simpl. destruct (String.eqb_spec t ""); [contradiction|].
  simpl. now rewrite IH.
Qed.

(** Round trip: the fields that a parser returns, joined by a separator
    (an underscore, a space, any run of them), parse back to the same
    fields, with both parsers and on every input. *)
Theorem joined_fields_parse_back (v : Py.PyVal) (sep : string) :
  sep <> "" -> all_sep sep = true ->
  exists fields : list string,
    parse_location_string_v1 v = Ok fields /\
    parse_location_string_v1 (Py.PyStr (String.concat sep fields))
    = Ok fields /\
    parse_location_string_v2 (Py.PyStr (String.concat sep fields))
    = Ok fields.
Proof.
  intros Hne Hsep.
  destruct (parse_fields_shape v) as (tokens & Hlen & Htok & Hparse).
  eexists. split; [exact Hparse|].
  change (parse_location_string_v2 ?x) with (parse_location_string_v1 x).
  rewrite parse_v1_str, findall_strip.
  assert (Hfind :
            Py.findall
              (String.concat sep
                 (tokens ++ repeat "" (7 - List.length tokens)))
            = tokens).
  { symmetry. apply tokens_of_findall.
    assert (HF : Forall (fun t => t = "" \/ is_token t)
                        (tokens ++ repeat "" (7 - List.length tokens))).
    { apply Forall_app. split.
      - eapply Forall_impl; [|exact Htok]. intros t Ht. now right.
      - apply Forall_forall. intros t Ht. left.
        now apply repeat_spec in Ht. }
    pose proof (concat_tokens sep _ Hne Hsep HF) as H.
    now rewrite (filter_tokens_empties tokens _ Htok) in H. }
  rewrite Hfind. unfold seven_fields. rewrite firstn_all2 by lia.
  split; reflexivity.
Qed.

Lemma joined_by_underscore_parse_back :
  exists fields : list string,
    parse_location_string_v1 (Py.PyStr "12M R 0 2 A 1") = Ok fields /\
    parse_location_string_v1 (Py.PyStr (String.concat "_" fields))
    = Ok fields /\
    parse_location_string_v2 (Py.PyStr (String.concat "_" fields))
    = Ok fields.
Proof.
  apply (joined_fields_parse_back (Py.PyStr "12M R 0 2 A 1") "_");
    [discriminate | reflexivity].
Defined.

(** ** The Typography Selector: the description of v1 *)

Lemma format_description_v1_directive
      (markup_ok : string -> bool) (s : string) :
  format_description_v1 markup_ok (Py.PyStr s)
  = Paragraph markup_ok (snd (description_v1_directive s))
              (description_style_v1 (fst (description_v1_directive s))).
Proof.
  unfold format_description_v1. rewrite ensure_str_str.
  now destruct (description_v1_directive s).
Qed.

Ltac bucket_cases :=
  unfold description_v1_directive;
  repeat match goal with
         | |- context [if (?a <=? ?b)%nat then _ else _] =>
             destruct (Nat.leb_spec a b)
         end;
  cbn [fst snd].

(** A longer description is never set in a larger font, and the font size
    stays between 9 and 15 points. *)
Theorem description_size_never_grows
  (markup_ok : string -> bool) (s1 s2 : string) :
  String.length s1 <= String.length s2 ->
  exists (size1 size2 : nat) (text1 text2 : string),
    format_description_v1 markup_ok (Py.PyStr s1)
    = Paragraph markup_ok text1 (description_style_v1 size1) /\
    format_description_v1 markup_ok (Py.PyStr s2)
    = Paragraph markup_ok text2 (description_style_v1 size2) /\
    9 <= size2 /\ size2 <= size1 /\ size1 <= 15.
Proof.
  intros Hlen. do 4 eexists.
  split; [apply format_description_v1_directive|].
  split; [apply format_description_v1_directive|].
  bucket_cases; lia.
Qed.

Lemma description_size_of_two :
  exists (size1 size2 : nat) (text1 text2 : string),
    format_description_v1 bold_tags_paired (Py.PyStr "Short")
    = Paragraph bold_tags_paired text1 (description_style_v1 size1) /\
    format_description_v1 bold_tags_paired
      (Py.PyStr "A description of more than thirty characters")
    = Paragraph bold_tags_paired text2 (description_style_v1 size2) /\
    9 <= size2 /\ size2 <= size1 /\ size1 <= 15.
Proof.
  apply (description_size_never_grows bold_tags_paired "Short"
           "A description of more than thirty characters").
  simpl. lia.
Defined.

(** The text of a v1 description has the length of the description up to
    100 characters and 103 characters beyond: a description of 101 or 102
    characters is set longer than it is. *)
Theorem description_text_length (markup_ok : string -> bool) (s : string) :
  exists (size : nat) (text : string),
    format_description_v1 markup_ok (Py.PyStr s)
    = Paragraph markup_ok text (description_style_v1 size) /\
    (String.length s <= 100 -> String.length text = String.length s) /\
    (100 < String.length s -> String.length text = 103) /\
    (String.length s = 101 \/ String.length s = 102 ->
     String.length s < String.length text).
Proof.
  do 2 eexists. split; [apply format_description_v1_directive|].
  assert (Hlong : 100 < String.length s ->
                  String.length (snd (description_v1_directive s)) = 103).
  { intros H. bucket_cases; try lia.
    pose proof H as Hb. apply Nat.ltb_lt in Hb. rewrite Hb.
    change 100%Z with (Z.of_nat 100). rewrite slice_upto by lia.
    rewrite length_append, substring_0_length by lia. reflexivity. }
  split; [|split].
  - intros H. bucket_cases; try reflexivity.
    apply Nat.ltb_ge in H. now rewrite H.
  - exact Hlong.
  - intros H. rewrite Hlong; lia.
Qed.

Lemma description_of_101_is_longer :
  let s := String.concat "" (repeat "0123456789" 10) ++ "X" in
  exists (size : nat) (text : string),
    format_description_v1 bold_tags_paired (Py.PyStr s)
    = Paragraph bold_tags_paired text (description_style_v1 size) /\
    String.length text = 103 /\ String.length s < String.length text.
Proof.
  intros s.
  destruct (description_text_length bold_tags_paired s)
    as (size & text & H & _ & Hlong & Hmore).
  exists size, text. split; [exact H|]. split.
  - apply Hlong. vm_compute. lia.
  - apply Hmore. left. reflexivity.
Defined.

(** ** The Column Resolver: what it returns is in the frame *)

Lemma column_index_lt (cols : list string) (col : string) (i : nat) :
  column_index cols col = Some i -> i < List.length cols.
Proof.
  revert i. induction cols as [|c cols IH]; intros i; simpl; [discriminate|].
  destruct (c =? col); [intros [= <-]; lia|].
  destruct (column_index cols col) as [j|]; [|discriminate].
  intros [= <-]. specialize (IH j eq_refl). lia.
Qed.

Lemma getcell_member (cols : list string) (row : Row) (col : string) :
  In col cols -> List.length row = List.length cols ->
  exists v, getcell cols row col = Ok v.
Proof.
  intros Hin Hlen. unfold getcell.
  destruct (column_index_member cols col Hin) as [i Hi]. rewrite Hi.
  apply column_index_lt in Hi.
  destruct (nth_error row i) as [v|] eqn:E; [now exists v|].
  apply nth_error_None in E. lia.
Qed.

(** The three columns that the resolver returns are columns of the frame,
    so that the cell of each of them is found in every row that has a cell
    for every column: no lookup of a turn raises [KeyError]. *)
Theorem resolved_columns_are_columns
  (cols : list string) (part_no_col desc_col loc_col : string) :
  resolve_columns cols = Ok (part_no_col, desc_col, loc_col) ->
  In part_no_col cols /\ In desc_col cols /\ In loc_col cols /\
  forall row : Row,
    List.length row = List.length cols ->
    exists part_no desc location,
      getcell cols row part_no_col = Ok part_no /\
      getcell cols row desc_col = Ok desc /\
      getcell cols row loc_col = Ok location.
Proof.
  intros H. destruct (resolve_columns_members _ _ _ _ H) as (Hp & Hd & Hl).
  repeat split; try assumption. intros row Hrow.
  destruct (getcell_member cols row part_no_col Hp Hrow) as [a Ha].
  destruct (getcell_member cols row desc_col Hd Hrow) as [b Hb].
  destruct (getcell_member cols row loc_col Hl Hrow) as [c Hc].
  now exists a, b, c.
Qed.

Lemma resolved_columns_of_four :
  In "PART" ["QTY"; "LOCATION"; "PART"; "DESCRIPTION"] /\
  In "DESCRIPTION" ["QTY"; "LOCATION"; "PART"; "DESCRIPTION"] /\
  In "LOCATION" ["QTY"; "LOCATION"; "PART"; "DESCRIPTION"] /\
  forall row : Row,
    List.length row = 4 ->
    exists part_no desc location,
      getcell ["QTY"; "LOCATION"; "PART"; "DESCRIPTION"] row "PART"
      = Ok part_no /\
      getcell ["QTY"; "LOCATION"; "PART"; "DESCRIPTION"] row "DESCRIPTION"
      = Ok desc /\
      getcell ["QTY"; "LOCATION"; "PART"; "DESCRIPTION"] row "LOCATION"
      = Ok location.
Proof.
  apply (resolved_columns_are_columns
           ["QTY"; "LOCATION"; "PART"; "DESCRIPTION"]
           "PART" "DESCRIPTION" "LOCATION").
  reflexivity.
Defined.

(** A frame of one column, whatever its name: the column serves as part
    number, as description and as location, and nothing is raised. *)
Theorem one_column_serves_all (c : string) :
  resolve_columns [c] = Ok (c, c, c).
Proof.
  pose proof (resolve_columns_found c []) as H. cbv zeta in H.
  rewrite H. cbn [find].
  destruct (names_part_number c), (is_partno_or_part c),
    (names_description c), (names_location c); reflexivity.
Qed.

(** ** The Label Block Builder, v2 *)

(** In v2 the first record of a group fills the block and the others are
    dropped: the turn on a group is the turn on its first record alone, and
    a group without records gives nothing. *)
Theorem single_block_uses_first_record
  (markup_ok : string -> bool) (cols : list string)
  (part_no_col desc_col loc_col : string) (progress_bar status_text : bool)
  (total i : nat) (location : string) (st : LoopState)
  (r1 : Row) (rest : list Row) :
  let turn := process_group_v2 markup_ok cols part_no_col desc_col loc_col
                               progress_bar status_text total in
  select_parts_v2 [] = Ok None /\
  elements (snd (turn (i, (location, [])) st)) = elements st /\
  select_parts_v2 (r1 :: rest) = Ok (Some r1) /\
  turn (i, (location, r1 :: rest)) st = turn (i, (location, [r1])) st /\
  forall t lt : Flowable,
    build_tables_v2 markup_ok cols part_no_col desc_col loc_col r1
    = Ok (t, lt) ->
    elements (snd (turn (i, (location, r1 :: rest)) st))
    = (elements st ++ break_before (label_count st)
       ++ [t; Spacer; lt; Spacer])%list.
Proof.
  intros turn. split; [reflexivity|]. split.
  { unfold turn. now rewrite turn_v2_empty. }
  assert (Hsel : select_parts_v2 (r1 :: rest) = Ok (Some r1))
    by now rewrite select_parts_v2_cases.
  split; [exact Hsel|]. split.
  - unfold turn, process_group_v2. cbn [fst snd].
    rewrite Hsel. reflexivity.
  - intros t lt Hb. unfold turn.
    now rewrite (turn_v2_built _ _ _ _ _ _ _ _ _ _ _ r1 t lt st Hsel Hb).
Qed.

Lemma single_block_of_two_records :
  let r := ["AB12345"; "Short"; "B"] in
  let turn := process_group_v2 bold_tags_paired three_columns
                "PART NO" "DESCRIPTION" "LOCATION" false true 1 in
  elements (snd (turn (0, ("B", [r; ["ZZ"; "Other"; "B"]]))
                      (mkLoopState [] 0 [])))
  = [good_part_table_v2; Spacer; strip_of_location 16 "B"; Spacer].
Proof.
  intros r turn.
  apply (single_block_uses_first_record bold_tags_paired three_columns
           "PART NO" "DESCRIPTION" "LOCATION" false true 1 0 "B"
           (mkLoopState [] 0 []) r [["ZZ"; "Other"; "B"]]).
  subst r. apply good_record_builds_v2; reflexivity.
Defined.

(** ** The grouping: every row in the group of its location *)

Lemma sorted_keys_nodup (keys : list string) :
  StronglySorted str_lt keys -> NoDup keys.
Proof.
  induction 1 as [|k keys _ IH Hk]; constructor; [|exact IH].
  intros Hin. rewrite Forall_forall in Hk.
  exact (str_lt_irrefl k (Hk k Hin)).
Qed.

Lemma groupby_groups (df : DataFrame) (by_col : string) (i : nat) :
  column_index (columns df) by_col = Some i ->
  groupby df by_col
  = Ok (map (fun k => (k, filter (fun r => cell_at i r =? k) (rows df)))
            (group_keys (map (cell_at i) (rows df)))).
Proof. intros Hi. unfold groupby. now rewrite Hi. Qed.

Lemma groupby_nonempty (df : DataFrame) (by_col : string)
      (groups : list (string * list Row)) :
  groupby df by_col = Ok groups -> Forall (fun g => snd g <> []) groups.
Proof.
  unfold groupby. destruct (column_index (columns df) by_col) as [i|];
    [|discriminate].
  intros [= <-]. apply Forall_forall. intros [k g] Hin.
  apply in_map_iff in Hin. destruct Hin as (k' & [= <- <-] & Hk).
  apply group_keys_in, in_map_iff in Hk. destruct Hk as (r & Hr & Hin).
  cbn [snd]. intros E.
  assert (Hr' : In r (filter (fun r0 : Row => nth i r0 "" =? k') (rows df))).
  { apply filter_In. split; [exact Hin|]. subst k'. apply String.eqb_refl. }
  rewrite E in Hr'. contradiction.
Qed.

(** The groups of a frame by one of its columns part its rows: no group is
    empty, no key comes twice, and every row is in the group of the value
    of its cell and in no other. So the [continue] of the loops, for a
    group without rows, is never taken in a run. *)
Theorem groups_part_the_rows
  (df : DataFrame) (by_col : string) (i : nat) :
  column_index (columns df) by_col = Some i ->
  exists groups : list (string * list Row),
    groupby df by_col = Ok groups /\
    NoDup (map fst groups) /\
    Forall (fun g => snd g <> []) groups /\
    forall r : Row,
      In r (rows df) ->
      (exists g, In (cell_at i r, g) groups /\ In r g) /\
      (forall k g, In (k, g) groups -> In r g -> k = cell_at i r).
Proof.
  intros Hi. eexists. split; [apply (groupby_groups df by_col i Hi)|].
  rewrite map_map. cbn [fst]. rewrite map_id. split; [|split].
  - apply sorted_keys_nodup, group_keys_sorted.
  - apply (groupby_nonempty df by_col). apply (groupby_groups _ _ _ Hi).
  - intros r Hr. split.
    + eexists. split.
      * apply in_map_iff. exists (cell_at i r). split; [reflexivity|].
        apply group_keys_in, in_map. exact Hr.
      * apply filter_In. split; [exact Hr | apply String.eqb_refl].
    + intros k g Hin Hrg. apply in_map_iff in Hin.
      destruct Hin as (k' & [= <- <-] & _).
      apply filter_In in Hrg. destruct Hrg as [_ E].
      symmetry. now apply String.eqb_eq.
Qed.

Lemma groups_of_b_then_a :
  exists groups : list (string * list Row),
    groupby (frame (run_v1 b_then_a false true)) "LOCATION" = Ok groups /\
    NoDup (map fst groups) /\
    Forall (fun g => snd g <> []) groups /\
    forall r : Row,
      In r (rows (frame (run_v1 b_then_a false true))) ->
      (exists g, In (cell_at 2 r, g) groups /\ In r g) /\
      (forall k g, In (k, g) groups -> In r g -> k = cell_at 2 r).
Proof.
  apply (groups_part_the_rows (frame (run_v1 b_then_a false true))
                              "LOCATION" 2).
  reflexivity.
Defined.

(** ** The page breaks of a document *)

(** A turn on a group that has a row counts a label, whether it then
    places a block or raises. *)
Lemma turn_v1_counted (markup_ok : string -> bool) (cols : list string)
      (part_no_col desc_col loc_col : string) (progress_bar status_text : bool)
      (total : nat) (item : nat * (string * list Row)) (st : LoopState) :
  snd (snd item) <> [] ->
  exists st' block,
    process_group_v1 markup_ok cols part_no_col desc_col loc_col
                     progress_bar status_text total item st = (Ok tt, st') /\
    ~ In PageBreak block /\
    elements st'
    = (elements st ++ break_before (label_count st) ++ block)%list /\
    label_count st' = S (label_count st).
Proof.
  destruct item as [i [location group]]. cbn [fst snd]. intros Hne.
  destruct group as [|r1 rest]; [contradiction|].
  set (r2 := match rest with [] => r1 | r :: _ => r end).
  assert (Hsel : select_parts_v1 (r1 :: rest) = Ok (Some (r1, r2)))
    by (rewrite select_parts_v1_cases; subst r2; destruct rest; reflexivity).
  destruct (build_tables_v1 markup_ok cols part_no_col desc_col loc_col
                            r1 r2) as [[[t1 t2] lt]|e] eqn:Hb.
  - do 2 eexists. split; [eapply turn_v1_built; eassumption|].
    split; [apply (build_tables_v1_shape _ _ _ _ _ _ _ _ _ _ Hb)|].
    split; reflexivity.
  - exists (mkLoopState
              (elements st ++ break_before (label_count st))
              (S (label_count st))
              (events (reported progress_bar status_text total i location st)
               ++ if status_text then [StatusError location e] else [])), [].
    split; [eapply turn_v1_raised; eassumption|].
    split; [intros []|]. cbn [elements label_count].
    now rewrite app_nil_r.
Qed.

Lemma turn_v2_counted (markup_ok : string -> bool) (cols : list string)
      (part_no_col desc_col loc_col : string) (progress_bar status_text : bool)
      (total : nat) (item : nat * (string * list Row)) (st : LoopState) :
  snd (snd item) <> [] ->
  exists st' block,
    process_group_v2 markup_ok cols part_no_col desc_col loc_col
                     progress_bar status_text total item st = (Ok tt, st') /\
    ~ In PageBreak block /\
    elements st'
    = (elements st ++ break_before (label_count st) ++ block)%list /\
    label_count st' = S (label_count st).
Proof.
  destruct item as [i [location group]]. cbn [fst snd]. intros Hne.
  destruct group as [|r1 rest]; [contradiction|].
  assert (Hsel : select_parts_v2 (r1 :: rest) = Ok (Some r1))
    by now rewrite select_parts_v2_cases.
  destruct (build_tables_v2 markup_ok cols part_no_col desc_col loc_col r1)
    as [[t1 lt]|e] eqn:Hb.
  - do 2 eexists. split; [eapply turn_v2_built; eassumption|].
    split; [apply (build_tables_v2_shape _ _ _ _ _ _ _ _ Hb)|].
    split; reflexivity.
  - exists (mkLoopState
              (elements st ++ break_before (label_count st))
              (S (label_count st))
              (events (reported progress_bar status_text total i location st)
               ++ if status_text then [StatusError location e] else [])), [].
    split; [eapply turn_v2_raised; eassumption|].
    split; [intros []|]. cbn [elements label_count].
    now rewrite app_nil_r.
Qed.

Lemma count_of_app (kind : Flowable -> bool) (a b : list Flowable) :
  count_of kind (a ++ b) = count_of kind a + count_of kind b.
Proof. unfold count_of. now rewrite filter_app, length_app. Qed.

Lemma count_of_no_break (block : list Flowable) :
  ~ In PageBreak block -> count_of is_page_break block = 0.
Proof.
  unfold count_of. induction block as [|f block IH]; intros H; [reflexivity|].
  destruct f; cbn [filter is_page_break];
    try (apply IH; intros Hin; apply H; now right).
  exfalso. apply H. now left.
Qed.

Lemma breaks_match_count_step (els block : list Flowable) (n : nat) :
  ~ In PageBreak block ->
  count_of is_page_break els = (n - 1) / 4 ->
  count_of is_page_break (els ++ break_before n ++ block) = (S n - 1) / 4.
Proof.
  intros Hb Hinv.
  rewrite !count_of_app, (count_of_no_break block Hb), Hinv.
  replace (S n - 1) with n by lia.
  pose proof (Nat.div_mod_eq n 4) as Hn.
  pose proof (Nat.mod_upper_bound n 4) as Hn'.
  pose proof (Nat.div_mod_eq (n - 1) 4) as Hp.
  pose proof (Nat.mod_upper_bound (n - 1) 4) as Hp'.
  destruct (break_before_cases n) as [(H0 & Hm & ->)|(H0 & ->)];
    change (count_of is_page_break [PageBreak]) with 1;
    change (count_of is_page_break []) with 0; lia.
Qed.

(** A loop over groups that all have a row counts one label a group, and
    keeps the page breaks in step with the count. *)
Lemma loop_counts_groups
      (turn : nat * (string * list Row) -> M unit) :
  (forall item st,
      snd (snd item) <> [] ->
      exists st' block,
        turn item st = (Ok tt, st') /\ ~ In PageBreak block /\
        elements st'
        = (elements st ++ break_before (label_count st) ++ block)%list /\
        label_count st' = S (label_count st)) ->
  forall items st,
    Forall (fun item => snd (snd item) <> []) items ->
    breaks_match_count st ->
    exists st',
      for_each turn items st = (Ok tt, st') /\
      label_count st' = label_count st + List.length items /\
      breaks_match_count st'.
Proof.
  intros Hturn. induction items as [|item items IH]; intros st Hne Hinv.
  - exists st. repeat split; [cbn; lia | exact Hinv].
  - inversion Hne as [|? ? Hitem Hitems]; subst.
    destruct (Hturn item st Hitem) as (st1 & block & H1 & Hb & Hels & Hn).
    destruct (IH st1 Hitems) as (st2 & H2 & Hn2 & Hinv2).
    + unfold breaks_match_count, MAX_LABELS_PER_PAGE in *.
      rewrite Hels, Hn. now apply breaks_match_count_step.
    + exists st2. split; [now rewrite (for_each_cons _ _ _ _ _ H1)|].
      split; [cbn [List.length]; lia | exact Hinv2].
Qed.

Lemma enumerate_nonempty (groups : list (string * list Row)) :
  Forall (fun g => snd g <> []) groups ->
  Forall (fun item : nat * (string * list Row) => snd (snd item) <> [])
         (Py.enumerate groups).
Proof.
  unfold Py.enumerate. intros H. generalize 0.
  induction H as [|g groups Hg _ IH]; intros n; [constructor|].
  cbn [List.length seq combine]. constructor; [exact Hg | apply IH].
Qed.

Lemma enumerate_length {A} (l : list A) :
  List.length (Py.enumerate l) = List.length l.
Proof.
  unfold Py.enumerate. rewrite length_combine, length_seq. lia.
Qed.

(** The state in which the loop of a run ends, given the columns and the
    groups of the run. *)
Lemma run_loop_counts
      (turn : list string -> string -> string -> string -> bool -> bool ->
              nat -> nat * (string * list Row) -> M unit)
      (upper : string -> string) (df : DataFrame)
      (progress_bar status_text : bool)
      (p d l : string) (groups : list (string * list Row)) :
  (forall cols p d l total item st,
      snd (snd item) <> [] ->
      exists st' block,
        turn cols p d l progress_bar status_text total item st = (Ok tt, st')
        /\ ~ In PageBreak block /\
        elements st'
        = (elements st ++ break_before (label_count st) ++ block)%list /\
        label_count st' = S (label_count st)) ->
  resolve_columns (map upper (columns df)) = Ok (p, d, l) ->
  groupby (set_columns df (map upper (columns df))) l = Ok groups ->
  exists st',
    outcome (generate upper turn df progress_bar status_text)
    = Ok match elements st' with
         | [] => None
         | _ :: _ => Some (elements st')
         end /\
    label_count st' = List.length groups /\
    breaks_match_count st'.
Proof.
  intros Hturn Hres Hgroups.
  destruct (loop_counts_groups
              (turn (map upper (columns df)) p d l progress_bar status_text
                    (List.length groups))
              (Hturn _ _ _ _ _) (Py.enumerate groups)
              (mkLoopState [] 0 (told_columns status_text (p, d, l))))
    as (st' & Hloop & Hn & Hinv).
  - apply enumerate_nonempty. eapply groupby_nonempty; eassumption.
  - reflexivity.
  - exists st'. split; [eapply generate_outcome; eassumption|].
    rewrite enumerate_length in Hn. split; [exact Hn | exact Hinv].
Qed.

(** The page breaks of the document that a run builds are fixed by the
    number of locations alone: none for up to four locations and one more
    for every four beyond, whether the turns placed their blocks or
    raised. *)
Theorem page_breaks_by_locations
  (upper : string -> string) (markup_ok : string -> bool)
  (df : DataFrame) (progress_bar status_text : bool)
  (found : string * string * string) (groups : list (string * list Row))
  (els : list Flowable) :
  resolve_columns (map upper (columns df)) = Ok found ->
  groupby (set_columns df (map upper (columns df))) (snd found) = Ok groups ->
  outcome (generate_labels_from_excel_v1 upper markup_ok df
                                         progress_bar status_text)
  = Ok (Some els)
  \/ outcome (generate_labels_from_excel_v2 upper markup_ok df
                                            progress_bar status_text)
     = Ok (Some els) ->
  count_of is_page_break els = (List.length groups - 1) / 4.
Proof.
  destruct found as [[p d] l]. cbn [snd]. intros Hres Hgroups Hout.
  assert (Hgen : forall st',
             Ok match elements st' with
                | [] => None
                | _ :: _ => Some (elements st')
                end = Ok (Some els) ->
             label_count st' = List.length groups ->
             breaks_match_count st' ->
             count_of is_page_break els = (List.length groups - 1) / 4).
  { intros st' E Hn Hinv. unfold breaks_match_count in Hinv.
    rewrite Hn in Hinv.
    destruct (elements st'); [discriminate|]. now injection E as <-. }
  destruct Hout as [Hout|Hout].
  - destruct (run_loop_counts (process_group_v1 markup_ok) upper df
                progress_bar status_text p d l groups)
      as (st' & Ho & Hn & Hinv); try assumption.
    { intros. now apply turn_v1_counted. }
    unfold generate_labels_from_excel_v1 in Hout. rewrite Ho in Hout.
    now apply (Hgen st').
  - destruct (run_loop_counts (process_group_v2 markup_ok) upper df
                progress_bar status_text p d l groups)
      as (st' & Ho & Hn & Hinv); try assumption.
    { intros. now apply turn_v2_counted. }
    unfold generate_labels_from_excel_v2 in Hout. rewrite Ho in Hout.
    now apply (Hgen st').
Qed.

(** With five locations or more no run returns [None], whether or not a
    block was placed: the page break of the fifth turn is in [elements] by
    then, and the generator goes on to build a document where it placed no
    label. *)
Theorem five_locations_never_none
  (upper : string -> string) (markup_ok : string -> bool)
  (df : DataFrame) (progress_bar status_text : bool)
  (found : string * string * string) (groups : list (string * list Row)) :
  resolve_columns (map upper (columns df)) = Ok found ->
  groupby (set_columns df (map upper (columns df))) (snd found) = Ok groups ->
  5 <= List.length groups ->
  outcome (generate_labels_from_excel_v1 upper markup_ok df
                                         progress_bar status_text)
  <> Ok None /\
  outcome (generate_labels_from_excel_v2 upper markup_ok df
                                         progress_bar status_text)
  <> Ok None.
Proof.
  destruct found as [[p d] l]. cbn [snd]. intros Hres Hgroups Hfive.
  assert (Hgen : forall st',
             label_count st' = List.length groups ->
             breaks_match_count st' ->
             Ok match elements st' with
                | [] => None
                | _ :: _ => Some (elements st')
                end <> Ok (@None (list Flowable))).
  { intros st' Hn Hinv. unfold breaks_match_count, MAX_LABELS_PER_PAGE in Hinv.
    rewrite Hn in Hinv. destruct (elements st') as [|f els].
    - change (count_of is_page_break []) with 0 in Hinv.
      pose proof (Nat.div_mod_eq (List.length groups - 1) 4).
      pose proof (Nat.mod_upper_bound (List.length groups - 1) 4). lia.
    - discriminate. }
  split.
  - destruct (run_loop_counts (process_group_v1 markup_ok) upper df
                progress_bar status_text p d l groups)
      as (st' & Ho & Hn & Hinv); try assumption.
    { intros. now apply turn_v1_counted. }
    unfold generate_labels_from_excel_v1. rewrite Ho. now apply Hgen.
  - destruct (run_loop_counts (process_group_v2 markup_ok) upper df
                progress_bar status_text p d l groups)
      as (st' & Ho & Hn & Hinv); try assumption.
    { intros. now apply turn_v2_counted. }
    unfold generate_labels_from_excel_v2. rewrite Ho. now apply Hgen.
Qed.

Lemma page_breaks_of_nine_groups :
  match outcome (run_v1 nine_groups true true) with
  | Ok (Some els) => count_of is_page_break els = 2
  | _ => False
  end.
Proof.
  pose (groups := match groupby (frame (run_v1 nine_groups true true))
                                "LOCATION" with
                  | Ok g => g
                  | Raise _ => []
                  end).
  assert (Hgroups :
            groupby (set_columns nine_groups
                       (map upper_ascii (columns nine_groups)))
                    (snd ("PART NO", "DESCRIPTION", "LOCATION"))
            = Ok groups) by reflexivity.
  destruct (outcome (run_v1 nine_groups true true)) as [[els|]|e] eqn:E;
    [|vm_compute in E; discriminate E | vm_compute in E; discriminate E].
  exact (page_breaks_by_locations upper_ascii bold_tags_paired nine_groups
           true true ("PART NO", "DESCRIPTION", "LOCATION") groups els
           eq_refl Hgroups (or_introl E)).
Defined.

Lemma five_bad_locations_never_none :
  outcome (run_v1 five_groups_all_bad false true) <> Ok None /\
  outcome (run_v2 five_groups_all_bad false true) <> Ok None.
Proof.
  eapply (five_locations_never_none upper_ascii bold_tags_paired
            five_groups_all_bad false true
            ("PART NO", "DESCRIPTION", "LOCATION")).
  - reflexivity.
  - vm_compute. reflexivity.
  - simpl. lia.
Defined.

(** ** The location strips of a document *)

Lemma strips_of_part_table (p d : ParagraphObj) (style : list StyleCmd) :
  strips_of [Table [[Text "Part No"; Flow p]; [Text "Description"; Flow d]]
                   style] = [].
Proof. reflexivity. Qed.

Lemma build_tables_v1_strips (markup_ok : string -> bool) (cols : list string)
      (part_no_col desc_col loc_col : string) (part1 part2 : Row)
      (t1 t2 lt : Flowable) :
  build_tables_v1 markup_ok cols part_no_col desc_col loc_col part1 part2
  = Ok (t1, t2, lt) ->
  exists fields,
    List.length fields = 7 /\
    strips_of [t1; Spacer; t2; lt; Spacer] = [map Text fields].
Proof.
  unfold build_tables_v1.
  destruct (getcell cols part1 part_no_col) as [pn1|]; [|discriminate].
  destruct (getcell cols part1 desc_col) as [ds1|]; [|discriminate].
  destruct (getcell cols part2 part_no_col) as [pn2|]; [|discriminate].
  destruct (getcell cols part2 desc_col) as [ds2|]; [|discriminate].
  destruct (getcell cols part1 loc_col) as [loc|]; [|discriminate].
  cbn [rbind]. rewrite parse_v1_str. cbn [rbind].
  destruct (format_part_no_v1 markup_ok (Py.PyStr pn1)); [|discriminate].
  destruct (format_description_v1 markup_ok (Py.PyStr ds1)); [|discriminate].
  destruct (format_part_no_v1 markup_ok (Py.PyStr pn2)); [|discriminate].
  destruct (format_description_v1 markup_ok (Py.PyStr ds2)); [|discriminate].
  cbn [rbind]. intros [= <- <- <-].
  eexists. split; [apply seven_fields_length | reflexivity].
Qed.

Lemma build_tables_v2_strips (markup_ok : string -> bool) (cols : list string)
      (part_no_col desc_col loc_col : string) (part1 : Row)
      (t1 lt : Flowable) :
  build_tables_v2 markup_ok cols part_no_col desc_col loc_col part1
  = Ok (t1, lt) ->
  exists fields,
    List.length fields = 7 /\
    strips_of [t1; Spacer; lt; Spacer] = [map Text fields].
Proof.
  unfold build_tables_v2.
  destruct (getcell cols part1 part_no_col) as [pn1|]; [|discriminate].
  destruct (getcell cols part1 desc_col) as [ds1|]; [|discriminate].
  destruct (getcell cols part1 loc_col) as [loc|]; [|discriminate].
  cbn [rbind].
  change (parse_location_string_v2 (Py.PyStr loc))
    with (parse_location_string_v1 (Py.PyStr loc)).
  rewrite parse_v1_str. cbn [rbind].
  destruct (format_part_no_v2 markup_ok (Py.PyStr pn1)); [|discriminate].
  destruct (format_description markup_ok (Py.PyStr ds1)); [|discriminate].
  cbn [rbind]. intros [= <- <-].
  eexists. split; [apply seven_fields_length | reflexivity].
Qed.

Lemma strips_have_seven_step (st : LoopState) (n : nat)
      (block : list Flowable) (evs : list Event) (fields : list string) :
  strips_have_seven st ->
  List.length fields = 7 ->
  strips_of block = [map Text fields] \/ strips_of block = [] ->
  strips_have_seven
    (mkLoopState (elements st ++ break_before (label_count st) ++ block)
                 n evs).
Proof.
  unfold strips_have_seven. cbn [elements]. intros Hst Hlen Hblock.
  rewrite !strips_of_app, strips_of_break_before. cbn [app].
  apply Forall_app. split; [exact Hst|].
  destruct Hblock as [-> | ->]; [|constructor].
  constructor; [now rewrite length_map | constructor].
Qed.

Lemma turn_v1_strips (markup_ok : string -> bool) (cols : list string)
      (part_no_col desc_col loc_col : string) (progress_bar status_text : bool)
      (total : nat) (item : nat * (string * list Row)) (st : LoopState) :
  strips_have_seven st ->
  exists st',
    process_group_v1 markup_ok cols part_no_col desc_col loc_col
                     progress_bar status_text total item st = (Ok tt, st') /\
    strips_have_seven st'.
Proof.
  intros Hst. destruct item as [i [location group]].
  destruct group as [|r1 rest].
  - eexists. split; [apply turn_v1_empty | exact Hst].
  - set (r2 := match rest with [] => r1 | r :: _ => r end).
    assert (Hsel : select_parts_v1 (r1 :: rest) = Ok (Some (r1, r2)))
      by (rewrite select_parts_v1_cases; subst r2; destruct rest;
          reflexivity).
    destruct (build_tables_v1 markup_ok cols part_no_col desc_col loc_col
                              r1 r2) as [[[t1 t2] lt]|e] eqn:Hb.
    + eexists. split; [eapply turn_v1_built; eassumption|].
      destruct (build_tables_v1_strips _ _ _ _ _ _ _ _ _ _ Hb)
        as (fields & Hlen & Hs).
      apply (strips_have_seven_step st _ _ _ fields Hst Hlen). now left.
    + eexists. split; [eapply turn_v1_raised; eassumption|].
      rewrite <- (app_nil_r (break_before (label_count st))).
      apply (strips_have_seven_step st _ [] _ (repeat "" 7) Hst eq_refl).
      now right.
Qed.

Lemma turn_v2_strips (markup_ok : string -> bool) (cols : list string)
      (part_no_col desc_col loc_col : string) (progress_bar status_text : bool)
      (total : nat) (item : nat * (string * list Row)) (st : LoopState) :
  strips_have_seven st ->
  exists st',
    process_group_v2 markup_ok cols part_no_col desc_col loc_col
                     progress_bar status_text total item st = (Ok tt, st') /\
    strips_have_seven st'.
Proof.
  intros Hst. destruct item as [i [location group]].
  destruct group as [|r1 rest].
  - eexists. split; [apply turn_v2_empty | exact Hst].
  - assert (Hsel : select_parts_v2 (r1 :: rest) = Ok (Some r1))
      by now rewrite select_parts_v2_cases.
    destruct (build_tables_v2 markup_ok cols part_no_col desc_col loc_col r1)
      as [[t1 lt]|e] eqn:Hb.
    + eexists. split; [eapply turn_v2_built; eassumption|].
      destruct (build_tables_v2_strips _ _ _ _ _ _ _ _ Hb)
        as (fields & Hlen & Hs).
      apply (strips_have_seven_step st _ _ _ fields Hst Hlen). now left.
    + eexists. split; [eapply turn_v2_raised; eassumption|].
      rewrite <- (app_nil_r (break_before (label_count st))).
      apply (strips_have_seven_step st _ [] _ (repeat "" 7) Hst eq_refl).
      now right.
Qed.

(** A property of the state that every turn keeps is kept by the loop. *)
Lemma for_each_invariant {A} (P : LoopState -> Prop) (body : A -> M unit) :
  (forall x st, P st -> exists st', body x st = (Ok tt, st') /\ P st') ->
  forall l st, P st ->
               exists st', for_each body l st = (Ok tt, st') /\ P st'.
Proof.
  intros Hbody. induction l as [|x l IH]; intros st Hst.
  - now exists st.
  - destruct (Hbody x st Hst) as (st1 & H1 & P1).
    destruct (IH st1 P1) as (st2 & H2 & P2).
    exists st2. split; [now rewrite (for_each_cons _ _ _ _ _ H1) | exact P2].
Qed.

(** The document that a run returns is what its loop appended. *)
Lemma generate_document_invariant
      (P : LoopState -> Prop)
      (upper : string -> string)
      (turn : list string -> string -> string -> string -> bool -> bool ->
              nat -> nat * (string * list Row) -> M unit)
      (df : DataFrame) (progress_bar status_text : bool)
      (els : list Flowable) :
  (forall cols p d l total item st,
      P st ->
      exists st',
        turn cols p d l progress_bar status_text total item st = (Ok tt, st')
        /\ P st') ->
  (forall evs, P (mkLoopState [] 0 evs)) ->
  outcome (generate upper turn df progress_bar status_text) = Ok (Some els) ->
  exists st', P st' /\ elements st' = els.
Proof.
  intros Hturn Hstart. unfold generate.
  destruct (resolve_columns _) as [[[p d] l]|e]; [|discriminate].
  destruct (groupby _ _) as [groups|e]; [|discriminate].
  match goal with
  | |- context [for_each ?body ?items] =>
      destruct (for_each_invariant P body
                  (fun x st => Hturn _ _ _ _ _ x st) items
                  (mkLoopState [] 0
                     (if status_text
                      then [StatusUsingColumns p d l] else []))
                  (Hstart _)) as (st' & Hloop & Hst')
  end.
  unfold bind. rewrite Hloop.
  destruct st' as [els' n evs]. exists (mkLoopState els' n evs).
  split; [exact Hst'|].
  destruct progress_bar, els'; cbn in *; congruence.
Qed.

(** In every document that a run of either generator returns, every
    location strip has seven field cells after its label cell. *)
Theorem strips_have_seven_fields
  (upper : string -> string) (markup_ok : string -> bool)
  (df : DataFrame) (progress_bar status_text : bool) (els : list Flowable) :
  outcome (generate_labels_from_excel_v1 upper markup_ok df
                                         progress_bar status_text)
  = Ok (Some els)
  \/ outcome (generate_labels_from_excel_v2 upper markup_ok df
                                            progress_bar status_text)
     = Ok (Some els) ->
  Forall (fun cells => List.length cells = 7) (strips_of els).
Proof.
  intros [H|H].
  - destruct (generate_document_invariant strips_have_seven upper
                (process_group_v1 markup_ok) df progress_bar status_text els)
      as (st' & Hst' & <-); try assumption.
    + intros. now apply turn_v1_strips.
    + intros evs. constructor.
  - destruct (generate_document_invariant strips_have_seven upper
                (process_group_v2 markup_ok) df progress_bar status_text els)
      as (st' & Hst' & <-); try assumption.
    + intros. now apply turn_v2_strips.
    + intros evs. constructor.
Qed.

Lemma strips_of_nine_groups :
  match outcome (run_v1 nine_groups true true) with
  | Ok (Some els) => Forall (fun cells => List.length cells = 7) (strips_of els)
  | _ => False
  end.
Proof.
  destruct (outcome (run_v1 nine_groups true true)) as [[els|]|e] eqn:E;
    [|vm_compute in E; discriminate E | vm_compute in E; discriminate E].
  exact (strips_have_seven_fields upper_ascii bold_tags_paired nine_groups
           true true els (or_introl E)).
Defined.

(** ** The calls to the callbacks stay in range *)

Lemma turn_effect_in_range (progress_bar status_text : bool) (total i : nat)
      (location : string) (st st' : LoopState) :
  turn_effect progress_bar status_text total i location st st' ->
  i < total ->
  Forall in_range (events st) -> Forall in_range (events st').
Proof.
  intros Heff Hi Hst.
  assert (Hrep : Forall in_range
                   (events (reported progress_bar status_text total i
                                     location st))).
  { cbn [events reported]. apply Forall_app. split; [exact Hst|].
    apply Forall_app. split.
    - destruct progress_bar; constructor; [exact Hi | constructor].
    - destruct status_text; constructor; [cbn; lia | constructor]. }
  destruct Heff; cbn [events]; try exact Hrep.
  apply Forall_app. split; [exact Hrep|].
  destruct status_text; constructor; [exact I | constructor].
Qed.

Lemma loop_effect_in_range (progress_bar status_text : bool) (total : nat)
      (items : list (nat * (string * list Row))) (st st' : LoopState) :
  loop_effect progress_bar status_text total items st st' ->
  Forall (fun item => fst item < total) items ->
  Forall in_range (events st) -> Forall in_range (events st').
Proof.
  induction 1 as [st|item items st st1 st2 Hturn _ IH]; intros Hitems Hst;
    [exact Hst|].
  inversion Hitems; subst. apply IH; [assumption|].
  eapply turn_effect_in_range; eassumption.
Qed.

Lemma enumerate_indices {A} (l : list A) :
  Forall (fun item => fst item < List.length l) (Py.enumerate l).
Proof.
  unfold Py.enumerate. apply Forall_forall. intros [i x] Hin.
  apply in_combine_l in Hin. apply in_seq in Hin. cbn [fst]. lia.
Qed.

(** In every run of either generator, on every frame, each call to the
    progress bar is for a group [i] of [total] with [i < total], so that the
    quotient [i / total] is defined and the value shown is below 100, and
    the positions told to the status callback are between 1 and [total]. *)
Theorem callbacks_stay_in_range
  (upper : string -> string) (markup_ok : string -> bool)
  (df : DataFrame) (progress_bar status_text : bool) :
  Forall in_range
         (calls (generate_labels_from_excel_v1 upper markup_ok df
                                               progress_bar status_text)) /\
  Forall in_range
         (calls (generate_labels_from_excel_v2 upper markup_ok df
                                               progress_bar status_text)).
Proof.
  assert (Hgen : forall turn,
             (forall cols p d l total item st, exists st',
                   turn cols p d l progress_bar status_text total item st
                   = (Ok tt, st')
                   /\ turn_effect progress_bar status_text total (fst item)
                                  (fst (snd item)) st st') ->
             Forall in_range
                    (calls (generate upper turn df progress_bar status_text))).
  { intros turn Hturn.
    destruct (generate_anatomy upper turn df progress_bar status_text Hturn)
      as [_ H].
    assert (Htold : forall found,
               Forall in_range (told_columns status_text found)).
    { intros found. unfold told_columns.
      destruct status_text; constructor; [exact I | constructor]. }
    destruct (resolve_columns _) as [found|e];
      [|destruct H as [_ ->]; constructor].
    destruct (groupby _ _) as [groups|e];
      [|destruct H as [_ ->]; apply Htold].
    destruct H as (st' & Heff & _ & ->).
    apply loop_effect_in_range in Heff;
      [|apply enumerate_indices | apply Htold].
    apply Forall_app. split; [exact Heff|].
    apply Forall_app. split.
    - destruct progress_bar; constructor; [exact I | constructor].
    - destruct status_text; constructor; [|constructor].
      destruct (elements st'); exact I. }
  split.
  - apply (Hgen (process_group_v1 markup_ok)). intros. apply turn_v1_effect.
  - apply (Hgen (process_group_v2 markup_ok)). intros. apply turn_v2_effect.
Qed.

(** ** The page of the application *)

(** Whichever option of the select box is chosen, the click runs the v1
    generator and names the download "multiplepart_labels.pdf": neither
    option reads "Single Part", the only label type for which [main] runs
    the v2 generator. *)
Theorem every_option_runs_v1
  (upper : string -> string) (markup_ok : string -> bool)
  (label_type : string) (df : DataFrame) :
  In label_type label_type_options ->
  let r1 := generate_labels_from_excel_v1 upper markup_ok df true true in
  snd (main upper markup_ok label_type df) = frame r1 /\
  fst (main upper markup_ok label_type df)
  = match outcome r1 with
    | Raise e => ErrorOccurred e
    | Ok (Some data) => Download data "multiplepart_labels.pdf"
    | Ok None => FailedToGenerate
    end.
Proof.
  intros Hin r1. unfold main.
  assert (E : (label_type =? "Single Part") = false).
  { destruct Hin as [<-|[<-|[]]]; reflexivity. }
  rewrite E. split; reflexivity.
Qed.

Lemma enhanced_option_runs_v1 :
  let r1 := run_v1 two_rows_one_location true true in
  snd (main upper_ascii bold_tags_paired "Enhanced Labels (v2)"
                    two_rows_one_location) = frame r1 /\
  fst (main upper_ascii bold_tags_paired "Enhanced Labels (v2)"
                    two_rows_one_location)
  = match outcome r1 with
    | Raise e => ErrorOccurred e
    | Ok (Some data) => Download data "multiplepart_labels.pdf"
    | Ok None => FailedToGenerate
    end.
Proof.
  apply (every_option_runs_v1 upper_ascii bold_tags_paired
           "Enhanced Labels (v2)" two_rows_one_location).
  simpl. auto.
Defined.

(** ** The theorems on runs, at given frames *)

Lemma at_most_four_on_nine_groups :
  match outcome (run_v2 nine_groups true true) with
  | Ok (Some els) => Forall (fun k => k <= 4) (page_block_counts els)
  | _ => False
  end.
Proof.
  destruct (outcome (run_v2 nine_groups true true)) as [[els|]|e] eqn:E;
    [|vm_compute in E; discriminate E | vm_compute in E; discriminate E].
  exact (pages_hold_at_most_four upper_ascii bold_tags_paired nine_groups
           true true els (or_intror E)).
Defined.

Lemma locations_of_b_then_a_in_key_order :
  locations_told (calls (run_v1 b_then_a true true)) = ["A"; "B"] /\
  locations_told (calls (run_v2 b_then_a true true)) = ["A"; "B"].
Proof.
  apply (run_tells_locations_in_key_order upper_ascii bold_tags_paired
           b_then_a true ("PART NO", "DESCRIPTION", "LOCATION")
           [ ("A", [["P2"; "Second row"; "A"]]);
             ("B", [["P1"; "First row"; "B"]]) ]); reflexivity.
Defined.

Lemma raised_turn_of_a_bad_record :
  let r := ["AB12345"; "<b>"; "B"] in
  let st := mkLoopState [good_part_table_v2] 1 [] in
  let st' := snd (process_group_v2 bold_tags_paired three_columns
                    "PART NO" "DESCRIPTION" "LOCATION" false true 2
                    (1, ("B", [r])) st) in
  strips_of (elements st') = strips_of (elements st) /\
  last (events st') ProgressDone = StatusError "B" ValueError.
Proof.
  intros r st.
  apply (proj2 (raised_turn_places_no_block bold_tags_paired three_columns
                  "PART NO" "DESCRIPTION" "LOCATION" false 2 1 "B" [r] st
                  ValueError) r).
  - reflexivity.
  - subst r. apply bad_record_raises_v2. reflexivity.
Defined.

Lemma faultless_loop_of_two_groups :
  exists st',
    for_each (process_group_v1 bold_tags_paired three_columns
                "PART NO" "DESCRIPTION" "LOCATION" false false 2)
             [ (0, ("A", [["AB12345"; "Short"; "A"]]));
               (1, ("B", [["AB12345"; "Short"; "B"]])) ]
             (mkLoopState [] 0 []) = (Ok tt, st') /\
    label_count st' = 2 /\
    page_block_counts (elements st') = four_to_a_page 2.
Proof.
  apply (proj1 (faultless_loop_four_to_a_page bold_tags_paired three_columns
                  "PART NO" "DESCRIPTION" "LOCATION" false false 2
                  [ (0, ("A", [["AB12345"; "Short"; "A"]]));
                    (1, ("B", [["AB12345"; "Short"; "B"]])) ] [])).
  repeat constructor; cbn [fst snd];
    do 3 eexists; (split; [reflexivity|]);
    apply good_record_builds_v1; reflexivity.
Defined.

(** ** A second run on the frame that a run left *)

Lemma generate_frame
      (upper : string -> string)
      (turn : list string -> string -> string -> string -> bool -> bool ->
              nat -> nat * (string * list Row) -> M unit)
      (df : DataFrame) (progress_bar status_text : bool) :
  frame (generate upper turn df progress_bar status_text)
  = set_columns df (map upper (columns df)).
Proof.
  unfold generate.
  destruct (resolve_columns _) as [[[p d] l]|e]; [|reflexivity].
  destruct (groupby _ _) as [groups|e]; [|reflexivity].
  match goal with
  | |- context [let (_, _) := ?run in _] => destruct run as [[u|e] st]
  end; [|reflexivity].
  destruct (elements st); reflexivity.
Qed.

Lemma generate_on_upper_cased
      (upper : string -> string)
      (turn : list string -> string -> string -> string -> bool -> bool ->
              nat -> nat * (string * list Row) -> M unit)
      (df : DataFrame) (progress_bar status_text : bool) :
  map upper (map upper (columns df)) = map upper (columns df) ->
  generate upper turn (set_columns df (map upper (columns df)))
           progress_bar status_text
  = generate upper turn df progress_bar status_text.
Proof.
  intros H. unfold generate. cbn [columns set_columns rows].
  rewrite H. reflexivity.
Qed.

(** The frame that a run left has upper-cased labels; where upper-casing
    them again changes nothing, a second run on that frame, of either
    generator, does what the run on the frame as first given does: the same
    result, the same calls, the same frame left. *)
Theorem second_run_same_as_first
  (upper : string -> string) (markup_ok : string -> bool)
  (df : DataFrame) (progress_bar status_text : bool) :
  map upper (map upper (columns df)) = map upper (columns df) ->
  let left1 := frame (generate_labels_from_excel_v1 upper markup_ok df
                        progress_bar status_text) in
  let left2 := frame (generate_labels_from_excel_v2 upper markup_ok df
                        progress_bar status_text) in
  left1 = left2 /\
  generate_labels_from_excel_v1 upper markup_ok left1 progress_bar status_text
  = generate_labels_from_excel_v1 upper markup_ok df progress_bar status_text
  /\
  generate_labels_from_excel_v2 upper markup_ok left1 progress_bar status_text
  = generate_labels_from_excel_v2 upper markup_ok df progress_bar status_text.
Proof.
  intros H left1 left2. subst left1 left2.
  unfold generate_labels_from_excel_v1, generate_labels_from_excel_v2.
  rewrite !generate_frame. split; [reflexivity|].
  split; now apply generate_on_upper_cased.
Qed.

Lemma second_run_on_b_then_a :
  frame (run_v1 b_then_a true true) = frame (run_v2 b_then_a true true) /\
  run_v1 (frame (run_v1 b_then_a true true)) true true
  = run_v1 b_then_a true true /\
  run_v2 (frame (run_v1 b_then_a true true)) true true
  = run_v2 b_then_a true true.
Proof.
  apply (second_run_same_as_first upper_ascii bold_tags_paired b_then_a
           true true).
  reflexivity.
Defined.

(** ** The blocks of a document are whole *)

Lemma count_of_break_before (kind : Flowable -> bool) (n : nat) :
  kind PageBreak = false -> count_of kind (break_before n) = 0.
Proof.
  intros H. destruct (break_before_cases n) as [(_ & _ & ->)|(_ & ->)];
    [|reflexivity].
  unfold count_of. cbn [filter]. now rewrite H.
Qed.

Lemma whole_blocks_step (tables : nat) (st : LoopState) (n : nat)
      (block : list Flowable) (evs : list Event) :
  whole_blocks tables st ->
  (count_of is_table block = tables /\
   count_of is_location_table block = 1 /\
   count_of is_spacer block = 2)
  \/ block = [] ->
  whole_blocks tables
    (mkLoopState (elements st ++ break_before (label_count st) ++ block)
                 n evs).
Proof.
  unfold whole_blocks. cbn [elements]. intros [Ht Hs] Hblock.
  rewrite !count_of_app, !count_of_break_before by reflexivity.
  destruct Hblock as [(-> & -> & ->)| ->]; cbn; lia.
Qed.

Lemma build_tables_v1_counts (markup_ok : string -> bool) (cols : list string)
      (part_no_col desc_col loc_col : string) (part1 part2 : Row)
      (t1 t2 lt : Flowable) :
  build_tables_v1 markup_ok cols part_no_col desc_col loc_col part1 part2
  = Ok (t1, t2, lt) ->
  count_of is_table [t1; Spacer; t2; lt; Spacer] = 3 /\
  count_of is_location_table [t1; Spacer; t2; lt; Spacer] = 1 /\
  count_of is_spacer [t1; Spacer; t2; lt; Spacer] = 2.
Proof.
  unfold build_tables_v1.
  repeat match goal with
         | |- context [rbind ?r _] =>
             destruct r; cbn [rbind]; [|discriminate]
         end.
  intros [= <- <- <-]. repeat split.
Qed.

Lemma build_tables_v2_counts (markup_ok : string -> bool) (cols : list string)
      (part_no_col desc_col loc_col : string) (part1 : Row)
      (t1 lt : Flowable) :
  build_tables_v2 markup_ok cols part_no_col desc_col loc_col part1
  = Ok (t1, lt) ->
  count_of is_table [t1; Spacer; lt; Spacer] = 2 /\
  count_of is_location_table [t1; Spacer; lt; Spacer] = 1 /\
  count_of is_spacer [t1; Spacer; lt; Spacer] = 2.
Proof.
  unfold build_tables_v2.
  repeat match goal with
         | |- context [rbind ?r _] =>
             destruct r; cbn [rbind]; [|discriminate]
         end.
  intros [= <- <-]. repeat split.
Qed.

Lemma turn_v1_whole (markup_ok : string -> bool) (cols : list string)
      (part_no_col desc_col loc_col : string) (progress_bar status_text : bool)
      (total : nat) (item : nat * (string * list Row)) (st : LoopState) :
  whole_blocks 3 st ->
  exists st',
    process_group_v1 markup_ok cols part_no_col desc_col loc_col
                     progress_bar status_text total item st = (Ok tt, st') /\
    whole_blocks 3 st'.
Proof.
  intros Hst. destruct item as [i [location group]].
  destruct group as [|r1 rest].
  - eexists. split; [apply turn_v1_empty | exact Hst].
  - set (r2 := match rest with [] => r1 | r :: _ => r end).
    assert (Hsel : select_parts_v1 (r1 :: rest) = Ok (Some (r1, r2)))
      by (rewrite select_parts_v1_cases; subst r2; destruct rest;
          reflexivity).
    destruct (build_tables_v1 markup_ok cols part_no_col desc_col loc_col
                              r1 r2) as [[[t1 t2] lt]|e] eqn:Hb.
    + eexists. split; [eapply turn_v1_built; eassumption|].
      apply whole_blocks_step; [exact Hst|]. left.
      exact (build_tables_v1_counts _ _ _ _ _ _ _ _ _ _ Hb).
    + eexists. split; [eapply turn_v1_raised; eassumption|].
      rewrite <- (app_nil_r (break_before (label_count st))).
      apply whole_blocks_step; [exact Hst | now right].
Qed.

Lemma turn_v2_whole (markup_ok : string -> bool) (cols : list string)
      (part_no_col desc_col loc_col : string) (progress_bar status_text : bool)
      (total : nat) (item : nat * (string * list Row)) (st : LoopState) :
  whole_blocks 2 st ->
  exists st',
    process_group_v2 markup_ok cols part_no_col desc_col loc_col
                     progress_bar status_text total item st = (Ok tt, st') /\
    whole_blocks 2 st'.
Proof.
  intros Hst. destruct item as [i [location group]].
  destruct group as [|r1 rest].
  - eexists. split; [apply turn_v2_empty | exact Hst].
  - assert (Hsel : select_parts_v2 (r1 :: rest) = Ok (Some r1))
      by now rewrite select_parts_v2_cases.
    destruct (build_tables_v2 markup_ok cols part_no_col desc_col loc_col r1)
      as [[t1 lt]|e] eqn:Hb.
    + eexists. split; [eapply turn_v2_built; eassumption|].
      apply whole_blocks_step; [exact Hst|]. left.
      exact (build_tables_v2_counts _ _ _ _ _ _ _ _ Hb).
    + eexists. split; [eapply turn_v2_raised; eassumption|].
      rewrite <- (app_nil_r (break_before (label_count st))).
      apply whole_blocks_step; [exact Hst | now right].
Qed.

(** A document holds whole blocks only: in v1 three tables and two spacers
    for each location strip, in v2 two tables and two spacers; a turn that
    raises leaves no table and no spacer of its block behind. *)
Theorem documents_hold_whole_blocks
  (upper : string -> string) (markup_ok : string -> bool)
  (df : DataFrame) (progress_bar status_text : bool) (els : list Flowable) :
  (outcome (generate_labels_from_excel_v1 upper markup_ok df
                                          progress_bar status_text)
   = Ok (Some els) ->
   count_of is_table els = 3 * count_of is_location_table els /\
   count_of is_spacer els = 2 * count_of is_location_table els)
  /\
  (outcome (generate_labels_from_excel_v2 upper markup_ok df
                                          progress_bar status_text)
   = Ok (Some els) ->
   count_of is_table els = 2 * count_of is_location_table els /\
   count_of is_spacer els = 2 * count_of is_location_table els).
Proof.
  split; intros H.
  - destruct (generate_document_invariant (whole_blocks 3) upper
                (process_group_v1 markup_ok) df progress_bar status_text els)
      as (st' & Hst' & <-); try assumption.
    + intros. now apply turn_v1_whole.
    + intros evs. split; reflexivity.
  - destruct (generate_document_invariant (whole_blocks 2) upper
                (process_group_v2 markup_ok) df progress_bar status_text els)
      as (st' & Hst' & <-); try assumption.
    + intros. now apply turn_v2_whole.
    + intros evs. split; reflexivity.
Qed.

Lemma whole_blocks_with_one_bad :
  match outcome (run_v1 five_groups_one_bad true true) with
  | Ok (Some els) =>
      count_of is_table els = 3 * count_of is_location_table els /\
      count_of is_spacer els = 2 * count_of is_location_table els
  | _ => False
  end.
Proof.
  destruct (outcome (run_v1 five_groups_one_bad true true))
    as [[els|]|e] eqn:E;
    [|vm_compute in E; discriminate E | vm_compute in E; discriminate E].
  exact (proj1 (documents_hold_whole_blocks upper_ascii bold_tags_paired
                  five_groups_one_bad true true els) E).
Defined.

(** ** What escapes a run *)

Lemma generate_reaches_the_end
      (upper : string -> string)
      (turn : list string -> string -> string -> string -> bool -> bool ->
              nat -> nat * (string * list Row) -> M unit)
      (df : DataFrame) (found : string * string * string)
      (groups : list (string * list Row)) :
  (forall cols p d l total item st, exists st',
        turn cols p d l true true total item st = (Ok tt, st')
        /\ turn_effect true true total (fst item) (fst (snd item)) st st') ->
  resolve_columns (map upper (columns df)) = Ok found ->
  groupby (set_columns df (map upper (columns df))) (snd found) = Ok groups ->
  let r := generate upper turn df true true in
  (exists evs last_call,
      calls r = (evs ++ [ProgressDone; last_call])%list /\
      (last_call = StatusBuilding \/ last_call = StatusNoLabels)) /\
  (groups = [] ->
   outcome r = Ok None /\
   exists evs, calls r = (evs ++ [ProgressDone; StatusNoLabels])%list).
Proof.
  intros Hturn Hres Hgroups r.
  destruct (generate_anatomy upper turn df true true Hturn) as [_ H].
  fold r in H. cbn [columns set_columns] in H.
  rewrite Hres, Hgroups in H.
  destruct H as (st' & Hloop & Hout & Hcalls).
  split.
  - exists (events st'). eexists. split; [exact Hcalls|].
    destruct (elements st'); [now right | now left].
  - intros ->. cbn in Hloop.
    inversion Hloop; subst st'. cbn [elements] in Hout, Hcalls.
    split; [exact Hout|]. eexists. exact Hcalls.
Qed.

(** Once the columns are resolved and the groups made, nothing escapes a
    run of either generator before the document is built: whatever the
    turns raise is caught in the loop, the progress bar is set to 100, and
    the last call tells the status callback that the document is being
    built or that no label was generated. Where there is no group, no
    document is built and the run returns [None]. *)
Theorem run_reaches_the_end_of_the_loop
  (upper : string -> string) (markup_ok : string -> bool) (df : DataFrame)
  (found : string * string * string) (groups : list (string * list Row)) :
  resolve_columns (map upper (columns df)) = Ok found ->
  groupby (set_columns df (map upper (columns df))) (snd found) = Ok groups ->
  let r1 := generate_labels_from_excel_v1 upper markup_ok df true true in
  let r2 := generate_labels_from_excel_v2 upper markup_ok df true true in
  (exists evs1 evs2 last1 last2,
      calls r1 = (evs1 ++ [ProgressDone; last1])%list /\
      calls r2 = (evs2 ++ [ProgressDone; last2])%list /\
      (last1 = StatusBuilding \/ last1 = StatusNoLabels) /\
      (last2 = StatusBuilding \/ last2 = StatusNoLabels)) /\
  (groups = [] ->
   outcome r1 = Ok None /\ outcome r2 = Ok None /\
   exists evs1 evs2,
     calls r1 = (evs1 ++ [ProgressDone; StatusNoLabels])%list /\
     calls r2 = (evs2 ++ [ProgressDone; StatusNoLabels])%list).
Proof.
  intros Hres Hgroups r1 r2.
  destruct (generate_reaches_the_end upper (process_group_v1 markup_ok) df
              found groups)
    as [(evs1 & last1 & Hc1 & Hl1) Hnone1];
    [intros; apply turn_v1_effect | exact Hres | exact Hgroups |].
  destruct (generate_reaches_the_end upper (process_group_v2 markup_ok) df
              found groups)
    as [(evs2 & last2 & Hc2 & Hl2) Hnone2];
    [intros; apply turn_v2_effect | exact Hres | exact Hgroups |].
  split.
  - exists evs1, evs2, last1, last2. repeat split; assumption.
  - intros Hnil.
    destruct (Hnone1 Hnil) as (Ho1 & e1 & He1).
    destruct (Hnone2 Hnil) as (Ho2 & e2 & He2).
    split; [exact Ho1|]. split; [exact Ho2|]. now exists e1, e2.
Qed.

Lemma run_on_no_rows_reaches_the_end :
  let df := mkDataFrame ["Part No"; "Description"; "Location"]%list []%list in
  (exists evs1 evs2 last1 last2,
      calls (run_v1 df true true) = (evs1 ++ [ProgressDone; last1])%list /\
      calls (run_v2 df true true) = (evs2 ++ [ProgressDone; last2])%list /\
      (last1 = StatusBuilding \/ last1 = StatusNoLabels) /\
      (last2 = StatusBuilding \/ last2 = StatusNoLabels)) /\
  (outcome (run_v1 df true true) = Ok None /\
   outcome (run_v2 df true true) = Ok None /\
   exists evs1 evs2,
     calls (run_v1 df true true)
     = (evs1 ++ [ProgressDone; StatusNoLabels])%list /\
     calls (run_v2 df true true)
     = (evs2 ++ [ProgressDone; StatusNoLabels])%list).
Proof.
  intros df.
  destruct (run_reaches_the_end_of_the_loop upper_ascii bold_tags_paired df
              ("PART NO", "DESCRIPTION", "LOCATION") [])
    as [Hend Hnone].
  - reflexivity.
  - reflexivity.
  - split; [exact Hend | exact (Hnone eq_refl)].
Defined.
